(** * dmux: layout engine, pane reconciliation and close fencing

    A shallow embedding of the parts of dmux that its specification makes
    claims about, followed by the theorems that settle those claims and by
    further properties of the embedded code (marked X1, X2, ...).

    Conventions of the embedding.
    - A JavaScript number that the code only ever uses as an integer (cell
      counts, pane counts, indices) is a [Z]; the model is exact while such a
      value stays below 2^53 in absolute value.
    - Where the code computes with fractions (layout scores, the unrounded
      pane width) the value is an IEEE binary64 [float], the kernel's
      primitive, which is what a JavaScript number is.
    - A JavaScript string is a [string]; tmux pane ids, slugs and layout
      descriptors are ASCII, so a character code is a byte.
    - [undefined] / a missing property is [None]; a thrown exception is an
      explicit constructor of the result type. *)

From Stdlib Require Import ZArith List String Ascii Lia Bool.
From Stdlib Require Import PrimFloat Uint63 DecimalString HexadecimalString.
From Stdlib Require Import DecimalPos DecimalZ.
From stdpp Require Import gmap strings list sorting.

Local Open Scope Z_scope.

(** ** JavaScript primitives used by the embedded code *)

Module JS.

(** [`${n}`] for an integer-valued number. *)
Definition str (z : Z) : string :=
  DecimalString.NilZero.string_of_int (Z.to_int z).

(** [n.toString(16)] for a non-negative integer: lowercase, no padding. *)
Definition toString16 (z : Z) : string :=
  HexadecimalString.NilZero.string_of_uint (N.to_hex_uint (Z.to_N z)).

Fixpoint repeat_char (c : ascii) (n : nat) : string :=
  match n with
  | O => EmptyString
  | S k => String c (repeat_char c k)
  end.

(** [s.padStart(len, c)] with a one-character filler. *)
Definition padStart (len : nat) (c : ascii) (s : string) : string :=
  repeat_char c (len - String.length s) +:+ s.

(** [s.charCodeAt(i)] of each character in turn. *)
Definition charCodes (s : string) : list Z :=
  map (fun c => Z.of_N (N_of_ascii c)) (list_ascii_of_string s).

(** [Math.ceil(a / b)] for integers [a] and [b > 0]. *)
Definition ceil_div (a b : Z) : Z := - ((- a) / b).

(** [s.split(c)] for a one-character separator. *)
Fixpoint split (sep : ascii) (s : string) : list string :=
  match s with
  | EmptyString => [EmptyString]
  | String c rest =>
      if Ascii.eqb c sep then EmptyString :: split sep rest
      else match split sep rest with
           | [] => [String c EmptyString]
           | h :: t => String c h :: t
           end
  end.

(** [parts.join(sep)]. *)
Definition join (sep : string) (parts : list string) : string :=
  String.concat sep parts.

(** [s.replace(c, '')] with a string pattern: only the first occurrence. *)
Fixpoint removeFirst (c : ascii) (s : string) : string :=
  match s with
  | EmptyString => EmptyString
  | String d rest => if Ascii.eqb d c then rest else String d (removeFirst c rest)
  end.

Definition isDigit (c : ascii) : bool :=
  let n := N_of_ascii c in ((48 <=? n) && (n <=? 57))%N.

(** The longest prefix of decimal digits, and what follows it. *)
Fixpoint spanDigits (s : string) : string * string :=
  match s with
  | EmptyString => (EmptyString, EmptyString)
  | String c rest =>
      if isDigit c then let (d, r) := spanDigits rest in (String c d, r)
      else (EmptyString, s)
  end.

(** [/^\d+$/.test(s)] *)
Definition allDigits (s : string) : bool :=
  match s with
  | EmptyString => false
  | _ => forallb isDigit (list_ascii_of_string s)
  end.

(** [Number.parseInt(s, 10)] on a string of decimal digits. *)
Definition parseDigits (s : string) : Z :=
  fold_left (fun acc c => 10 * acc + (Z.of_N (N_of_ascii c) - 48))
            (list_ascii_of_string s) 0.

(** [s.startsWith(p)] *)
Definition startsWith (p s : string) : bool := String.prefix p s.

(** [s.slice(n)] for [0 <= n]. *)
Definition slice (n : nat) (s : string) : string :=
  substring n (String.length s - n) s.

(** If [s] starts with [p], what follows [p]. *)
Fixpoint stripPrefix (p s : string) : option string :=
  match p, s with
  | EmptyString, _ => Some s
  | String a p', String b s' => if Ascii.eqb a b then stripPrefix p' s' else None
  | String _ _, EmptyString => None
  end.

(** [`"${s}"`] *)
Definition quoted (s : string) : string :=
  let q := String (ascii_of_nat 34) EmptyString in q +:+ s +:+ q.

(** Conversion of an integer-valued number to the float it is. *)
Definition float_of_Z (z : Z) : float :=
  if z <? 0 then PrimFloat.opp (PrimFloat.of_uint63 (Uint63.of_Z (- z)))
  else PrimFloat.of_uint63 (Uint63.of_Z z).

End JS.

(** ** src/layout/LayoutCalculator.ts *)

Module LayoutCalculator.

(** [LayoutConfig] of utils/layoutManager.ts. *)
Record LayoutConfig := {
  SIDEBAR_WIDTH : Z;
  MIN_COMFORTABLE_WIDTH : Z;
  MAX_COMFORTABLE_WIDTH : Z;
  MIN_COMFORTABLE_HEIGHT : Z
}.

Record LayoutConfiguration := {
  cols : Z;
  rows : Z;
  windowWidth : Z;
  paneDistribution : list Z;
  actualPaneWidth : float
}.

(** The values of [i] visited by [for (let i = 0; i < n; i++)]. *)
Definition upto (n : Z) : list Z := map Z.of_nat (seq 0 (Z.to_nat n)).

(** The values visited by [for (let c = n; c >= 1; c--)]. *)
Definition downfrom (n : Z) : list Z := rev (map Z.of_nat (seq 1 (Z.to_nat n))).

(** [distributePanes]: [Math.floor(numPanes / cols)] per column, one more in
    each of the first [numPanes % cols] columns. *)
Definition distributePanes (numPanes cols : Z) : list Z :=
  let basePerCol := numPanes / cols in
  let remainder := Z.rem numPanes cols in
  map (fun i => basePerCol + (if i <? remainder then 1 else 0)) (upto cols).

Section WithConfig.
Variable config : LayoutConfig.

Definition scoreLayout (numContentPanes cols rows : Z) (actualPaneWidth : float)
    (paneHeight terminalHeight : Z) : float :=
  let panesInLastRow :=
    if Z.rem numContentPanes cols =? 0 then cols else Z.rem numContentPanes cols in
  let balanceScore := if panesInLastRow =? 1 then 0.5%float else 1%float in
  let heightScore :=
    PrimFloat.div (JS.float_of_Z paneHeight) (JS.float_of_Z terminalHeight) in
  let widthScore :=
    if PrimFloat.leb actualPaneWidth (JS.float_of_Z (MAX_COMFORTABLE_WIDTH config))
    then 1%float else 0x1.999999999999ap-1%float in
  PrimFloat.mul (PrimFloat.mul balanceScore heightScore) widthScore.

Definition minFeasiblePaneWidth : Z :=
  Z.max 1 (Z.min (MIN_COMFORTABLE_WIDTH config) (MAX_COMFORTABLE_WIDTH config)).

(** The feasibility test of one column count: it fits at the minimum size. *)
Definition fits (numContentPanes terminalWidth terminalHeight cols : Z) : bool :=
  let rows := JS.ceil_div numContentPanes cols in
  let columnBorders := cols - 1 in
  let rowBorders := rows - 1 in
  let minRequiredWidth :=
    SIDEBAR_WIDTH config + cols * minFeasiblePaneWidth + columnBorders in
  let minRequiredHeight := rows * MIN_COMFORTABLE_HEIGHT config + rowBorders in
  (minRequiredWidth <=? terminalWidth) && (minRequiredHeight <=? terminalHeight).

(** The layout and score of a column count that fits. *)
Definition candidate (numContentPanes terminalWidth terminalHeight cols : Z)
    : LayoutConfiguration * float :=
  let rows := JS.ceil_div numContentPanes cols in
  let columnBorders := cols - 1 in
  let rowBorders := rows - 1 in
  let idealMaxWidth :=
    SIDEBAR_WIDTH config + cols * MAX_COMFORTABLE_WIDTH config + columnBorders in
  let windowWidth := Z.min idealMaxWidth terminalWidth in
  let effectiveContentWidth := windowWidth - SIDEBAR_WIDTH config - columnBorders in
  let actualPaneWidth :=
    PrimFloat.div (JS.float_of_Z effectiveContentWidth) (JS.float_of_Z cols) in
  let distribution := distributePanes numContentPanes cols in
  let availableHeight := terminalHeight - rowBorders in
  let paneHeight := availableHeight / rows in
  let score :=
    scoreLayout numContentPanes cols rows actualPaneWidth paneHeight terminalHeight in
  ({| cols := cols; rows := rows; windowWidth := windowWidth;
      paneDistribution := distribution; actualPaneWidth := actualPaneWidth |},
   score).

(** One iteration of the [for] loop over column counts; the state is
    [(bestLayout, bestScore)]. *)
Definition step (numContentPanes terminalWidth terminalHeight : Z)
    (st : option LayoutConfiguration * float) (c : Z)
    : option LayoutConfiguration * float :=
  let (bestLayout, bestScore) := st in
  if fits numContentPanes terminalWidth terminalHeight c then
    let (layout, score) := candidate numContentPanes terminalWidth terminalHeight c in
    let isBetter :=
      PrimFloat.ltb bestScore score
      || (PrimFloat.eqb score bestScore
          && match bestLayout with
             | Some b => c <? cols b
             | None => true
             end) in
    if isBetter then (Some layout, score) else st
  else st.

Definition fallback (numContentPanes terminalWidth : Z) : LayoutConfiguration :=
  {| cols := 1; rows := numContentPanes; windowWidth := terminalWidth;
     paneDistribution := [numContentPanes];
     actualPaneWidth := JS.float_of_Z (terminalWidth - SIDEBAR_WIDTH config) |}.

Definition calculateOptimalLayout (numContentPanes terminalWidth terminalHeight : Z)
    : LayoutConfiguration :=
  if numContentPanes =? 0 then
    {| cols := 0; rows := 0; windowWidth := terminalWidth;
       paneDistribution := []; actualPaneWidth := 0%float |}
  else
    match fold_left (step numContentPanes terminalWidth terminalHeight)
                    (downfrom numContentPanes)
                    (None, (-1)%float) with
    | (Some bestLayout, _) => bestLayout
    | (None, _) => fallback numContentPanes terminalWidth
    end.

End WithConfig.

(** [DEFAULT_LAYOUT_CONFIG] with the pane-width defaults 60 and 100 that
    utils/tmux.ts also exports. *)
Definition config_60_100 : LayoutConfig :=
  {| SIDEBAR_WIDTH := 40; MIN_COMFORTABLE_WIDTH := 60;
     MAX_COMFORTABLE_WIDTH := 100; MIN_COMFORTABLE_HEIGHT := 15 |}.

End LayoutCalculator.

(** ** src/utils/tmux.ts *)

Module Tmux.

Definition SIDEBAR_WIDTH : Z := 40.
Definition MIN_COMFORTABLE_WIDTH : Z := 60.
Definition MAX_COMFORTABLE_WIDTH : Z := 100.
Definition MIN_COMFORTABLE_HEIGHT : Z := 15.

(** One round of the loop of [calculateLayoutChecksum], statement by
    statement. *)
Definition checksumStep (checksum code : Z) : Z :=
  let checksum := Z.shiftr checksum 1 + Z.shiftl (Z.land checksum 1) 15 in
  let checksum := checksum + code in
  Z.land checksum 65535.

(** The value of [checksum] when the loop ends. *)
Definition checksumValue (layout : string) : Z :=
  fold_left checksumStep (JS.charCodes layout) 0.

Definition calculateLayoutChecksum (layout : string) : string :=
  JS.padStart 4 "0" (JS.toString16 (checksumValue layout)).

Section Encoder.
(** [TmuxService.getPaneTitleSync]: the title of a pane, [None] when the
    call throws. *)
Variable getPaneTitleSync : string -> option string.

Definition lastPaneIsSpacer (contentPanes : list string) : bool :=
  match last contentPanes with
  | None => false
  | Some lastPaneId =>
      match getPaneTitleSync lastPaneId with
      | Some title => String.eqb title "dmux-spacer"
      | None => false
      end
  end.

(** The loop that builds [rowPanes]; [col] counts the panes already placed
    and the result carries the descriptors in order. *)
Fixpoint buildRowPanes (panes : list string) (widths : list Z)
    (rowHasSpacer : bool) (spacerWidth rowHeight currentY absoluteX : Z)
    : list string :=
  match panes with
  | [] => []
  | p :: rest =>
      let paneId := JS.removeFirst "%" p in
      let isLastInRow := match rest with [] => true | _ => false end in
      let isSpacerPane := rowHasSpacer && isLastInRow in
      let colWidth := if isSpacerPane then spacerWidth else hd 0 widths in
      let entry :=
        JS.str colWidth +:+ "x" +:+ JS.str rowHeight +:+ "," +:+ JS.str absoluteX
        +:+ "," +:+ JS.str currentY +:+ "," +:+ paneId in
      let absoluteX := absoluteX + colWidth in
      let absoluteX := if isLastInRow then absoluteX else absoluteX + 1 in
      entry :: buildRowPanes rest (tl widths) rowHasSpacer spacerWidth
                 rowHeight currentY absoluteX
  end.

(** [parts[i] = v] on the array a [split] returned: an index inside the array
    is overwritten (the only case that arises, a pane entry has at least four
    fields). *)
Definition setPart (i : nat) (v : string) (parts : list string) : list string :=
  <[i := v]> parts.

Record RowState := {
  paneIndex : nat;
  currentY : Z;
  gridRows : list string
}.

Section Row.
Variables (contentPanes : list string).
Variables (windowHeight cols rows contentWidth contentStartX paneHeight
           maxComfortableWidth : Z).
Variable spacerLast : bool.

(** The body of [for (let row = 0; row < rows; row++)]. *)
Definition rowStep (st : RowState) (row : Z) : RowState :=
  let rowHeight :=
    if row =? rows - 1 then windowHeight - currentY st else paneHeight in
  let panesInThisRow := take (Z.to_nat cols) (drop (paneIndex st) contentPanes) in
  let len := Z.of_nat (length panesInThisRow) in
  let rowHasSpacer :=
    spacerLast && (row =? rows - 1) && (0 <? len)
    && match last panesInThisRow, last contentPanes with
       | Some a, Some b => String.eqb a b
       | _, _ => false
       end in
  let numContentPanesInRow := if rowHasSpacer then len - 1 else len in
  let '(contentPaneWidths, spacerWidth) :=
    if rowHasSpacer then
      let contentPaneWidth := maxComfortableWidth in
      let bordersInRow := len - 1 in
      let totalContentWidth := numContentPanesInRow * contentPaneWidth in
      let remainingWidth := contentWidth - totalContentWidth - bordersInRow in
      (repeat contentPaneWidth (Z.to_nat numContentPanesInRow), remainingWidth)
    else
      let bordersInRow := len - 1 in
      let availableWidth := contentWidth - bordersInRow in
      let evenWidth := availableWidth / len in
      let remainder := availableWidth - evenWidth * len in
      (match repeat evenWidth (Z.to_nat len) with
       | [] => []
       | w :: ws => (w + remainder) :: ws
       end, 0) in
  let rowPanes :=
    buildRowPanes panesInThisRow contentPaneWidths rowHasSpacer spacerWidth
      rowHeight (currentY st) contentStartX in
  let gridRows' :=
    match rowPanes with
    | [] => gridRows st
    | [paneStr] =>
        let parts := JS.split "," paneStr in
        let parts := setPart 1 (JS.str contentStartX) parts in
        let parts := setPart 2 (JS.str (currentY st)) parts in
        gridRows st ++ [JS.join "," parts]
    | _ =>
        gridRows st ++
          [JS.str contentWidth +:+ "x" +:+ JS.str rowHeight +:+ ","
           +:+ JS.str contentStartX +:+ "," +:+ JS.str (currentY st)
           +:+ "{" +:+ JS.join "," rowPanes +:+ "}"]
    end in
  {| paneIndex := (paneIndex st + length panesInThisRow)%nat;
     currentY := if row <? rows - 1 then currentY st + paneHeight + 1 else currentY st;
     gridRows := gridRows' |}.

End Row.

(** [row.replace(/^(\d+x\d+),0,/, `$1,${contentStartX},`)] *)
Definition adjustContainerX (contentStartX : Z) (row : string) : string :=
  let (w, afterW) := JS.spanDigits row in
  match w, JS.stripPrefix "x" afterW with
  | String _ _, Some afterX =>
      let (h, afterH) := JS.spanDigits afterX in
      match h, JS.stripPrefix ",0," afterH with
      | String _ _, Some rest =>
          w +:+ "x" +:+ h +:+ "," +:+ JS.str contentStartX +:+ "," +:+ rest
      | _, _ => row
      end
  | _, _ => row
  end.

(** The descriptor before the checksum is prepended, [None] when there is no
    grid row. *)
Definition layoutWithoutChecksum (controlPaneId : string) (contentPanes : list string)
    (sidebarWidth windowWidth windowHeight columns maxComfortableWidth : Z)
    : option string :=
  let numContentPanes := Z.of_nat (length contentPanes) in
  let cols := columns in
  (* Math.ceil(numContentPanes / cols): NaN for 0/0 and not positive for a
     negative [cols], and then the row loop does not run *)
  let rows := if cols <=? 0 then 0 else JS.ceil_div numContentPanes cols in
  let contentWidth := windowWidth - sidebarWidth - 1 in
  let contentStartX := sidebarWidth + 1 in
  let bordersHeight := rows - 1 in
  let availableHeight := windowHeight - bordersHeight in
  let paneHeight := availableHeight / rows in
  let sidebarId := JS.removeFirst "%" controlPaneId in
  let final :=
    fold_left
      (rowStep contentPanes windowHeight cols rows contentWidth contentStartX
         paneHeight maxComfortableWidth (lastPaneIsSpacer contentPanes))
      (LayoutCalculator.upto rows)
      {| paneIndex := 0; currentY := 0; gridRows := [] |} in
  let sidebar :=
    JS.str sidebarWidth +:+ "x" +:+ JS.str windowHeight +:+ ",0,0," +:+ sidebarId in
  let root := JS.str windowWidth +:+ "x" +:+ JS.str windowHeight +:+ ",0,0{" in
  match gridRows final with
  | [] => None
  | [row] =>
      let contentArea := adjustContainerX contentStartX row in
      Some (root +:+ sidebar +:+ "," +:+ contentArea +:+ "}")
  | rs =>
      let contentArea :=
        JS.str contentWidth +:+ "x" +:+ JS.str windowHeight +:+ ","
        +:+ JS.str contentStartX +:+ ",0[" +:+ JS.join "," rs +:+ "]" in
      Some (root +:+ sidebar +:+ "," +:+ contentArea +:+ "}")
  end.

(** [generateSidebarGridLayout]. The result is [None] where the JavaScript
    does not return: with [columns = 0] and at least one pane
    [Math.ceil(n / 0)] is [Infinity] and the row loop never ends. *)
Definition generateSidebarGridLayout (controlPaneId : string)
    (contentPanes : list string)
    (sidebarWidth windowWidth windowHeight columns maxComfortableWidth : Z)
    : option string :=
  if (columns =? 0) && negb (Nat.eqb (length contentPanes) 0) then None
  else
    match layoutWithoutChecksum controlPaneId contentPanes sidebarWidth
            windowWidth windowHeight columns maxComfortableWidth with
    | None => Some EmptyString
    | Some layout => Some (calculateLayoutChecksum layout +:+ "," +:+ layout)
    end.

(** [getContentPaneIds]: [allPanes] is what [getAllPaneIdsSync] returned; a
    pane whose title cannot be read is kept. *)
Definition getContentPaneIds (allPanes : list string) (controlPaneId : string)
    : list string :=
  List.filter
    (fun id =>
       if String.eqb id controlPaneId then false
       else match getPaneTitleSync id with
            | Some title => negb (String.eqb title "dmux-spacer")
            | None => true
            end)
    allPanes.

End Encoder.

(** [calculateOptimalColumns]: the first loop, over [cols = 1 .. numPanes];
    the state is [(bestCols, bestScore)]. *)
Definition columnsStep (numPanes contentWidth contentHeight : Z)
    (st : Z * float) (cols : Z) : Z * float :=
  let (bestCols, bestScore) := st in
  let bordersWidth := cols - 1 in
  let paneWidth := (contentWidth - bordersWidth) / cols in
  let rows := JS.ceil_div numPanes cols in
  let bordersHeight := rows - 1 in
  let paneHeight := (contentHeight - bordersHeight) / rows in
  if (paneWidth <? MIN_COMFORTABLE_WIDTH) || (paneHeight <? MIN_COMFORTABLE_HEIGHT)
  then st
  else
    let widthScore := if paneWidth <=? MAX_COMFORTABLE_WIDTH then 1%float else 0.5%float in
    let heightScore :=
      if PrimFloat.leb (PrimFloat.mul (JS.float_of_Z MIN_COMFORTABLE_HEIGHT) 1.5%float)
                       (JS.float_of_Z paneHeight)
      then 1%float else 0x1.6666666666666p-1%float in
    let score := PrimFloat.mul widthScore heightScore in
    if PrimFloat.ltb bestScore score then (cols, score) else st.

(** The fallback loop, from [numPanes] down to 1, leaving at the first column
    count whose panes are at least [MIN_COMFORTABLE_WIDTH * 0.8] wide. *)
Fixpoint columnsFallback (contentWidth : Z) (candidates : list Z) (bestCols : Z) : Z :=
  match candidates with
  | [] => bestCols
  | cols :: rest =>
      let bordersWidth := cols - 1 in
      let paneWidth := (contentWidth - bordersWidth) / cols in
      if PrimFloat.leb
           (PrimFloat.mul (JS.float_of_Z MIN_COMFORTABLE_WIDTH) 0x1.999999999999ap-1%float)
           (JS.float_of_Z paneWidth)
      then cols
      else columnsFallback contentWidth rest bestCols
  end.

Definition calculateOptimalColumns (numPanes contentWidth contentHeight : Z) : Z :=
  let '(bestCols, bestScore) :=
    fold_left (columnsStep numPanes contentWidth contentHeight)
              (map Z.of_nat (seq 1 (Z.to_nat numPanes))) (1, (-1)%float) in
  if PrimFloat.eqb bestScore (-1)%float
  then columnsFallback contentWidth (LayoutCalculator.downfrom numPanes) bestCols
  else bestCols.

End Tmux.

(** ** src/types.ts *)

Module Types.

Inductive PaneType := worktree | shell.

(** The fields of [DmuxPane] that the embedded code reads or writes. *)
Record DmuxPane := {
  id : string;
  slug : string;
  paneId : string;
  type : option PaneType;
  worktreePath : option string
}.

Definition withPaneId (p : DmuxPane) (newPaneId : string) : DmuxPane :=
  {| id := id p; slug := slug p; paneId := newPaneId; type := type p;
     worktreePath := worktreePath p |}.

Inductive SettingsScope := global | project.

End Types.

(** ** src/utils/attachAgent.ts *)

Module AttachAgent.
Import Types.

(** [path.basename] of Node's POSIX flavour, which the code imports: trailing
    slashes are ignored and the last component is returned; a path of slashes
    only, or the empty path, gives the empty string. *)
Fixpoint dropSlashes (cs : list ascii) : list ascii :=
  match cs with
  | c :: rest => if Ascii.eqb c "/" then dropSlashes rest else cs
  | [] => []
  end.

Fixpoint takeComponent (cs : list ascii) : list ascii :=
  match cs with
  | c :: rest => if Ascii.eqb c "/" then [] else c :: takeComponent rest
  | [] => []
  end.

Definition basename (path : string) : string :=
  string_of_list_ascii
    (rev (takeComponent (dropSlashes (rev (list_ascii_of_string path))))).

(** The loop over [existingPanes]: the state is [maxSibling]. *)
Definition siblingStep (siblingPrefix : string) (maxSibling : Z) (paneSlug : string) : Z :=
  if negb (JS.startsWith siblingPrefix paneSlug) then maxSibling
  else
    let suffix := JS.slice (String.length siblingPrefix) paneSlug in
    if negb (JS.allDigits suffix) then maxSibling
    else Z.max maxSibling (JS.parseDigits suffix).

(** [generateSiblingSlugForTargetPane]; [existingPanes] is given by the slugs
    of its panes, the only field read. *)
Definition baseSlugOf (targetSlug : string) (targetWorktreePath : option string) : string :=
  let worktreeSlug :=
    match targetWorktreePath with
    | Some (String c rest) => basename (String c rest)
    | _ => EmptyString
    end in
  match worktreeSlug with
  | EmptyString => targetSlug
  | _ => worktreeSlug
  end.

Definition generateSiblingSlugForTargetPane (targetSlug : string)
    (targetWorktreePath : option string) (existingSlugs : list string) : string :=
  let baseSlug := baseSlugOf targetSlug targetWorktreePath in
  let siblingPrefix := baseSlug +:+ "-a" in
  let maxSibling := fold_left (siblingStep siblingPrefix) existingSlugs 1 in
  baseSlug +:+ "-a" +:+ JS.str (maxSibling + 1).

(** The numbering as the specification words it: the numeric suffixes of the
    existing slugs of the form base + "-a" + digits, their maximum, and 1 when
    there is none. *)
Definition siblingSuffixes (baseSlug : string) (existingSlugs : list string) : list Z :=
  omap (fun s =>
          match JS.stripPrefix (baseSlug +:+ "-a") s with
          | Some suffix => if JS.allDigits suffix then Some (JS.parseDigits suffix) else None
          | None => None
          end) existingSlugs.

Definition specMaxSuffix (baseSlug : string) (existingSlugs : list string) : Z :=
  match siblingSuffixes baseSlug existingSlugs with
  | [] => 1
  | z :: zs => fold_left Z.max zs z
  end.

Definition specSiblingSlug (baseSlug : string) (existingSlugs : list string) : string :=
  baseSlug +:+ "-a" +:+ JS.str (specMaxSuffix baseSlug existingSlugs + 1).

End AttachAgent.

(** ** src/utils/layoutManager.ts: the entry point of the layout pipeline *)

Module LayoutManager.

Inductive LogLevel := debug | info | warn | error.

Record LogEntry := {
  level : LogLevel;
  message : string;
  source : string
}.

(** How the promise returned by an [async] function settles. *)
Inductive Settled := Resolved | Rejected (reason : string).

Record Options := {
  force : option bool;
  suppressLogs : option bool;
  disableSpacer : option bool
}.

(** [options?.flag === true] *)
Definition isTrue (options : option Options) (flag : Options -> option bool) : bool :=
  match options with
  | Some o => match flag o with Some true => true | _ => false end
  | None => false
  end.

(** What one call did: how it settled, what it logged, and whether it went
    past the argument checks into the layout steps. *)
Record Run := {
  settled : Settled;
  logged : list LogEntry;
  enteredPipeline : bool
}.

Section EntryPoint.
(** Steps 1 to 9 of the function (spacer handling, layout calculation, window
    resize, layout application): what they log, and the error they throw if
    they throw one. They talk to tmux through [TmuxService], and are kept
    abstract. *)
Variable layoutSteps :
  string -> list string -> Z -> Z -> option LayoutCalculator.LayoutConfig ->
  option Options -> list LogEntry * option string.

Definition recalculateAndApplyLayout (controlPaneId : string)
    (contentPaneIds : list string) (terminalWidth terminalHeight : Z)
    (config : option LayoutCalculator.LayoutConfig) (options : option Options) : Run :=
  let suppressLogs := isTrue options suppressLogs in
  if String.eqb controlPaneId EmptyString then
    {| settled := Resolved;
       logged := if suppressLogs then []
                 else [{| level := warn;
                          message := "Invalid controlPaneId, skipping layout";
                          source := "Layout" |}];
       enteredPipeline := false |}
  else if (terminalWidth <=? 0) || (terminalHeight <=? 0) then
    {| settled := Resolved;
       logged := if suppressLogs then []
                 else [{| level := warn;
                          message := "Invalid terminal dimensions: "
                                     +:+ JS.str terminalWidth +:+ "x"
                                     +:+ JS.str terminalHeight +:+ ", skipping layout";
                          source := "Layout" |}];
       enteredPipeline := false |}
  else
    match layoutSteps controlPaneId contentPaneIds terminalWidth terminalHeight
            config options with
    | (logs, None) =>
        {| settled := Resolved; logged := logs; enteredPipeline := true |}
    | (logs, Some err) =>
        (* the catch-all around the whole body *)
        {| settled := Resolved;
           logged := logs ++ [{| level := error;
                                 message := "Layout recalculation failed: " +:+ err;
                                 source := "Layout" |}];
           enteredPipeline := true |}
    end.

End EntryPoint.

(** What the specification asks of an invalid argument: the call is rejected. *)
Definition loudRejection (r : Run) : Prop := exists reason, settled r = Rejected reason.

End LayoutManager.

(** ** src/utils/settingsManager.ts *)

Module SettingsManager.
Import Types.

(** A JSON value as the settings code tells values apart. [VOtherNumber] is
    a number that [Number.isInteger] rejects. *)
Inductive Value :=
| VString (s : string)
| VBool (b : bool)
| VInt (z : Z)
| VOtherNumber
| VArray (items : list string).

(** A settings object: its own properties and their values. *)
Abbreviation DmuxSettings := (gmap string Value).

(** constants/layout.ts, which the settings code imports. *)
Record Limits := {
  DEFAULT_MIN_PANE_WIDTH : Z;
  DEFAULT_MAX_PANE_WIDTH : Z;
  MAX_MIN_PANE_WIDTH : Z;
  MAX_MAX_PANE_WIDTH : Z;
  MIN_MIN_PANE_WIDTH : Z;
  MIN_MAX_PANE_WIDTH : Z
}.

(** What a settings file holds when the manager is built. *)
Inductive FileContent :=
| Missing
| Unreadable
| Parsed (settings : DmuxSettings).

Record Manager := {
  globalSettings : DmuxSettings;
  projectSettings : DmuxSettings;
  globalFile : FileContent;
  projectFile : FileContent
}.

(** An update returns normally with the new state of the manager, or throws
    and leaves the manager as it was. *)
Inductive Outcome :=
| Updated (m : Manager)
| Throws (msg : string).

Definition PERMISSION_MODES : list string :=
  [EmptyString; "plan"; "acceptEdits"; "bypassPermissions"].

Definition isPermissionMode (value : string) : bool :=
  bool_decide (value ∈ PERMISSION_MODES).

Section WithImports.
Variable K : Limits.
(** [isValidBranchName] of utils/git.ts, [isAgentName] and
    [getDefaultEnabledAgents] of utils/agentLaunch.ts. *)
Variable isValidBranchName : string -> bool.
Variable isAgentName : string -> bool.
Variable defaultEnabledAgents : list string.

Definition isValidMaxPaneWidth (value : option Value) : bool :=
  match value with
  | Some (VInt z) => (MIN_MAX_PANE_WIDTH K <=? z) && (z <=? MAX_MAX_PANE_WIDTH K)
  | _ => false
  end.

Definition isValidMinPaneWidth (value : option Value) : bool :=
  match value with
  | Some (VInt z) => (MIN_MIN_PANE_WIDTH K <=? z) && (z <=? MAX_MIN_PANE_WIDTH K)
  | _ => false
  end.

Definition DEFAULT_SETTINGS : DmuxSettings :=
  <["permissionMode" := VString "bypassPermissions"]>
  (<["enableAutopilotByDefault" := VBool true]>
  (<["minPaneWidth" := VInt (DEFAULT_MIN_PANE_WIDTH K)]>
  (<["maxPaneWidth" := VInt (DEFAULT_MAX_PANE_WIDTH K)]>
  (<["enabledAgents" := VArray defaultEnabledAgents]> ∅)))).

(** [new SettingsManager(projectRoot)]: [loadSettings] keeps [{}] for a file
    that is missing or cannot be read or parsed. *)
Definition loadFile (f : FileContent) : DmuxSettings :=
  match f with
  | Parsed settings => settings
  | _ => ∅
  end.

Definition construct (globalOnDisk projectOnDisk : FileContent) : Manager :=
  {| globalSettings := loadFile globalOnDisk;
     projectSettings := loadFile projectOnDisk;
     globalFile := globalOnDisk;
     projectFile := projectOnDisk |}.

Definition getValidGlobalMinPaneWidth (m : Manager) : Z :=
  match globalSettings m !! "minPaneWidth" with
  | Some (VInt z) =>
      if isValidMinPaneWidth (Some (VInt z)) then z else DEFAULT_MIN_PANE_WIDTH K
  | _ => DEFAULT_MIN_PANE_WIDTH K
  end.

Definition getValidGlobalMaxPaneWidth (m : Manager) : Z :=
  match globalSettings m !! "maxPaneWidth" with
  | Some (VInt z) =>
      if isValidMaxPaneWidth (Some (VInt z)) then z else DEFAULT_MAX_PANE_WIDTH K
  | _ => DEFAULT_MAX_PANE_WIDTH K
  end.

(** [resolveGlobalPaneWidths(overrides)]; an override that is [None] is
    [undefined]. *)
Definition resolveGlobalPaneWidths (m : Manager) (minOverride maxOverride : option Z)
    : Z * Z :=
  let hasMinOverride := bool_decide (is_Some minOverride) in
  let hasMaxOverride := bool_decide (is_Some maxOverride) in
  let minPaneWidth := default (getValidGlobalMinPaneWidth m) minOverride in
  let maxPaneWidth := default (getValidGlobalMaxPaneWidth m) maxOverride in
  if maxPaneWidth <? minPaneWidth then
    if hasMinOverride && negb hasMaxOverride
    then (maxPaneWidth, maxPaneWidth)
    else (minPaneWidth, minPaneWidth)
  else (minPaneWidth, maxPaneWidth).

Definition getSettings (m : Manager) : DmuxSettings :=
  let merged := projectSettings m ∪ (globalSettings m ∪ DEFAULT_SETTINGS) in
  let paneWidths := resolveGlobalPaneWidths m None None in
  <["maxPaneWidth" := VInt (snd paneWidths)]>
    (<["minPaneWidth" := VInt (fst paneWidths)]> merged).

Definition getGlobalSettings (m : Manager) : DmuxSettings := globalSettings m.
Definition getProjectSettings (m : Manager) : DmuxSettings := projectSettings m.

(** The two writers. The write to disk is taken to succeed; when it fails
    the source logs and rethrows, the objects in memory having been updated
    already. *)
Definition saveGlobalSettings (m : Manager) : Manager :=
  {| globalSettings := globalSettings m; projectSettings := projectSettings m;
     globalFile := Parsed (globalSettings m); projectFile := projectFile m |}.

Definition saveProjectSettings (m : Manager) : Manager :=
  {| globalSettings := globalSettings m; projectSettings := projectSettings m;
     globalFile := globalFile m; projectFile := Parsed (projectSettings m) |}.

Definition setGlobal (g : DmuxSettings) (m : Manager) : Manager :=
  {| globalSettings := g; projectSettings := projectSettings m;
     globalFile := globalFile m; projectFile := projectFile m |}.

Definition setProject (p : DmuxSettings) (m : Manager) : Manager :=
  {| globalSettings := globalSettings m; projectSettings := p;
     globalFile := globalFile m; projectFile := projectFile m |}.

(** The part shared by [updateSetting] and [updateSettings]: the resolved
    bounds go to the global object and both bounds leave the project object;
    the result says whether the project object changed. *)
Definition storePaneWidths (minOverride maxOverride : option Z) (m : Manager)
    : Manager * bool :=
  let paneWidths := resolveGlobalPaneWidths m minOverride maxOverride in
  let m := setGlobal (<["maxPaneWidth" := VInt (snd paneWidths)]>
                        (<["minPaneWidth" := VInt (fst paneWidths)]> (globalSettings m))) m in
  let changedMin := bool_decide (is_Some (projectSettings m !! "minPaneWidth")) in
  let m := if changedMin then setProject (delete "minPaneWidth" (projectSettings m)) m else m in
  let changedMax := bool_decide (is_Some (projectSettings m !! "maxPaneWidth")) in
  let m := if changedMax then setProject (delete "maxPaneWidth" (projectSettings m)) m else m in
  (m, changedMin || changedMax).

(** The first check that fails decides the error thrown. *)
Definition orElse (first rest : option string) : option string :=
  match first with
  | Some msg => Some msg
  | None => rest
  end.
Infix "<|>" := orElse (at level 61, left associativity).

Definition intOf (v : Value) : option Z :=
  match v with VInt z => Some z | _ => None end.

Definition rangeMessage (name : string) (lo hi : Z) : string :=
  "Invalid " +:+ name +:+ ": expected an integer between " +:+ JS.str lo
  +:+ " and " +:+ JS.str hi.

(** The checks that open [updateSetting], in order; [Some msg] is the error
    thrown. *)
Definition validateSetting (key : string) (value : Value) : option string :=
  match value with
  | VString s =>
      if (String.eqb key "baseBranch" || String.eqb key "branchPrefix")
         && negb (String.eqb s EmptyString) && negb (isValidBranchName s)
      then Some ("Invalid " +:+ key
                 +:+ ": contains characters not allowed in git branch names")
      else if String.eqb key "permissionMode" && negb (isPermissionMode s)
      then Some ("Invalid permissionMode: " +:+ JS.quoted s)
      else None
  | _ => None
  end
  <|>
  (if String.eqb key "enabledAgents" then
     match value with
     | VArray agents =>
         match filter (fun a => isAgentName a = false) agents with
         | [] => None
         | invalid => Some ("Invalid enabledAgents: " +:+ JS.join ", " invalid)
         end
     | _ => Some "Invalid enabledAgents: expected an array of agent IDs"
     end
   else None)
  <|>
  (if String.eqb key "minPaneWidth" && negb (isValidMinPaneWidth (Some value))
   then Some (rangeMessage "minPaneWidth" (MIN_MIN_PANE_WIDTH K) (MAX_MIN_PANE_WIDTH K))
   else None)
  <|>
  (if String.eqb key "maxPaneWidth" && negb (isValidMaxPaneWidth (Some value))
   then Some (rangeMessage "maxPaneWidth" (MIN_MAX_PANE_WIDTH K) (MAX_MAX_PANE_WIDTH K))
   else None).

Definition updateSetting (key : string) (value : Value) (scope : SettingsScope)
    (m : Manager) : Outcome :=
  match validateSetting key value with
  | Some msg => Throws msg
  | None =>
      if String.eqb key "minPaneWidth" || String.eqb key "maxPaneWidth" then
        let '(m, projectSettingsChanged) :=
          if String.eqb key "minPaneWidth"
          then storePaneWidths (intOf value) None m
          else storePaneWidths None (intOf value) m in
        let m := if projectSettingsChanged then saveProjectSettings m else m in
        Updated (saveGlobalSettings m)
      else
        match scope with
        | global =>
            Updated (saveGlobalSettings (setGlobal (<[key := value]> (globalSettings m)) m))
        | project =>
            Updated (saveProjectSettings (setProject (<[key := value]> (projectSettings m)) m))
        end
  end.

(** The checks that open [updateSettings], in order. *)
Definition validateSettings (settings : DmuxSettings) : option string :=
  match settings !! "permissionMode" with
  | Some (VString s) =>
      if isPermissionMode s then None
      else Some ("Invalid permissionMode: " +:+ JS.quoted s)
  | _ => None
  end
  <|>
  match settings !! "enabledAgents" with
  | None => None
  | Some (VArray agents) =>
      match filter (fun a => isAgentName a = false) agents with
      | [] => None
      | invalid => Some ("Invalid enabledAgents: " +:+ JS.join ", " invalid)
      end
  | Some _ => Some "Invalid enabledAgents: expected an array of agent IDs"
  end
  <|>
  match settings !! "baseBranch" with
  | Some (VString s) =>
      if negb (String.eqb s EmptyString) && negb (isValidBranchName s)
      then Some "Invalid baseBranch: contains characters not allowed in git branch names"
      else None
  | _ => None
  end
  <|>
  match settings !! "branchPrefix" with
  | Some (VString s) =>
      if negb (String.eqb s EmptyString) && negb (isValidBranchName s)
      then Some "Invalid branchPrefix: contains characters not allowed in git branch names"
      else None
  | _ => None
  end
  <|>
  match settings !! "minPaneWidth" with
  | Some v =>
      if isValidMinPaneWidth (Some v) then None
      else Some (rangeMessage "minPaneWidth" (MIN_MIN_PANE_WIDTH K) (MAX_MIN_PANE_WIDTH K))
  | None => None
  end
  <|>
  match settings !! "maxPaneWidth" with
  | Some v =>
      if isValidMaxPaneWidth (Some v) then None
      else Some (rangeMessage "maxPaneWidth" (MIN_MAX_PANE_WIDTH K) (MAX_MAX_PANE_WIDTH K))
  | None => None
  end.

Definition updateSettings (settings : DmuxSettings) (scope : SettingsScope)
    (m : Manager) : Outcome :=
  match validateSettings settings with
  | Some msg => Throws msg
  | None =>
      let hasWidth :=
        bool_decide (is_Some (settings !! "minPaneWidth"))
        || bool_decide (is_Some (settings !! "maxPaneWidth")) in
      let '(m, projectSettingsChanged, paneWidthsUpdated) :=
        if hasWidth then
          let '(m, changed) :=
            storePaneWidths (settings !! "minPaneWidth" ≫= intOf)
                            (settings !! "maxPaneWidth" ≫= intOf) m in
          (m, changed, true)
        else (m, false, false) in
      let settingsToApply :=
        if hasWidth then delete "maxPaneWidth" (delete "minPaneWidth" settings)
        else settings in
      let hasRemainingSettings := negb (bool_decide (settingsToApply = ∅)) in
      match scope with
      | global =>
          let m := if hasRemainingSettings
                   then setGlobal (settingsToApply ∪ globalSettings m) m else m in
          let m := if hasRemainingSettings || paneWidthsUpdated
                   then saveGlobalSettings m else m in
          Updated (if projectSettingsChanged then saveProjectSettings m else m)
      | project =>
          let m := if hasRemainingSettings
                   then setProject (settingsToApply ∪ projectSettings m) m else m in
          let projectSettingsChanged := projectSettingsChanged || hasRemainingSettings in
          let m := if projectSettingsChanged then saveProjectSettings m else m in
          Updated (if paneWidthsUpdated then saveGlobalSettings m else m)
      end
  end.

(** [getSetting(key)]: [None] is [undefined]. *)
Definition getSetting (key : string) (m : Manager) : option Value :=
  getSettings m !! key.

Definition removeSetting (key : string) (scope : SettingsScope) (m : Manager) : Manager :=
  match scope with
  | global => saveGlobalSettings (setGlobal (delete key (globalSettings m)) m)
  | project => saveProjectSettings (setProject (delete key (projectSettings m)) m)
  end.

Definition isProjectOverride (key : string) (m : Manager) : bool :=
  if String.eqb key "minPaneWidth" || String.eqb key "maxPaneWidth" then false
  else bool_decide (is_Some (projectSettings m !! key)).

Definition getEffectiveScope (key : string) (m : Manager) : option SettingsScope :=
  if String.eqb key "minPaneWidth" then
    if bool_decide (is_Some (globalSettings m !! "minPaneWidth")) then Some global else None
  else if String.eqb key "maxPaneWidth" then
    if bool_decide (is_Some (globalSettings m !! "maxPaneWidth")) then Some global else None
  else if bool_decide (is_Some (projectSettings m !! key)) then Some project
  else if bool_decide (is_Some (globalSettings m !! key)) then Some global
  else None.

End WithImports.

(** The values of constants/layout.ts that the tests in the repository pin
    down: the defaults 50 and 80, and the range 40 to 300 for both bounds. *)
Definition limits_of_tests : Limits :=
  {| DEFAULT_MIN_PANE_WIDTH := 50; DEFAULT_MAX_PANE_WIDTH := 80;
     MAX_MIN_PANE_WIDTH := 300; MAX_MAX_PANE_WIDTH := 300;
     MIN_MIN_PANE_WIDTH := 40; MIN_MAX_PANE_WIDTH := 40 |}.

(** The effective bounds, read off [getSettings]. *)
Definition effectiveMin (settings : DmuxSettings) : option Z :=
  settings !! "minPaneWidth" ≫= intOf.
Definition effectiveMax (settings : DmuxSettings) : option Z :=
  settings !! "maxPaneWidth" ≫= intOf.

End SettingsManager.

(** ** src/utils/layoutManager.ts: the configuration that the entry point
    resolves, and its test of whether anything changed since the last
    layout *)

Module LayoutPipeline.
Import LayoutCalculator.
Import SettingsManager.

(** [lastLayoutDimensions] *)
Record LastLayoutDimensions := {
  width : Z;
  height : Z;
  paneCount : Z;
  minPaneWidth : Z;
  maxPaneWidth : Z
}.

Section WithLimits.
Variable K : Limits.
Variable defaultEnabledAgents : list string.
(** [Math.round] of the number that [VOtherNumber] stands for, [None] when
    that number is not finite. *)
Variable roundedOther : option Z.

Definition DEFAULT_LAYOUT_CONFIG : LayoutConfig :=
  {| SIDEBAR_WIDTH := 40;
     MIN_COMFORTABLE_WIDTH := DEFAULT_MIN_PANE_WIDTH K;
     MAX_COMFORTABLE_WIDTH := DEFAULT_MAX_PANE_WIDTH K;
     MIN_COMFORTABLE_HEIGHT := 15 |}.

(** [Math.round(value)] of a value that is a finite number. *)
Definition rounded (value : option Value) : option Z :=
  match value with
  | Some (VInt z) => Some z
  | Some VOtherNumber => roundedOther
  | _ => None
  end.

Definition clampMinPaneWidth (value : option Value) : Z :=
  match rounded value with
  | None => DEFAULT_MIN_PANE_WIDTH K
  | Some rounded => Z.max (MIN_MIN_PANE_WIDTH K) (Z.min (MAX_MIN_PANE_WIDTH K) rounded)
  end.

Definition clampMaxPaneWidth (value : option Value) : Z :=
  match rounded value with
  | None => DEFAULT_MAX_PANE_WIDTH K
  | Some rounded => Z.max (MIN_MAX_PANE_WIDTH K) (Z.min (MAX_MAX_PANE_WIDTH K) rounded)
  end.

(** [resolveLayoutConfig(config)]; [manager] is the settings manager that the
    [try] block builds, [None] when the block throws before it has one. *)
Definition resolveLayoutConfig (config : option LayoutConfig) (manager : option Manager)
    : LayoutConfig :=
  match config with
  | Some config => config
  | None =>
      match manager with
      | None => DEFAULT_LAYOUT_CONFIG
      | Some m =>
          let settings := getSettings K defaultEnabledAgents m in
          let minPaneWidth := clampMinPaneWidth (settings !! "minPaneWidth") in
          let maxPaneWidth := clampMaxPaneWidth (settings !! "maxPaneWidth") in
          let normalizedMinPaneWidth := minPaneWidth in
          let normalizedMaxPaneWidth :=
            if maxPaneWidth <? normalizedMinPaneWidth
            then normalizedMinPaneWidth else maxPaneWidth in
          if (normalizedMinPaneWidth =? MIN_COMFORTABLE_WIDTH DEFAULT_LAYOUT_CONFIG)
             && (normalizedMaxPaneWidth =? MAX_COMFORTABLE_WIDTH DEFAULT_LAYOUT_CONFIG)
          then DEFAULT_LAYOUT_CONFIG
          else
            {| SIDEBAR_WIDTH := SIDEBAR_WIDTH DEFAULT_LAYOUT_CONFIG;
               MIN_COMFORTABLE_WIDTH := normalizedMinPaneWidth;
               MAX_COMFORTABLE_WIDTH := normalizedMaxPaneWidth;
               MIN_COMFORTABLE_HEIGHT := MIN_COMFORTABLE_HEIGHT DEFAULT_LAYOUT_CONFIG |}
      end
  end.

End WithLimits.

(** "Validate that content panes actually exist in tmux": [existingSpacerId]
    is [None] for [null], [allTmuxPaneIds] is [None] when
    [getAllPaneIdsSync] throws. *)
Definition validContentPaneIds (existingSpacerId : option string)
    (allTmuxPaneIds : option (list string)) (contentPaneIds : list string)
    : list string :=
  let isSpacer id :=
    match existingSpacerId with
    | Some spacer => String.eqb id spacer
    | None => false
    end in
  match allTmuxPaneIds with
  | Some ids =>
      List.filter (fun id => if isSpacer id then false else bool_decide (id ∈ ids))
                  contentPaneIds
  | None => List.filter (fun id => negb (isSpacer id)) contentPaneIds
  end.

Definition dimensionsUnchanged (last : option LastLayoutDimensions)
    (terminalWidth terminalHeight : Z) (realContentPanes : list string)
    (effectiveConfig : LayoutConfig) : bool :=
  match last with
  | None => false
  | Some l =>
      (width l =? terminalWidth) && (height l =? terminalHeight)
      && (paneCount l =? Z.of_nat (length realContentPanes))
      && (minPaneWidth l =? MIN_COMFORTABLE_WIDTH effectiveConfig)
      && (maxPaneWidth l =? MAX_COMFORTABLE_WIDTH effectiveConfig)
  end.

(** What the entry point decides before step 2: to return at once, or to go
    on with the panes that are real. *)
Inductive Gate :=
| Skip
| Proceed (realContentPanes : list string).

(** From "Step 1" to "Update last layout dimensions": the new value of
    [lastLayoutDimensions] and the decision. *)
Definition layoutGate (last : option LastLayoutDimensions)
    (existingSpacerId : option string) (allTmuxPaneIds : option (list string))
    (contentPaneIds : list string) (terminalWidth terminalHeight : Z)
    (effectiveConfig : LayoutConfig) (options : option LayoutManager.Options)
    : option LastLayoutDimensions * Gate :=
  let realContentPanes :=
    validContentPaneIds existingSpacerId allTmuxPaneIds contentPaneIds in
  let forceLayout := LayoutManager.isTrue options LayoutManager.force in
  if dimensionsUnchanged last terminalWidth terminalHeight realContentPanes effectiveConfig
     && negb forceLayout
  then (last, Skip)
  else
    (Some {| width := terminalWidth; height := terminalHeight;
             paneCount := Z.of_nat (length realContentPanes);
             minPaneWidth := MIN_COMFORTABLE_WIDTH effectiveConfig;
             maxPaneWidth := MAX_COMFORTABLE_WIDTH effectiveConfig |},
     Proceed realContentPanes).

End LayoutPipeline.

(** ** services/PaneLifecycleManager.ts *)

Module PaneLifecycleManager.

(** Modelled from the spec: services/PaneLifecycleManager.ts is imported by
    DmuxApp.tsx and closeAction.ts but its source is missing. A lock records
    why and when it was taken. *)
Record LifecycleLock := {
  reason : string;
  acquiredAt : Z
}.

Abbreviation LockTable := (gmap string LifecycleLock).

Section WithTimeout.
(** The age beyond which the periodic sweep releases a lock. *)
Variable LOCK_TIMEOUT : Z.

(** Modelled from the spec: [beginClose] of PaneLifecycleManager, whose
    source is missing. It acquires the lock of an id, and leaves a lock that
    is already held as it is. *)
Definition beginClose (paneId closeReason : string) (now : Z) (locks : LockTable)
    : LockTable :=
  match locks !! paneId with
  | Some _ => locks
  | None => <[paneId := {| reason := closeReason; acquiredAt := now |}]> locks
  end.

(** Modelled from the spec: [completeClose] of PaneLifecycleManager releases
    the lock. *)
Definition completeClose (paneId : string) (locks : LockTable) : LockTable :=
  delete paneId locks.

(** Modelled from the spec: [isLocked] of PaneLifecycleManager, a lock is
    held under the id. *)
Definition isLocked (paneId : string) (locks : LockTable) : bool :=
  bool_decide (is_Some (locks !! paneId)).

(** Modelled from the spec: [isClosing] of PaneLifecycleManager. A lock is
    created on close intent only, so a pane is closing while its lock is
    held. *)
Definition isClosing (paneId : string) (locks : LockTable) : bool :=
  bool_decide (is_Some (locks !! paneId)).

(** Modelled from the spec: a lock has timed out once it is older than the
    timeout; the test of PaneLifecycleManager's sweep, whose source is
    missing. *)
Definition expired (now : Z) (lock : LifecycleLock) : bool :=
  LOCK_TIMEOUT <? now - acquiredAt lock.

(** Modelled from the spec: the periodic sweep of PaneLifecycleManager
    releases the locks older than the timeout. *)
Definition sweep (now : Z) (locks : LockTable) : LockTable :=
  filter (fun kv => expired now (snd kv) = false) locks.

(** Modelled from the spec: what can happen to the lock table of
    PaneLifecycleManager (source missing) while a close is under way. *)
Inductive LifecycleOp :=
| BeginClose (paneId closeReason : string) (now : Z)
| CompleteClose (paneId : string)
| Sweep (now : Z).

(** Modelled from the spec: one operation of PaneLifecycleManager on its
    lock table. *)
Definition applyOp (locks : LockTable) (op : LifecycleOp) : LockTable :=
  match op with
  | BeginClose paneId closeReason now => beginClose paneId closeReason now locks
  | CompleteClose paneId => completeClose paneId locks
  | Sweep now => sweep now locks
  end.

(** Modelled from the spec: a run of operations of PaneLifecycleManager,
    in order. *)
Definition applyOps (ops : list LifecycleOp) (locks : LockTable) : LockTable :=
  fold_left applyOp ops locks.

(** An operation that leaves the lock of [paneId] alone: it is not its
    release, and not a sweep at a time when that lock has timed out. *)
Definition keepsLock (paneId : string) (locks : LockTable) (op : LifecycleOp) : Prop :=
  match op with
  | BeginClose _ _ _ => True
  | CompleteClose other => other <> paneId
  | Sweep now => forall lock, locks !! paneId = Some lock -> expired now lock = false
  end.

(** A run of operations each of which leaves the lock of [paneId] alone. *)
Fixpoint keepLock (paneId : string) (locks : LockTable) (ops : list LifecycleOp) : Prop :=
  match ops with
  | [] => True
  | op :: rest => keepsLock paneId locks op /\ keepLock paneId (applyOp locks op) rest
  end.

End WithTimeout.

End PaneLifecycleManager.

(** ** src/DmuxApp.tsx: the handler given to [useAgentStatus], and the calls
    of the close action (actions/implementations/closeAction.ts) on the
    lifecycle manager *)

Module DmuxApp.
Import Types.
Import PaneLifecycleManager.

Record AppState := {
  panes : list DmuxPane;
  stateFile : list DmuxPane;
  stateFileWrites : nat;
  devSessionRestarts : nat
}.

Section Handler.
Variable isDevMode : bool.
(** [process.cwd()] *)
Variable cwd : string.
(** What [savePanesToFile] of hooks/usePaneSync.ts returns for the list it is
    given to write (the list as written). *)
Variable savedForm : list DmuxPane -> list DmuxPane.

(** [savePanes] of hooks/usePanes.ts: one write of the state file, then the
    in-memory list follows. *)
Definition savePanes (newPanes : list DmuxPane) (st : AppState) : AppState :=
  let updatedPanes := savedForm newPanes in
  {| panes := updatedPanes; stateFile := updatedPanes;
     stateFileWrites := S (stateFileWrites st);
     devSessionRestarts := devSessionRestarts st |}.

Definition restartDevSessionAtSource (st : AppState) : AppState :=
  {| panes := panes st; stateFile := stateFile st;
     stateFileWrites := stateFileWrites st;
     devSessionRestarts := S (devSessionRestarts st) |}.

(** [onPaneRemoved]; [st] holds the [panes] the handler closes over. *)
Definition onPaneRemoved (locks : LockTable) (paneId : string) (st : AppState)
    : AppState :=
  if isClosing paneId locks || isLocked paneId locks then st
  else
    let updatedPanes :=
      filter (fun p => negb (String.eqb (id p) paneId)) (panes st) in
    let removedPane := find (fun p => String.eqb (id p) paneId) (panes st) in
    let st' := savePanes updatedPanes st in
    match removedPane with
    | Some p =>
        match worktreePath p with
        | Some (String c rest) =>
            if isDevMode && String.eqb (String c rest) cwd
            then restartDevSessionAtSource st' else st'
        | _ => st'
        end
    | None => st'
    end.

End Handler.

(** The two [beginClose] calls that open [executeCloseOption], and the two
    [completeClose] calls that end it. *)
Definition closeActionBegins (pane : DmuxPane) (option : string) (now : Z)
    : list LifecycleOp :=
  [BeginClose (id pane) ("close action: " +:+ option) now;
   BeginClose (paneId pane) ("close action: " +:+ option) now].

Definition closeActionCompletes (pane : DmuxPane) : list LifecycleOp :=
  [CompleteClose (id pane); CompleteClose (paneId pane)].

End DmuxApp.

(** ** src/actions/implementations/closeAction.ts: what closing a pane
    offers, and when it removes the worktree *)

Module CloseAction.
Import Types.

Record ActionOption := {
  optionId : string;
  label : string;
  description : string;
  default : bool;
  danger : bool
}.

(** What [closePane] returns: the result of [executeCloseOption] run at once
    with an option, or a choice dialog whose [onSelect] runs
    [executeCloseOption] with the option chosen. *)
Inductive ActionResult :=
| Executes (option : string)
| Choice (title message : string) (options : list ActionOption) (dismissable : bool).

Definition newline : string := String (ascii_of_nat 10) EmptyString.

Definition kill_only : ActionOption :=
  {| optionId := "kill_only"; label := "Just close pane";
     description := "Keep worktree and branch"; default := true; danger := false |}.

Definition kill_and_clean : ActionOption :=
  {| optionId := "kill_and_clean"; label := "Close and remove worktree";
     description := "Delete worktree but keep branch"; default := false; danger := true |}.

Definition kill_clean_branch : ActionOption :=
  {| optionId := "kill_clean_branch"; label := "Close and delete everything";
     description := "Remove worktree and delete branch"; default := false; danger := true |}.

Definition MAX_LISTED_SIBLINGS : nat := 5.

(** [!pane.worktreePath] *)
Definition hasWorktreePath (pane : DmuxPane) : bool :=
  match worktreePath pane with
  | Some (String _ _) => true
  | _ => false
  end.

Definition isShell (pane : DmuxPane) : bool :=
  match type pane with
  | Some shell => true
  | _ => false
  end.

Section WithDevSource.
(** [isActiveDevSourcePath] of utils/devSource.ts. *)
Variable isActiveDevSourcePath : option string -> option string -> bool.

Definition siblingPanesOnWorktree (pane : DmuxPane) (contextPanes : list DmuxPane)
    : list DmuxPane :=
  List.filter
    (fun candidate =>
       negb (String.eqb (id candidate) (id pane))
       && isActiveDevSourcePath (worktreePath candidate) (worktreePath pane))
    contextPanes.

(** The lines of the message shown when the worktree is still in use. *)
Definition siblingMessageLines (siblings : list DmuxPane) : list string :=
  let siblingLabel :=
    if Nat.eqb (length siblings) 1 then "1 other pane"
    else JS.str (Z.of_nat (length siblings)) +:+ " other panes" in
  let listedSiblings :=
    map (fun sibling => "  - " +:+ slug sibling) (take MAX_LISTED_SIBLINGS siblings) in
  let remainingSiblings := (length siblings - length listedSiblings)%nat in
  let remainingSiblingLine :=
    if Nat.ltb 0 remainingSiblings
    then ["  - +" +:+ JS.str (Z.of_nat remainingSiblings) +:+ " more"]
    else [] in
  ["This worktree is still in use by " +:+ siblingLabel +:+ ".";
   "Other panes on this worktree:"]
  ++ listedSiblings ++ remainingSiblingLine.

Definition closePane (pane : DmuxPane) (contextPanes : list DmuxPane) : ActionResult :=
  if isShell pane || negb (hasWorktreePath pane) then Executes "kill_only"
  else
    let siblings := siblingPanesOnWorktree pane contextPanes in
    if Nat.ltb 0 (length siblings) then
      Choice "Close Pane" (JS.join newline (siblingMessageLines siblings))
             [kill_only] true
    else
      Choice "Close Pane" ("How do you want to close " +:+ JS.quoted (slug pane) +:+ "?")
             [kill_only; kill_and_clean; kill_clean_branch] true.

End WithDevSource.

(** The guard of the worktree cleanup in [executeCloseOption]: what is asked
    of [WorktreeCleanupService.enqueueCleanup] when the guard lets the call
    through ([Some deleteBranch]), [None] when the cleanup is not asked for
    or is skipped because a remaining pane is on the same worktree path. *)
Definition updatedPanes (pane : DmuxPane) (contextPanes : list DmuxPane) : list DmuxPane :=
  List.filter (fun p => negb (String.eqb (id p) (id pane))) contextPanes.

Definition sameWorktreePath (a b : option string) : bool :=
  match a, b with
  | Some x, Some y => String.eqb x y
  | None, None => true
  | _, _ => false
  end.

Definition worktreeCleanup (pane : DmuxPane) (contextPanes : list DmuxPane)
    (option : string) : Datatypes.option bool :=
  if hasWorktreePath pane
     && (String.eqb option "kill_and_clean" || String.eqb option "kill_clean_branch")
  then
    let siblingPanes :=
      List.filter (fun p => sameWorktreePath (worktreePath p) (worktreePath pane))
                  (updatedPanes pane contextPanes) in
    if Nat.ltb 0 (length siblingPanes) then None
    else Some (String.eqb option "kill_clean_branch")
  else None.

End CloseAction.

(** ** src/hooks/usePanes.ts *)

Module UsePanes.
Import Types.

(** The refs and state of the hook that [loadPanes] reads and writes. *)
Record HookState := {
  panes : list DmuxPane;
  panesRef : list DmuxPane;
  initialLoadComplete : bool;
  isLoadingPanes : bool;
  pendingLoad : bool;
  isLoading : bool
}.

Inductive Event :=
| SavedPaneConfig (written : list DmuxPane)
| DebugLogged (source : string).

(** What the comparison of ids is made on:
    [panes.map(p => `${p.id}:${p.paneId}`).sort().join(',')]. *)
Fixpoint insertSorted (s : string) (sorted : list string) : list string :=
  match sorted with
  | [] => [s]
  | t :: rest => if String.leb s t then s :: sorted else t :: insertSorted s rest
  end.

Definition sortStrings (l : list string) : list string :=
  fold_right insertSorted [] l.

Definition paneIdsKey (ps : list DmuxPane) : string :=
  JS.join "," (sortStrings (map (fun p => id p +:+ ":" +:+ paneId p) ps)).

(** [finalPanes.some((pane, idx) => loadedPanes[idx] &&
    loadedPanes[idx].paneId !== pane.paneId)] *)
Fixpoint idsRemapped (finalPanes loadedPanes : list DmuxPane) : bool :=
  match finalPanes, loadedPanes with
  | pane :: final', loadedPane :: loaded' =>
      negb (String.eqb (paneId loadedPane) (paneId pane)) || idsRemapped final' loaded'
  | _, _ => false
  end.

Section Hook.
(** The live tmux server and the file system, as the helpers see them. *)
Variable World : Type.
Abbreviation TitleToId := (gmap string string).

(** An [async] helper: it changes the world and returns a value, or throws
    ([None]). *)
Abbreviation Helper A := (World -> World * option A).

(** The helpers of hooks/usePaneLoading.ts, hooks/usePaneSync.ts,
    hooks/useShellDetection.ts, utils/paneRebinding.ts and utils/tmux.ts that
    [loadPanes] calls, with [panesFile] and [controlPaneId] already given. *)
Variable loadAndProcessPanes : bool -> Helper (list DmuxPane * list string * TitleToId).
Variable rebindAndFilterPanes :
  list DmuxPane -> TitleToId -> list string -> bool ->
  list DmuxPane * bool * list DmuxPane.
Variable recreateKilledWorktreePanes : list DmuxPane -> list string -> Helper (list DmuxPane).
Variable fetchTmuxPaneIds : Helper (list string * TitleToId).
Variable rebindPaneByTitle : DmuxPane -> TitleToId -> list string -> DmuxPane.
Variable detectAndAddShellPanes : list DmuxPane -> list string -> Helper (list DmuxPane * bool).
Variable destroyWelcomePaneIfNeeded : nat -> nat -> Helper unit.
Variable enforcePaneTitles : list DmuxPane -> list string -> Helper unit.
Variable saveUpdatedPaneConfig : list DmuxPane -> Helper unit.
Variable handleLastPaneRemoval : Helper unit.
Variable enforceControlPaneSize : Helper unit.

Variable skipLoading : bool.
Variable controlPaneId : option string.

Record St := {
  world : World;
  hook : HookState;
  trace : list Event
}.

(** The monad of the body of [loadPanes]: state, and [None] for an exception
    on its way to the [catch]. *)
Definition M (A : Type) : Type := St -> St * option A.

Definition ret {A} (a : A) : M A := fun st => (st, Some a).

Definition bind {A B} (m : M A) (k : A -> M B) : M B :=
  fun st =>
    match m st with
    | (st', Some a) => k a st'
    | (st', None) => (st', None)
    end.

Notation "x <- m ;; k" := (bind m (fun x => k))
  (at level 63, m at next level, right associativity).
Notation "m ;;; k" := (bind m (fun _ => k))
  (at level 63, right associativity).

Definition call {A} (h : Helper A) : M A :=
  fun st =>
    let (w, r) := h (world st) in
    ({| world := w; hook := hook st; trace := trace st |}, r).

Definition emit (e : Event) : M unit :=
  fun st =>
    ({| world := world st; hook := hook st; trace := trace st ++ [e] |}, Some tt).

Definition getHook : M HookState := fun st => (st, Some (hook st)).

Definition modifyHook (f : HookState -> HookState) : M unit :=
  fun st =>
    ({| world := world st; hook := f (hook st); trace := trace st |}, Some tt).

(** [try { m } catch (error) { handler }] *)
Definition tryCatch (m : M unit) (handler : M unit) : M unit :=
  fun st =>
    match m st with
    | (st', Some tt) => (st', Some tt)
    | (st', None) => handler st'
    end.

Definition setPanesBoth (ps : list DmuxPane) (h : HookState) : HookState :=
  {| panes := ps; panesRef := ps;
     initialLoadComplete := initialLoadComplete h;
     isLoadingPanes := isLoadingPanes h; pendingLoad := pendingLoad h;
     isLoading := isLoading h |}.

Definition setInitialLoadComplete (h : HookState) : HookState :=
  {| panes := panes h; panesRef := panesRef h; initialLoadComplete := true;
     isLoadingPanes := isLoadingPanes h; pendingLoad := pendingLoad h;
     isLoading := isLoading h |}.

Definition setPendingLoad (b : bool) (h : HookState) : HookState :=
  {| panes := panes h; panesRef := panesRef h;
     initialLoadComplete := initialLoadComplete h;
     isLoadingPanes := isLoadingPanes h; pendingLoad := b;
     isLoading := isLoading h |}.

Definition setIsLoadingPanes (b : bool) (h : HookState) : HookState :=
  {| panes := panes h; panesRef := panesRef h;
     initialLoadComplete := initialLoadComplete h;
     isLoadingPanes := b; pendingLoad := pendingLoad h;
     isLoading := isLoading h |}.

Definition clearIsLoading (h : HookState) : HookState :=
  {| panes := panes h; panesRef := panesRef h;
     initialLoadComplete := initialLoadComplete h;
     isLoadingPanes := isLoadingPanes h; pendingLoad := pendingLoad h;
     isLoading := false |}.

(** "Rebind and filter panes" and "Recreate worktree panes that were killed":
    from the loaded records to [finalPanes], before the detection of
    untracked panes. [isInitialLoad] is [!initialLoadComplete.current]. *)
Definition rebindStage (loadedPanes : list DmuxPane) (titleToId : TitleToId)
    (allPaneIds : list string) (isInitialLoad : bool) : M (list DmuxPane * bool) :=
  let '(activePanes, shellPanesRemoved, worktreePanesToRecreate) :=
    rebindAndFilterPanes loadedPanes titleToId allPaneIds isInitialLoad in
  match worktreePanesToRecreate with
  | [] => ret (activePanes, shellPanesRemoved)
  | _ =>
      finalPanes <- call (recreateKilledWorktreePanes activePanes allPaneIds) ;;
      freshData <- call fetchTmuxPaneIds ;;
      let '(updatedIds, updatedTitleToId) := freshData in
      ret (map (fun p => rebindPaneByTitle p updatedTitleToId updatedIds) finalPanes,
           shellPanesRemoved)
  end.

(** What a pass has found out when it reaches "Check if panes changed". *)
Record Findings := {
  loadedPanes : list DmuxPane;
  finalPanes : list DmuxPane;
  shellPanesRemoved : bool;
  shellPanesAdded : bool
}.

Definition idsChanged (f : Findings) : bool :=
  idsRemapped (finalPanes f) (loadedPanes f).

(** The pass from "Rebind and filter panes" to "Enforce pane titles". *)
Definition reconcile (loaded : list DmuxPane) (titleToId : TitleToId)
    (allPaneIds : list string) : M Findings :=
  h <- getHook ;;
  staged <- rebindStage loaded titleToId allPaneIds (negb (initialLoadComplete h)) ;;
  let '(final, removed) := staged in
  detected <- (if initialLoadComplete h
               then call (detectAndAddShellPanes final allPaneIds)
               else ret (final, false)) ;;
  let '(updatedPanes, added) := detected in
  h <- getHook ;;
  call (destroyWelcomePaneIfNeeded (length (panesRef h)) (length updatedPanes)) ;;;
  call (enforcePaneTitles updatedPanes allPaneIds) ;;;
  ret {| loadedPanes := loaded; finalPanes := updatedPanes;
         shellPanesRemoved := removed; shellPanesAdded := added |}.

(** Whether the state file is to be written: both [if]s of "Update state and
    save if panes changed". *)
Definition mustSave (currentPanes : list DmuxPane) (f : Findings) : bool :=
  (negb (String.eqb (paneIdsKey currentPanes) (paneIdsKey (finalPanes f)))
   || shellPanesAdded f || shellPanesRemoved f)
  && (idsChanged f || shellPanesAdded f || shellPanesRemoved f).

(** From "Check if panes changed" to the end of the loop body. *)
Definition persist (f : Findings) : M unit :=
  h <- getHook ;;
  let currentPaneIds := paneIdsKey (panesRef h) in
  let newPaneIds := paneIdsKey (finalPanes f) in
  if negb (String.eqb currentPaneIds newPaneIds)
     || shellPanesAdded f || shellPanesRemoved f
  then
    modifyHook (setPanesBoth (finalPanes f)) ;;;
    if idsChanged f || shellPanesAdded f || shellPanesRemoved f then
      emit (SavedPaneConfig (finalPanes f)) ;;;
      call (saveUpdatedPaneConfig (finalPanes f)) ;;;
      if shellPanesRemoved f then
        if Nat.eqb (length (finalPanes f)) 0 then call handleLastPaneRemoval
        else
          match controlPaneId with
          | Some (String _ _) =>
              tryCatch (call enforceControlPaneSize) (emit (DebugLogged "usePanes"))
          | _ => ret tt
          end
      else ret tt
    else ret tt
  else ret tt.

(** One turn of the [do ... while] loop. *)
Definition iteration : M unit :=
  modifyHook (setPendingLoad false) ;;;
  h <- getHook ;;
  loaded <- call (loadAndProcessPanes (negb (initialLoadComplete h))) ;;
  let '(loadedPanes, allPaneIds, titleToId) := loaded in
  if negb (initialLoadComplete h) then
    modifyHook (setPanesBoth loadedPanes) ;;;
    modifyHook setInitialLoadComplete
  else
    findings <- reconcile loadedPanes titleToId allPaneIds ;;
    persist findings.

(** The loop: [arrivals] tells, turn by turn, whether another call of
    [loadPanes] came in while the turn was awaiting (it found
    [isLoadingPanes] set, set [pendingLoad] and returned); the loop goes on
    as long as one did. *)
Fixpoint passes (arrivals : list bool) : M unit :=
  match arrivals with
  | true :: rest => iteration ;;; modifyHook (setPendingLoad true) ;;; passes rest
  | _ => iteration
  end.

Definition loadPanes (arrivals : list bool) (st : St) : St :=
  if skipLoading then st
  else if isLoadingPanes (hook st) then fst (modifyHook (setPendingLoad true) st)
  else
    let body :=
      modifyHook (setIsLoadingPanes true) ;;;
      tryCatch (passes arrivals) (emit (DebugLogged "usePanes")) in
    let finally := modifyHook (setIsLoadingPanes false) ;;; modifyHook clearIsLoading in
    fst (finally (fst (body st))).

(** The state once [isLoadingPanes] is set, before the loop. *)
Definition started (st : St) : St :=
  {| world := world st; hook := setIsLoadingPanes true (hook st);
     trace := trace st |}.

(** The state in which the loop body starts: [isLoadingPanes] is set and
    [pendingLoad] cleared. *)
Definition entering (st : St) : St :=
  {| world := world st;
     hook := setPendingLoad false (setIsLoadingPanes true (hook st));
     trace := trace st |}.

(** What a pass finds, from the load of the state file to "Enforce pane
    titles"; it is the part of [iteration] before [persist] when the initial
    load is over. *)
Definition findingsOfPass : M Findings :=
  h <- getHook ;;
  loaded <- call (loadAndProcessPanes (negb (initialLoadComplete h))) ;;
  let '(loadedPanes, allPaneIds, titleToId) := loaded in
  reconcile loadedPanes titleToId allPaneIds.

(** The state-file writes of the pass recorded in a trace. *)
Definition saves (t : list Event) : list (list DmuxPane) :=
  omap (fun e => match e with SavedPaneConfig ps => Some ps | _ => None end) t.

(** A computation that neither writes the state file nor touches the refs of
    the hook. *)
Definition silent {A} (m : M A) : Prop :=
  forall st : St,
    trace (fst (m st)) = trace st /\ hook (fst (m st)) = hook st.

End Hook.

End UsePanes.

(** ** The helpers of the reconciliation pass

    hooks/usePaneLoading.ts, hooks/usePaneSync.ts, hooks/useShellDetection.ts
    and utils/paneRebinding.ts are imported by usePanes.ts but their source
    is missing; the definitions of this module follow the specification's
    account of the pass (its sections 3 and 4.5). *)

Module Reconciler.
Import Types.

(** Modelled from the spec: a pane of the tmux window as the helpers of the
    pass (source missing) see it: its id, its title and its working
    directory. *)
Record TmuxPane := {
  pane_id : string;
  pane_title : string;
  pane_cwd : option string
}.

(** Modelled from the spec: what the helpers of the pass (source missing)
    read and change: the state file of record, the panes live in the window,
    the number tmux gives to the next pane it creates, and the sidebar's
    pane. *)
Record World := {
  stateFile : list DmuxPane;
  livePanes : list TmuxPane;
  nextPaneNumber : Z;
  sidebarPaneId : string
}.

(** Modelled from the spec: tmux names its panes by a percent sign and a
    number. *)
Definition paneName (n : Z) : string := "%" +:+ JS.str n.

(** Modelled from the spec: the ids of the live panes, as the query of
    hooks/usePaneLoading.ts (source missing) lists them. *)
Definition allPaneIdsOf (w : World) : list string := map pane_id (livePanes w).

(** Modelled from the spec: the map from the titles of the live panes to
    their ids, as the query of hooks/usePaneLoading.ts (source missing)
    builds it; of two panes of one title the later is kept. *)
Definition titleToIdOf (w : World) : gmap string string :=
  fold_left (fun m t => <[pane_title t := pane_id t]> m) (livePanes w) ∅.

(** Modelled from the spec: a record is bound when its external pane id is
    the id of a live pane. *)
Definition isLive (allPaneIds : list string) (p : DmuxPane) : bool :=
  bool_decide (paneId p ∈ allPaneIds).

(** Modelled from the spec: a shell record, as against a worktree record. *)
Definition isShell (p : DmuxPane) : bool :=
  match type p with
  | Some shell => true
  | _ => false
  end.

(** Modelled from the spec: [fetchTmuxPaneIds] of hooks/usePaneLoading.ts,
    the query for the live panes, their ids and their titles. *)
Definition fetchTmuxPaneIds (w : World) : World * option (list string * gmap string string) :=
  (w, Some (allPaneIdsOf w, titleToIdOf w)).

(** Modelled from the spec: [loadAndProcessPanes] of hooks/usePaneLoading.ts,
    state LOADING: the persisted collection is read from the state file, with
    the live pane list beside it. *)
Definition loadAndProcessPanes (isInitialLoad : bool) (w : World)
    : World * option (list DmuxPane * list string * gmap string string) :=
  (w, Some (stateFile w, allPaneIdsOf w, titleToIdOf w)).

(** Modelled from the spec: [rebindPaneByTitle] of utils/paneRebinding.ts,
    state REBINDING: a record whose external id is not live is rebound to a
    live pane whose title equals its slug, if there is one. *)
Definition rebindPaneByTitle (p : DmuxPane) (titleToId : gmap string string)
    (allPaneIds : list string) : DmuxPane :=
  if isLive allPaneIds p then p
  else match titleToId !! slug p with
       | Some liveId => withPaneId p liveId
       | None => p
       end.

(** Modelled from the spec: [rebindAndFilterPanes] of hooks/usePaneSync.ts,
    states REBINDING and PRUNING: every record is rebound if need be; a shell
    record that could not be is dropped, a worktree record that could not be
    is kept and listed for recreation. *)
Definition rebindAndFilterPanes (loaded : list DmuxPane)
    (titleToId : gmap string string) (allPaneIds : list string) (isInitialLoad : bool)
    : list DmuxPane * bool * list DmuxPane :=
  let rebound := map (fun p => rebindPaneByTitle p titleToId allPaneIds) loaded in
  (List.filter (fun p => isLive allPaneIds p || negb (isShell p)) rebound,
   existsb (fun p => negb (isLive allPaneIds p) && isShell p) rebound,
   List.filter (fun p => negb (isLive allPaneIds p) && negb (isShell p)) rebound).

(** Modelled from the spec: the pane that [recreateKilledWorktreePanes]
    (source missing) splits off for a record: tmux numbers it, it starts in
    the record's worktree and is titled with the record's slug. *)
Definition splitFor (p : DmuxPane) (w : World) : World * string :=
  let newId := paneName (nextPaneNumber w) in
  ({| stateFile := stateFile w;
      livePanes := livePanes w ++ [{| pane_id := newId; pane_title := slug p;
                                      pane_cwd := worktreePath p |}];
      nextPaneNumber := nextPaneNumber w + 1;
      sidebarPaneId := sidebarPaneId w |},
   newId).

(** Modelled from the spec: [recreateKilledWorktreePanes] of
    hooks/usePaneLoading.ts, state RECREATING: for each record whose pane is
    not live a fresh pane is split and sent into the record's worktreePath,
    and the record's external pane id is updated. *)
Fixpoint recreateAll (ps : list DmuxPane) (allPaneIds : list string) (w : World)
    : World * list DmuxPane :=
  match ps with
  | [] => (w, [])
  | p :: rest =>
      if isLive allPaneIds p then
        let (w', rest') := recreateAll rest allPaneIds w in (w', p :: rest')
      else
        let (w1, newId) := splitFor p w in
        let (w', rest') := recreateAll rest allPaneIds w1 in
        (w', withPaneId p newId :: rest')
  end.

(** Modelled from the spec: [recreateKilledWorktreePanes] of
    hooks/usePaneLoading.ts (source missing) returns the records with the
    recreated ones updated. *)
Definition recreateKilledWorktreePanes (activePanes : list DmuxPane)
    (allPaneIds : list string) (w : World) : World * option (list DmuxPane) :=
  let (w', ps) := recreateAll activePanes allPaneIds w in (w', Some ps).

(** Modelled from the spec: [detectAndAddShellPanes] of
    hooks/useShellDetection.ts, state DETECTING_UNTRACKED: a live pane that no
    record is bound to and that is neither the sidebar nor the spacer is
    adopted as a new shell record. *)
Definition isUntracked (tracked allPaneIds : list string) (sidebar : string)
    (t : TmuxPane) : bool :=
  bool_decide (pane_id t ∈ allPaneIds)
  && negb (bool_decide (pane_id t ∈ tracked))
  && negb (String.eqb (pane_id t) sidebar)
  && negb (String.eqb (pane_title t) "dmux-spacer").

(** Modelled from the spec: the shell record that
    [detectAndAddShellPanes] (source missing) makes for an untracked pane. *)
Definition adopt (t : TmuxPane) : DmuxPane :=
  {| id := "dmux-" +:+ pane_id t; slug := pane_title t; paneId := pane_id t;
     type := Some shell; worktreePath := None |}.

(** Modelled from the spec: [detectAndAddShellPanes] of
    hooks/useShellDetection.ts (source missing) appends the adopted records
    and reports whether there were any. *)
Definition detectAndAddShellPanes (finalPanes : list DmuxPane)
    (allPaneIds : list string) (w : World) : World * option (list DmuxPane * bool) :=
  let untracked :=
    List.filter (isUntracked (map paneId finalPanes) allPaneIds (sidebarPaneId w))
                (livePanes w) in
  (w, Some (finalPanes ++ map adopt untracked, negb (Nat.eqb (length untracked) 0))).

(** Modelled from the spec: [saveUpdatedPaneConfig] of hooks/usePaneSync.ts,
    state PERSISTING: the full corrected collection is written back. *)
Definition saveUpdatedPaneConfig (ps : list DmuxPane) (w : World) : World * option unit :=
  ({| stateFile := ps; livePanes := livePanes w;
      nextPaneNumber := nextPaneNumber w; sidebarPaneId := sidebarPaneId w |},
   Some tt).

(** Modelled from the spec: [enforcePaneTitles] of hooks/usePaneSync.ts, the
    title enforcement of the reconciler: the live pane of a record is titled
    with the record's slug. *)
Definition retitle (ps : list DmuxPane) (t : TmuxPane) : TmuxPane :=
  match find (fun p => String.eqb (paneId p) (pane_id t)) ps with
  | Some p => {| pane_id := pane_id t; pane_title := slug p; pane_cwd := pane_cwd t |}
  | None => t
  end.

(** Modelled from the spec: [enforcePaneTitles] of hooks/usePaneSync.ts
    (source missing) retitles every live pane that a record is bound to. *)
Definition enforcePaneTitles (ps : list DmuxPane) (allPaneIds : list string)
    (w : World) : World * option unit :=
  ({| stateFile := stateFile w; livePanes := map (retitle ps) (livePanes w);
      nextPaneNumber := nextPaneNumber w; sidebarPaneId := sidebarPaneId w |},
   Some tt).

(** Modelled from the spec: [destroyWelcomePaneIfNeeded], [handleLastPaneRemoval]
    and [enforceControlPaneSize] act on the placeholder pane and on the
    layout, which the pane records do not depend on. *)
Definition noRecordEffect (w : World) : World * option unit := (w, Some tt).

(** The hook of usePanes.ts, from the source, run over these helpers. *)
Definition loadPanes (arrivals : list bool)
    (st : UsePanes.St World) : UsePanes.St World :=
  UsePanes.loadPanes World loadAndProcessPanes rebindAndFilterPanes
    recreateKilledWorktreePanes fetchTmuxPaneIds rebindPaneByTitle
    detectAndAddShellPanes (fun _ _ => noRecordEffect) enforcePaneTitles
    saveUpdatedPaneConfig noRecordEffect noRecordEffect
    false (Some (sidebarPaneId (UsePanes.world World st))) arrivals st.

(** The rebinding and recreation stage of usePanes.ts, from the source, run
    over these helpers on a pass past the initial load. *)
Definition rebindStage (loaded : list DmuxPane) (w : World)
    : World * option (list DmuxPane * bool) :=
  let st := {| UsePanes.world := w;
               UsePanes.hook := {| UsePanes.panes := []; UsePanes.panesRef := [];
                                   UsePanes.initialLoadComplete := true;
                                   UsePanes.isLoadingPanes := true;
                                   UsePanes.pendingLoad := false;
                                   UsePanes.isLoading := false |};
               UsePanes.trace := [] |} in
  let (st', r) :=
    UsePanes.rebindStage World rebindAndFilterPanes recreateKilledWorktreePanes
      fetchTmuxPaneIds rebindPaneByTitle loaded (titleToIdOf w) (allPaneIdsOf w)
      false st in
  (UsePanes.world World st', r).

(** The hook as it is when the application starts. *)
Definition freshHook : UsePanes.HookState :=
  {| UsePanes.panes := []; UsePanes.panesRef := [];
     UsePanes.initialLoadComplete := false; UsePanes.isLoadingPanes := false;
     UsePanes.pendingLoad := false; UsePanes.isLoading := true |}.

(** No pane that tmux is still to create is live already. *)
Definition numbersFresh (w : World) : Prop :=
  forall n, nextPaneNumber w <= n -> paneName n ∉ allPaneIdsOf w.

End Reconciler.

(** ** Vocabulary of the statements *)

Definition sumZ (l : list Z) : Z := fold_right Z.add 0 l.

(** The accumulator of the checksum as tmux documents it: rotate right by one
    bit within 16 bits, add the byte, keep 16 bits. *)
Definition rotateAddMask (bytes : list Z) : Z :=
  fold_left (fun c byte => Z.land (Z.shiftr c 1 + Z.shiftl (Z.land c 1) 15 + byte) 65535)
            bytes 0.

Definition isLowerHexDigit (c : ascii) : bool :=
  let n := N_of_ascii c in
  (((48 <=? n) && (n <=? 57)) || ((97 <=? n) && (n <=? 102)))%N.

Definition hexDigitValue (c : ascii) : Z :=
  let n := Z.of_N (N_of_ascii c) in
  if n <=? 57 then n - 48 else n - 87.

(** The number that a string of hexadecimal digits writes. *)
Definition hexValue (s : string) : Z :=
  fold_left (fun acc c => 16 * acc + hexDigitValue c) (list_ascii_of_string s) 0.

(** A checksum field as tmux reads it: four lowercase hexadecimal digits
    that write [value]. *)
Definition isChecksumField (value : Z) (s : string) : bool :=
  Nat.eqb (String.length s) 4
  && forallb isLowerHexDigit (list_ascii_of_string s)
  && (hexValue s =? value).

(** The values of a hexadecimal digit, and a test run on every 16-bit value,
    digit by digit. *)
Definition hexDigits : list Z := [0; 1; 2; 3; 4; 5; 6; 7; 8; 9; 10; 11; 12; 13; 14; 15].

Definition forall16bit (f : Z -> bool) : bool :=
  forallb (fun a => forallb (fun b => forallb (fun c => forallb (fun d =>
    f (((a * 16 + b) * 16 + c) * 16 + d)) hexDigits) hexDigits) hexDigits) hexDigits.

(** What the loop of calculateOptimalLayout keeps true of [bestLayout]. *)
Definition goodBest (config : LayoutCalculator.LayoutConfig)
    (numContentPanes terminalWidth terminalHeight : Z)
    (best : option LayoutCalculator.LayoutConfiguration) : Prop :=
  match best with
  | Some b =>
      1 <= LayoutCalculator.cols b <= numContentPanes
      /\ LayoutCalculator.rows b = JS.ceil_div numContentPanes (LayoutCalculator.cols b)
      /\ LayoutCalculator.fits config numContentPanes terminalWidth terminalHeight
           (LayoutCalculator.cols b) = true
  | None => True
  end.

(** The pane-width bounds a manager stores at global scope, and the absence
    of any bound at project scope. *)
Definition storedPaneWidths (m : SettingsManager.Manager) : option Z * option Z :=
  (SettingsManager.effectiveMin (SettingsManager.globalSettings m),
   SettingsManager.effectiveMax (SettingsManager.globalSettings m)).

Definition projectHasNoPaneWidth (m : SettingsManager.Manager) : Prop :=
  SettingsManager.projectSettings m !! "minPaneWidth" = None
  /\ SettingsManager.projectSettings m !! "maxPaneWidth" = None.

(** What the loop of calculateOptimalLayout keeps true of [bestLayout],
    in full: it is the layout computed for its own column count, and that
    count passed the feasibility test. *)
Definition chosenBest (config : LayoutCalculator.LayoutConfig)
    (numContentPanes terminalWidth terminalHeight : Z)
    (best : option LayoutCalculator.LayoutConfiguration) : Prop :=
  match best with
  | Some b =>
      1 <= LayoutCalculator.cols b <= numContentPanes
      /\ LayoutCalculator.fits config numContentPanes terminalWidth terminalHeight
           (LayoutCalculator.cols b) = true
      /\ b = fst (LayoutCalculator.candidate config numContentPanes terminalWidth
                    terminalHeight (LayoutCalculator.cols b))
  | None => True
  end.

(** The pane width and height that calculateOptimalColumns computes for a
    column count, and its test of comfort. *)
Definition paneWidthFor (contentWidth cols : Z) : Z :=
  (contentWidth - (cols - 1)) / cols.

Definition paneHeightFor (numPanes contentHeight cols : Z) : Z :=
  (contentHeight - (JS.ceil_div numPanes cols - 1)) / JS.ceil_div numPanes cols.

Definition comfortable (numPanes contentWidth contentHeight cols : Z) : Prop :=
  Tmux.MIN_COMFORTABLE_WIDTH <= paneWidthFor contentWidth cols
  /\ Tmux.MIN_COMFORTABLE_HEIGHT <= paneHeightFor numPanes contentHeight cols.

(** The scores that calculateOptimalColumns can give: a width score of 1 or
    0.5 times a height score of 1 or 0.7. *)
Definition isColumnsScore (s : float) : Prop :=
  exists a b : bool,
    s = PrimFloat.mul (if a then 1%float else 0.5%float)
                      (if b then 1%float else 0x1.6666666666666p-1%float).

(** What the first loop of calculateOptimalColumns keeps true of
    [(bestCols, bestScore)] over the column counts [seen] so far. *)
Definition columnsInv (numPanes contentWidth contentHeight : Z) (seen : list Z)
    (st : Z * float) : Prop :=
  (st = (1, (-1)%float)
   /\ forall c, c ∈ seen -> ~ comfortable numPanes contentWidth contentHeight c)
  \/ (fst st ∈ seen
      /\ comfortable numPanes contentWidth contentHeight (fst st)
      /\ isColumnsScore (snd st)).

(** The objects a manager holds are what its settings files hold: a manager
    built anew from the files would hold the same. *)
Definition inSync (m : SettingsManager.Manager) : Prop :=
  SettingsManager.loadFile (SettingsManager.globalFile m) = SettingsManager.globalSettings m
  /\ SettingsManager.loadFile (SettingsManager.projectFile m)
     = SettingsManager.projectSettings m.

Definition isPaneWidthKey (key : string) : bool :=
  String.eqb key "minPaneWidth" || String.eqb key "maxPaneWidth".

(** One step of [Number.parseInt] over a decimal digit, as [JS.parseDigits]
    folds it. *)
Definition digitStep (acc : Z) (c : ascii) : Z :=
  10 * acc + (Z.of_N (N_of_ascii c) - 48).

(** The order in which [Array.prototype.sort] leaves strings. *)
Definition stringLe (a b : string) : Prop := String.leb a b = true.

(** * Theorems *)

(** ** The layout calculator *)

Section LayoutCalculatorFacts.
Import LayoutCalculator.

Lemma upto_length n : length (upto n) = Z.to_nat n.
Proof. unfold upto. by rewrite length_map, length_seq. Qed.

Lemma upto_succ (k : nat) : upto (Z.of_nat (S k)) = upto (Z.of_nat k) ++ [Z.of_nat k].
Proof.
  unfold upto. rewrite !Nat2Z.id, seq_S, map_app. reflexivity.
Qed.

Lemma elem_of_upto i n : i ∈ upto n <-> 0 <= i < n.
Proof.
  unfold upto. rewrite list_elem_of_fmap. split.
  - intros (k & -> & Hk). apply list_elem_of_In, in_seq in Hk. lia.
  - intros Hi. exists (Z.to_nat i). split; [lia|].
    apply list_elem_of_In, in_seq. lia.
Qed.

Lemma upto_lookup (i : nat) n : Z.of_nat i < n -> upto n !! i = Some (Z.of_nat i).
Proof.
  intros Hi. unfold upto. rewrite list_lookup_fmap.
  rewrite lookup_seq_lt by lia. reflexivity.
Qed.

Lemma elem_of_downfrom c n : c ∈ downfrom n <-> 1 <= c <= n.
Proof.
  unfold downfrom. rewrite list_elem_of_In, <- in_rev, <- list_elem_of_In.
  rewrite list_elem_of_fmap. split.
  - intros (k & -> & Hk). apply list_elem_of_In, in_seq in Hk. lia.
  - intros Hc. exists (Z.to_nat c). split; [lia|].
    apply list_elem_of_In, in_seq. lia.
Qed.

Lemma sumZ_app l1 l2 : sumZ (l1 ++ l2) = sumZ l1 + sumZ l2.
Proof. induction l1 as [|a l1 IH]; simpl; [reflexivity | rewrite IH; lia]. Qed.

(** The shares of the first [k] columns add up to [k] base shares plus one
    extra pane for each of them that is among the first [r]. *)
Lemma sum_shares base r (k : nat) :
  0 <= r ->
  sumZ (map (fun i => base + (if i <? r then 1 else 0)) (upto (Z.of_nat k)))
  = Z.of_nat k * base + Z.min (Z.of_nat k) r.
Proof.
  intros Hr. induction k as [|k IH].
  - simpl. lia.
  - rewrite upto_succ, map_app, sumZ_app, IH. simpl.
    destruct (Z.ltb_spec (Z.of_nat k) r); lia.
Qed.

Lemma ceil_div_pos n c : 1 <= n -> 1 <= c -> 1 <= JS.ceil_div n c.
Proof.
  intros Hn Hc. unfold JS.ceil_div.
  assert ((- n) / c < 0) by (apply Z.div_lt_upper_bound; lia).
  lia.
Qed.

End LayoutCalculatorFacts.

(** C7. For n >= 0 and cols >= 1, distributePanes(n, cols) has exactly cols
    entries, they add up to n, any two of them differ by at most 1, the
    column at index i holds floor(n / cols) panes plus one more exactly when
    i < n mod cols, and distributePanes(5, 3) is [2; 2; 1]. *)
Theorem distributePanes_even (n cols : Z) :
  0 <= n -> 1 <= cols ->
  let d := LayoutCalculator.distributePanes n cols in
  length d = Z.to_nat cols
  /\ sumZ d = n
  /\ (forall a b, a ∈ d -> b ∈ d -> Z.abs (a - b) <= 1)
  /\ (forall i : nat, Z.of_nat i < cols ->
        d !! i = Some (n / cols + (if Z.of_nat i <? n mod cols then 1 else 0)))
  /\ LayoutCalculator.distributePanes 5 3 = [2; 2; 1].
Proof.
  intros Hn Hc d. subst d. unfold LayoutCalculator.distributePanes.
  assert (Hrem : Z.rem n cols = n mod cols) by (apply Z.rem_mod_nonneg; lia).
  pose proof (Z.mod_pos_bound n cols ltac:(lia)) as Hb.
  rewrite Hrem. repeat split.
  - by rewrite length_map, upto_length.
  - pose proof (sum_shares (n / cols) (n mod cols) (Z.to_nat cols) ltac:(lia)) as Hs.
    rewrite Z2Nat.id in Hs by lia. rewrite Hs, Z.min_r by lia.
    pose proof (Z.div_mod n cols ltac:(lia)). lia.
  - intros a b Ha Hb'.
    apply list_elem_of_fmap in Ha as (i & -> & _).
    apply list_elem_of_fmap in Hb' as (j & -> & _).
    destruct (i <? n mod cols), (j <? n mod cols); lia.
  - intros i Hi. rewrite list_lookup_fmap, upto_lookup by lia. reflexivity.
Qed.

(** A case of C7: 7 panes over 3 columns. *)
Lemma distributePanes_even_witness :
  let d := LayoutCalculator.distributePanes 7 3 in
  length d = 3%nat
  /\ sumZ d = 7
  /\ (forall a b, a ∈ d -> b ∈ d -> Z.abs (a - b) <= 1)
  /\ (forall i : nat, Z.of_nat i < 3 ->
        d !! i = Some (7 / 3 + (if Z.of_nat i <? 7 mod 3 then 1 else 0)))
  /\ LayoutCalculator.distributePanes 5 3 = [2; 2; 1].
Proof. apply (distributePanes_even 7 3); lia. Defined.

Section CalculateOptimalLayoutFacts.
Import LayoutCalculator.
Variable config : LayoutConfig.
Variables numContentPanes terminalWidth terminalHeight : Z.

Lemma step_goodBest st c :
  1 <= c <= numContentPanes ->
  goodBest config numContentPanes terminalWidth terminalHeight (fst st) ->
  goodBest config numContentPanes terminalWidth terminalHeight (fst (step config numContentPanes terminalWidth terminalHeight st c)).
Proof.
  intros Hc Hst. destruct st as [best score]. unfold step.
  destruct (fits config numContentPanes terminalWidth terminalHeight c) eqn:Hfit;
    [|exact Hst].
  unfold candidate.
  match goal with |- context [if ?b then _ else _] => destruct b end;
    [|exact Hst].
  simpl. auto.
Qed.

Lemma loop_goodBest (cs : list Z) st :
  (forall c, c ∈ cs -> 1 <= c <= numContentPanes) ->
  goodBest config numContentPanes terminalWidth terminalHeight (fst st) ->
  goodBest config numContentPanes terminalWidth terminalHeight (fst (fold_left (step config numContentPanes terminalWidth terminalHeight) cs st)).
Proof.
  revert st. induction cs as [|c cs IH]; intros st Hcs Hst; [exact Hst|].
  simpl. apply IH.
  - intros c' Hc'. apply Hcs. by right.
  - apply step_goodBest; [apply Hcs; by left | exact Hst].
Qed.

Lemma step_unfit st c :
  fits config numContentPanes terminalWidth terminalHeight c = false ->
  step config numContentPanes terminalWidth terminalHeight st c = st.
Proof. intros Hfit. destruct st. unfold step. by rewrite Hfit. Qed.

Lemma loop_unfit (cs : list Z) st :
  (forall c, c ∈ cs -> fits config numContentPanes terminalWidth terminalHeight c = false) ->
  fold_left (step config numContentPanes terminalWidth terminalHeight) cs st = st.
Proof.
  revert st. induction cs as [|c cs IH]; intros st Hcs; [reflexivity|].
  simpl. rewrite step_unfit by (apply Hcs; by left).
  apply IH. intros c' Hc'. apply Hcs. by right.
Qed.

End CalculateOptimalLayoutFacts.

(** C2. For paneCount >= 1, positive terminal width and height and any
    layout configuration, calculateOptimalLayout (a total function: nothing
    in it throws) returns cols >= 1 and rows >= 1; and when no column count
    from 1 to paneCount passes the feasibility test it returns the
    single-column fallback, cols = 1 and rows = paneCount. *)
Theorem calculateOptimalLayout_at_least_one
    (config : LayoutCalculator.LayoutConfig)
    (numContentPanes terminalWidth terminalHeight : Z) :
  1 <= numContentPanes -> 0 < terminalWidth -> 0 < terminalHeight ->
  let layout :=
    LayoutCalculator.calculateOptimalLayout config numContentPanes
      terminalWidth terminalHeight in
  1 <= LayoutCalculator.cols layout
  /\ 1 <= LayoutCalculator.rows layout
  /\ ((forall c, 1 <= c <= numContentPanes ->
         LayoutCalculator.fits config numContentPanes terminalWidth terminalHeight c = false) ->
      layout = LayoutCalculator.fallback config numContentPanes terminalWidth
      /\ LayoutCalculator.cols layout = 1
      /\ LayoutCalculator.rows layout = numContentPanes).
Proof.
  intros Hn _ _ layout. subst layout.
  unfold LayoutCalculator.calculateOptimalLayout.
  destruct (Z.eqb_spec numContentPanes 0) as [|_]; [lia|].
  split; [|split].
  - pose proof (loop_goodBest config numContentPanes terminalWidth terminalHeight
                  (LayoutCalculator.downfrom numContentPanes) (None, (-1)%float)
                  (fun c Hc => proj1 (elem_of_downfrom c _) Hc) I) as Hgood.
    destruct (fold_left _ _ _) as [[b|] score]; simpl in *; lia.
  - pose proof (loop_goodBest config numContentPanes terminalWidth terminalHeight
                  (LayoutCalculator.downfrom numContentPanes) (None, (-1)%float)
                  (fun c Hc => proj1 (elem_of_downfrom c _) Hc) I) as Hgood.
    destruct (fold_left _ _ _) as [[b|] score]; simpl in *; [|lia].
    destruct Hgood as (Hc & -> & _). apply ceil_div_pos; lia.
  - intros Hnone. rewrite loop_unfit; [done|].
    intros c Hc. apply Hnone, elem_of_downfrom, Hc.
Qed.

(** A case of C2: four panes in a 200 x 50 terminal with the 60/100 bounds. *)
Lemma calculateOptimalLayout_at_least_one_witness :
  let layout :=
    LayoutCalculator.calculateOptimalLayout LayoutCalculator.config_60_100 4 200 50 in
  1 <= LayoutCalculator.cols layout
  /\ 1 <= LayoutCalculator.rows layout
  /\ ((forall c, 1 <= c <= 4 ->
         LayoutCalculator.fits LayoutCalculator.config_60_100 4 200 50 c = false) ->
      layout = LayoutCalculator.fallback LayoutCalculator.config_60_100 4 200
      /\ LayoutCalculator.cols layout = 1
      /\ LayoutCalculator.rows layout = 4).
Proof.
  apply (calculateOptimalLayout_at_least_one LayoutCalculator.config_60_100 4 200 50); lia.
Defined.

(** The fallback is really taken: three panes in 119 x 40 fit in no column
    count. *)
Lemma no_column_count_fits_3_119_40 (c : Z) :
  1 <= c <= 3 ->
  LayoutCalculator.fits LayoutCalculator.config_60_100 3 119 40 c = false.
Proof.
  intros Hc. assert (c = 1 \/ c = 2 \/ c = 3) as [-> | [-> | ->]] by lia;
    reflexivity.
Qed.

(** C6, as the claim states it, fails: with 3 panes, a 119 x 40 terminal, pane
    widths from 60 to 100, a minimum height of 15 and the 40-column sidebar,
    calculateOptimalLayout does not return 2 columns and 2 rows. *)
Lemma fallback_layout_for_3_119_40 :
  let layout :=
    LayoutCalculator.calculateOptimalLayout LayoutCalculator.config_60_100 3 119 40 in
  ~ (LayoutCalculator.cols layout = 2 /\ LayoutCalculator.rows layout = 2).
Proof. vm_compute. intros [H _]. discriminate H. Qed.

(** C6, amended. With 3 panes, a 119 x 40 terminal, pane widths from 60 to
    100, a minimum height of 15 and the 40-column sidebar, no column count
    passes the feasibility test (two columns need 40 + 2 * 60 + 1 = 161
    columns, one column needs 3 * 15 + 2 = 47 lines) and
    calculateOptimalLayout returns the single-column fallback: 1 column, 3
    rows. The answer "2 columns" (hence 2 rows for 3 panes) is that of
    calculateOptimalColumns(3, 119, 40) of utils/tmux.ts, whose width
    argument is that of the content area, without the sidebar. *)
Theorem calculateOptimalLayout_3_119_40 :
  let layout :=
    LayoutCalculator.calculateOptimalLayout LayoutCalculator.config_60_100 3 119 40 in
  (forall c, 1 <= c <= 3 ->
     LayoutCalculator.fits LayoutCalculator.config_60_100 3 119 40 c = false)
  /\ layout = LayoutCalculator.fallback LayoutCalculator.config_60_100 3 119
  /\ LayoutCalculator.cols layout = 1
  /\ LayoutCalculator.rows layout = 3
  /\ Tmux.calculateOptimalColumns 3 119 40 = 2
  /\ JS.ceil_div 3 (Tmux.calculateOptimalColumns 3 119 40) = 2.
Proof.
  split; [exact no_column_count_fits_3_119_40|].
  repeat split; vm_compute; reflexivity.
Qed.

(** ** The layout string encoder *)

Section EncoderFacts.
Import Tmux.

Lemma checksumStep_range c code : 0 <= checksumStep c code < 65536.
Proof.
  unfold checksumStep. change 65535 with (Z.ones 16).
  rewrite Z.land_ones by lia. apply Z.mod_pos_bound. lia.
Qed.

Lemma checksumValue_range layout : 0 <= checksumValue layout < 65536.
Proof.
  unfold checksumValue.
  assert (forall codes c, 0 <= c < 65536 ->
            0 <= fold_left checksumStep codes c < 65536) as H.
  { induction codes as [|code codes IH]; intros c Hc; [exact Hc|].
    simpl. apply IH, checksumStep_range. }
  apply H. lia.
Qed.

Lemma checksumValue_rotateAddMask layout :
  checksumValue layout = rotateAddMask (JS.charCodes layout).
Proof. reflexivity. Qed.

Lemma In_hexDigits x : 0 <= x < 16 -> In x hexDigits.
Proof.
  intros Hx.
  assert (x = 0 \/ x = 1 \/ x = 2 \/ x = 3 \/ x = 4 \/ x = 5 \/ x = 6 \/ x = 7
          \/ x = 8 \/ x = 9 \/ x = 10 \/ x = 11 \/ x = 12 \/ x = 13 \/ x = 14
          \/ x = 15) as Hcases by lia.
  unfold hexDigits. simpl. intuition auto.
Qed.

Lemma forall16bit_spec (f : Z -> bool) v :
  forall16bit f = true -> 0 <= v < 65536 -> f v = true.
Proof.
  unfold forall16bit. intros Hall Hv.
  assert (0 <= v / 4096 < 16) as Ha
    by (split; [apply Z.div_pos; lia | apply Z.div_lt_upper_bound; lia]).
  assert (0 <= (v / 256) mod 16 < 16) as Hb by (apply Z.mod_pos_bound; lia).
  assert (0 <= (v / 16) mod 16 < 16) as Hc by (apply Z.mod_pos_bound; lia).
  assert (0 <= v mod 16 < 16) as Hd by (apply Z.mod_pos_bound; lia).
  assert (v = ((v / 4096 * 16 + (v / 256) mod 16) * 16 + (v / 16) mod 16) * 16
              + v mod 16) as Heq.
  { pose proof (Z.div_mod v 16 ltac:(lia)).
    pose proof (Z.div_mod (v / 16) 16 ltac:(lia)).
    pose proof (Z.div_mod (v / 16 / 16) 16 ltac:(lia)).
    replace (v / 256) with (v / 16 / 16) by (rewrite Z.div_div by lia; reflexivity).
    replace (v / 4096) with (v / 16 / 16 / 16)
      by (rewrite !Z.div_div by lia; reflexivity).
    lia. }
  revert Ha Hb Hc Hd Heq.
  generalize (v / 4096) ((v / 256) mod 16) ((v / 16) mod 16) (v mod 16).
  intros a b c d Ha Hb Hc Hd ->.
  rewrite forallb_forall in Hall. specialize (Hall a (In_hexDigits a Ha)).
  rewrite forallb_forall in Hall. specialize (Hall b (In_hexDigits b Hb)).
  rewrite forallb_forall in Hall. specialize (Hall c (In_hexDigits c Hc)).
  rewrite forallb_forall in Hall. exact (Hall d (In_hexDigits d Hd)).
Qed.

(** Every 16-bit value is rendered as its four lowercase hexadecimal digits:
    checked on each of the 65536 values. *)
Lemma render_all_16_bit_values :
  forall16bit (fun v => isChecksumField v (JS.padStart 4 "0" (JS.toString16 v))) = true.
Proof. vm_compute. reflexivity. Qed.

Lemma calculateLayoutChecksum_field layout :
  isChecksumField (rotateAddMask (JS.charCodes layout)) (calculateLayoutChecksum layout) = true.
Proof.
  rewrite <- checksumValue_rotateAddMask. unfold calculateLayoutChecksum.
  apply (forall16bit_spec _ _ render_all_16_bit_values), checksumValue_range.
Qed.

Section Rows.
Variables (contentPanes : list string).
Variables (windowHeight cols rows contentWidth contentStartX paneHeight
           maxComfortableWidth : Z).
Variable spacerLast : bool.

Let F := rowStep contentPanes windowHeight cols rows contentWidth contentStartX
           paneHeight maxComfortableWidth spacerLast.

Lemma buildRowPanes_nonempty p ps widths spacer sw rh cy ax :
  buildRowPanes (p :: ps) widths spacer sw rh cy ax <> [].
Proof. simpl. discriminate. Qed.

(** A row never takes a grid row away. *)
Lemma rowStep_keeps st row : gridRows st <> [] -> gridRows (F st row) <> [].
Proof.
  intros Hne. unfold F, rowStep. cbv zeta.
  destruct (if _ : bool then _ else _) as [widths spacerWidth].
  cbn [gridRows].
  destruct (buildRowPanes _ _ _ _ _ _ _) as [|a [|b l]]; [exact Hne| |];
    intros Happ; apply app_eq_nil in Happ as [_ Habs]; discriminate Habs.
Qed.

(** A row that holds a pane adds a grid row. *)
Lemma rowStep_adds st row :
  take (Z.to_nat cols) (drop (paneIndex st) contentPanes) <> [] ->
  gridRows (F st row) <> [].
Proof.
  intros Hne. unfold F, rowStep. cbv zeta.
  destruct (take (Z.to_nat cols) (drop (paneIndex st) contentPanes)) as [|p ps];
    [done|].
  destruct (if _ : bool then _ else _) as [widths spacerWidth].
  cbn [gridRows].
  pose proof (buildRowPanes_nonempty p ps widths
                (spacerLast && (row =? rows - 1) && (0 <? Z.of_nat (length (p :: ps)))
                 && match last (p :: ps), last contentPanes with
                    | Some a, Some b => String.eqb a b
                    | _, _ => false
                    end)
                spacerWidth
                (if row =? rows - 1 then windowHeight - currentY st else paneHeight)
                (currentY st) contentStartX) as Hrow.
  destruct (buildRowPanes _ _ _ _ _ _ _) as [|a [|b l]]; [done| |];
    intros Happ; apply app_eq_nil in Happ as [_ Habs]; discriminate Habs.
Qed.

Lemma rows_keep rs st : gridRows st <> [] -> gridRows (fold_left F rs st) <> [].
Proof.
  revert st. induction rs as [|r rs IH]; intros st Hne; [exact Hne|].
  simpl. apply IH, rowStep_keeps, Hne.
Qed.

End Rows.

Lemma layoutWithoutChecksum_some getTitle controlPaneId contentPanes
    sidebarWidth windowWidth windowHeight columns maxComfortableWidth :
  contentPanes <> [] -> 1 <= columns ->
  is_Some (layoutWithoutChecksum getTitle controlPaneId contentPanes sidebarWidth
             windowWidth windowHeight columns maxComfortableWidth).
Proof.
  intros Hpanes Hcols. unfold layoutWithoutChecksum. cbv zeta.
  destruct (Z.leb_spec columns 0) as [|_]; [lia|].
  set (rows := JS.ceil_div (Z.of_nat (length contentPanes)) columns).
  assert (1 <= rows) as Hrows.
  { apply ceil_div_pos; [|lia]. destruct contentPanes; [done | simpl; lia]. }
  match goal with |- context [fold_left ?f ?l ?s] =>
    assert (gridRows (fold_left f l s) <> []) as Hgrid end.
  { unfold LayoutCalculator.upto.
    destruct (Z.to_nat rows) as [|k] eqn:Hk; [lia|].
    simpl. apply rows_keep, rowStep_adds. simpl.
    destruct contentPanes as [|p ps]; [done|].
    destruct (Z.to_nat columns) as [|c] eqn:Hc; [lia|]. done. }
  destruct (gridRows _) as [|row [|row' rs]]; [done | eauto | eauto].
Qed.

End EncoderFacts.

(** C1, as the claim states it, fails: the claim bounds the pane list and the
    window but not the column count, and with one pane, a 200 x 60 window and
    a column count of -1 the encoder returns the empty string, which is no
    checksum, comma and body. *)
Lemma generateSidebarGridLayout_negative_columns :
  ~ exists checksum body,
      Tmux.generateSidebarGridLayout (fun _ => None) "%0" ["%1"] 40 200 60 (-1) 100
      = Some (checksum +:+ "," +:+ body).
Proof.
  intros (checksum & body & H). vm_compute in H.
  destruct checksum; discriminate H.
Qed.

(** C1, amended. For every non-empty list of content pane ids, positive
    window dimensions and a column count of at least 1, the descriptor
    returned by generateSidebarGridLayout is a checksum, a comma and the
    descriptor body, where the checksum is exactly 4 lowercase hexadecimal
    digits (zero padded) that write the value of the accumulator
    c := ((c >> 1) + ((c & 1) << 15) + byte) & 0xFFFF run over the bytes of
    the body from 0. *)
Theorem generateSidebarGridLayout_checksum
    (getPaneTitleSync : string -> option string) (controlPaneId : string)
    (contentPanes : list string)
    (sidebarWidth windowWidth windowHeight columns maxComfortableWidth : Z) :
  contentPanes <> [] -> 0 < windowWidth -> 0 < windowHeight -> 1 <= columns ->
  exists checksum body,
    Tmux.generateSidebarGridLayout getPaneTitleSync controlPaneId contentPanes
      sidebarWidth windowWidth windowHeight columns maxComfortableWidth
    = Some (checksum +:+ "," +:+ body)
    /\ Tmux.layoutWithoutChecksum getPaneTitleSync controlPaneId contentPanes
         sidebarWidth windowWidth windowHeight columns maxComfortableWidth
       = Some body
    /\ String.length checksum = 4%nat
    /\ forallb isLowerHexDigit (list_ascii_of_string checksum) = true
    /\ hexValue checksum = rotateAddMask (JS.charCodes body).
Proof.
  intros Hpanes _ _ Hcols.
  destruct (layoutWithoutChecksum_some getPaneTitleSync controlPaneId contentPanes
              sidebarWidth windowWidth windowHeight columns maxComfortableWidth
              Hpanes Hcols) as [body Hbody].
  exists (Tmux.calculateLayoutChecksum body), body.
  unfold Tmux.generateSidebarGridLayout. rewrite Hbody.
  destruct (Z.eqb_spec columns 0) as [|_]; [lia|]. simpl.
  pose proof (calculateLayoutChecksum_field body) as Hfield.
  unfold isChecksumField in Hfield.
  apply andb_prop in Hfield as [Hfield Hval].
  apply andb_prop in Hfield as [Hlen Hhex].
  repeat split; [by apply Nat.eqb_eq | exact Hhex | by apply Z.eqb_eq].
Qed.

(** A case of C1: five panes in three columns of a 201 x 60 window. *)
Lemma generateSidebarGridLayout_checksum_witness :
  exists checksum body,
    Tmux.generateSidebarGridLayout (fun _ => None) "%0"
      ["%1"; "%2"; "%3"; "%4"; "%5"] 40 201 60 3 80
    = Some (checksum +:+ "," +:+ body)
    /\ Tmux.layoutWithoutChecksum (fun _ => None) "%0"
         ["%1"; "%2"; "%3"; "%4"; "%5"] 40 201 60 3 80
       = Some body
    /\ String.length checksum = 4%nat
    /\ forallb isLowerHexDigit (list_ascii_of_string checksum) = true
    /\ hexValue checksum = rotateAddMask (JS.charCodes body).
Proof.
  apply (generateSidebarGridLayout_checksum (fun _ => None) "%0"
           ["%1"; "%2"; "%3"; "%4"; "%5"] 40 201 60 3 80);
    [discriminate | lia | lia | lia].
Defined.

(** The descriptor of that case, checksum included. *)
Example generateSidebarGridLayout_201x60 :
  Tmux.generateSidebarGridLayout (fun _ => None) "%0"
    ["%1"; "%2"; "%3"; "%4"; "%5"] 40 201 60 3 80
  = Some "24ef,201x60,0,0{40x60,0,0,0,160x60,41,0[160x29,41,0{54x29,41,0,1,52x29,96,0,2,52x29,149,0,3},160x30,41,30{80x30,41,30,4,79x30,122,30,5}]}".
Proof. vm_compute. reflexivity. Qed.

(** ** Sibling slugs *)

Section SiblingSlugFacts.
Import AttachAgent.

Lemma substring_all s : substring 0 (String.length s) s = s.
Proof. induction s as [|c s IH]; simpl; [reflexivity | by rewrite IH]. Qed.

Lemma startsWith_stripPrefix p s :
  JS.stripPrefix p s
  = if JS.startsWith p s then Some (JS.slice (String.length p) s) else None.
Proof.
  unfold JS.startsWith, JS.slice. revert s.
  induction p as [|a p IH]; intros s.
  - destruct s; simpl; [reflexivity|]. by rewrite substring_all.
  - destruct s as [|b s]; [reflexivity|]. simpl.
    destruct (Ascii.ascii_dec a b) as [->|Hne].
    + rewrite Ascii.eqb_refl. apply IH.
    + destruct (Ascii.eqb_spec a b); [contradiction | reflexivity].
Qed.

Lemma siblingStep_suffix (siblingPrefix : string) maxSibling paneSlug :
  siblingStep siblingPrefix maxSibling paneSlug
  = match JS.stripPrefix siblingPrefix paneSlug with
    | Some suffix =>
        if JS.allDigits suffix then Z.max maxSibling (JS.parseDigits suffix)
        else maxSibling
    | None => maxSibling
    end.
Proof.
  unfold siblingStep. rewrite startsWith_stripPrefix.
  destruct (JS.startsWith siblingPrefix paneSlug); simpl; [|reflexivity].
  destruct (JS.allDigits _); reflexivity.
Qed.

Lemma siblingLoop_suffixes baseSlug existingSlugs maxSibling :
  fold_left (siblingStep (baseSlug +:+ "-a")) existingSlugs maxSibling
  = fold_left Z.max (siblingSuffixes baseSlug existingSlugs) maxSibling.
Proof.
  revert maxSibling. induction existingSlugs as [|s rest IH]; intros maxSibling;
    [reflexivity|].
  simpl. rewrite siblingStep_suffix, IH. unfold siblingSuffixes. simpl.
  destruct (JS.stripPrefix (baseSlug +:+ "-a") s) as [suffix|]; [|reflexivity].
  destruct (JS.allDigits suffix); reflexivity.
Qed.

Lemma max_from_one (zs : list Z) :
  Forall (fun z => 1 <= z) zs ->
  fold_left Z.max zs 1 = match zs with [] => 1 | z :: zs' => fold_left Z.max zs' z end.
Proof.
  intros Hzs. destruct zs as [|z zs']; [reflexivity|].
  simpl. apply Forall_cons in Hzs as [Hz _]. by rewrite Z.max_r.
Qed.

End SiblingSlugFacts.



(** ** The entry point of the layout pipeline *)

(** C9, as the claim states it, fails: a call of recalculateAndApplyLayout
    with terminal width 0 and suppressLogs set is not rejected: its promise
    resolves, and nothing at all is logged. *)
Lemma recalculateAndApplyLayout_zero_width_resolves :
  let run :=
    LayoutManager.recalculateAndApplyLayout (fun _ _ _ _ _ _ => ([], None))
      "%0" ["%1"] 0 40 None
      (Some {| LayoutManager.force := None;
               LayoutManager.suppressLogs := Some true;
               LayoutManager.disableSpacer := None |}) in
  LayoutManager.settled run = LayoutManager.Resolved
  /\ LayoutManager.logged run = []
  /\ ~ LayoutManager.loudRejection run.
Proof.
  split; [reflexivity | split; [reflexivity |]].
  intros [reason H]. discriminate H.
Qed.

(** C9, amended. A call of recalculateAndApplyLayout with a zero or negative
    terminal width or height returns normally (the promise resolves, nothing
    is thrown) without entering any layout step; all it does is log one
    warning, "Invalid terminal dimensions: WxH, skipping layout" (or the
    warning about an invalid controlPaneId when that is empty as well), and
    not even that when suppressLogs is set. The rejection is silent, like the
    handling of the expected failures: whatever the layout steps do, the
    promise of recalculateAndApplyLayout resolves. *)
Theorem recalculateAndApplyLayout_invalid_dimensions
    (layoutSteps :
       string -> list string -> Z -> Z -> option LayoutCalculator.LayoutConfig ->
       option LayoutManager.Options -> list LayoutManager.LogEntry * option string)
    (controlPaneId : string) (contentPaneIds : list string)
    (terminalWidth terminalHeight : Z)
    (config : option LayoutCalculator.LayoutConfig)
    (options : option LayoutManager.Options) :
  terminalWidth <= 0 \/ terminalHeight <= 0 ->
  let run :=
    LayoutManager.recalculateAndApplyLayout layoutSteps controlPaneId contentPaneIds
      terminalWidth terminalHeight config options in
  LayoutManager.settled run = LayoutManager.Resolved
  /\ LayoutManager.enteredPipeline run = false
  /\ (LayoutManager.isTrue options LayoutManager.suppressLogs = true ->
      LayoutManager.logged run = [])
  /\ (LayoutManager.isTrue options LayoutManager.suppressLogs = false ->
      controlPaneId <> EmptyString ->
      LayoutManager.logged run
      = [{| LayoutManager.level := LayoutManager.warn;
            LayoutManager.message :=
              "Invalid terminal dimensions: " +:+ JS.str terminalWidth +:+ "x"
              +:+ JS.str terminalHeight +:+ ", skipping layout";
            LayoutManager.source := "Layout" |}])
  /\ (forall width height,
        LayoutManager.settled
          (LayoutManager.recalculateAndApplyLayout layoutSteps controlPaneId
             contentPaneIds width height config options)
        = LayoutManager.Resolved).
Proof.
  intros Hdim run. subst run.
  assert ((terminalWidth <=? 0) || (terminalHeight <=? 0) = true) as Hbad.
  { apply orb_true_iff. destruct Hdim; [left | right]; by apply Z.leb_le. }
  unfold LayoutManager.recalculateAndApplyLayout. rewrite Hbad.
  repeat split.
  - by destruct (String.eqb controlPaneId EmptyString).
  - by destruct (String.eqb controlPaneId EmptyString).
  - intros ->. by destruct (String.eqb controlPaneId EmptyString).
  - intros -> Hid. destruct (String.eqb_spec controlPaneId EmptyString); done.
  - intros width height.
    destruct (String.eqb controlPaneId EmptyString); [reflexivity|].
    destruct ((width <=? 0) || (height <=? 0)); [reflexivity|].
    by destruct (layoutSteps _ _ _ _ _ _) as [logs [err|]].
Qed.

(** A case of C9: a terminal of height -1, with layout steps that would
    throw if they were reached. *)
Lemma recalculateAndApplyLayout_invalid_dimensions_witness :
  let steps := fun (_ : string) (_ : list string) (_ _ : Z)
                   (_ : option LayoutCalculator.LayoutConfig)
                   (_ : option LayoutManager.Options) =>
                 ([] : list LayoutManager.LogEntry, Some "tmux not running"%string) in
  let run :=
    LayoutManager.recalculateAndApplyLayout steps "%0" ["%1"; "%2"] 120 (-1) None None in
  LayoutManager.settled run = LayoutManager.Resolved
  /\ LayoutManager.enteredPipeline run = false
  /\ (LayoutManager.isTrue None LayoutManager.suppressLogs = true ->
      LayoutManager.logged run = [])
  /\ (LayoutManager.isTrue None LayoutManager.suppressLogs = false ->
      "%0"%string <> EmptyString ->
      LayoutManager.logged run
      = [{| LayoutManager.level := LayoutManager.warn;
            LayoutManager.message :=
              "Invalid terminal dimensions: " +:+ JS.str 120 +:+ "x"
              +:+ JS.str (-1) +:+ ", skipping layout";
            LayoutManager.source := "Layout" |}])
  /\ (forall width height,
        LayoutManager.settled
          (LayoutManager.recalculateAndApplyLayout steps "%0" ["%1"; "%2"]
             width height None None)
        = LayoutManager.Resolved).
Proof.
  apply (recalculateAndApplyLayout_invalid_dimensions
           (fun _ _ _ _ _ _ => ([], Some "tmux not running"%string))
           "%0" ["%1"; "%2"] 120 (-1) None None).
  right. lia.
Defined.

(** ** The settings manager *)

Section SettingsFacts.
Import Types SettingsManager.
Variable K : Limits.
Variable isValidBranchName : string -> bool.
Variable isAgentName : string -> bool.
Variable defaultEnabledAgents : list string.

Lemma resolveGlobalPaneWidths_ordered m minOverride maxOverride :
  fst (resolveGlobalPaneWidths K m minOverride maxOverride)
  <= snd (resolveGlobalPaneWidths K m minOverride maxOverride).
Proof.
  unfold resolveGlobalPaneWidths. cbv zeta.
  destruct (Z.ltb_spec (default (getValidGlobalMaxPaneWidth K m) maxOverride)
                       (default (getValidGlobalMinPaneWidth K m) minOverride));
    [|simpl; lia].
  destruct (_ && _); simpl; lia.
Qed.

(** The three ways an update resolves the bounds: the bound being updated
    gives way to the one that is not; when both are given the maximum gives
    way. *)
Lemma resolve_min_only m v :
  resolveGlobalPaneWidths K m (Some v) None
  = (Z.min v (getValidGlobalMaxPaneWidth K m), getValidGlobalMaxPaneWidth K m).
Proof.
  unfold resolveGlobalPaneWidths. simpl.
  destruct (Z.ltb_spec (getValidGlobalMaxPaneWidth K m) v); f_equal; lia.
Qed.

Lemma resolve_max_only m v :
  resolveGlobalPaneWidths K m None (Some v)
  = (getValidGlobalMinPaneWidth K m, Z.max v (getValidGlobalMinPaneWidth K m)).
Proof.
  unfold resolveGlobalPaneWidths. simpl.
  destruct (Z.ltb_spec v (getValidGlobalMinPaneWidth K m)); f_equal; lia.
Qed.

Lemma resolve_both m lo hi :
  resolveGlobalPaneWidths K m (Some lo) (Some hi) = (lo, Z.max hi lo).
Proof.
  unfold resolveGlobalPaneWidths. simpl.
  destruct (Z.ltb_spec hi lo); f_equal; lia.
Qed.

Lemma getSettings_effective m :
  effectiveMin (getSettings K defaultEnabledAgents m)
  = Some (fst (resolveGlobalPaneWidths K m None None))
  /\ effectiveMax (getSettings K defaultEnabledAgents m)
     = Some (snd (resolveGlobalPaneWidths K m None None)).
Proof.
  unfold effectiveMin, effectiveMax, getSettings. cbv zeta.
  rewrite lookup_insert_ne by done.
  rewrite !lookup_insert_eq. done.
Qed.

(** What [storePaneWidths] leaves behind. *)
Lemma storePaneWidths_spec minOverride maxOverride m :
  let m' := fst (storePaneWidths K minOverride maxOverride m) in
  let resolved := resolveGlobalPaneWidths K m minOverride maxOverride in
  globalSettings m' !! "minPaneWidth" = Some (VInt (fst resolved))
  /\ globalSettings m' !! "maxPaneWidth" = Some (VInt (snd resolved))
  /\ projectSettings m' !! "minPaneWidth" = None
  /\ projectSettings m' !! "maxPaneWidth" = None
  /\ (forall key, key <> "minPaneWidth"%string -> key <> "maxPaneWidth"%string ->
        globalSettings m' !! key = globalSettings m !! key
        /\ projectSettings m' !! key = projectSettings m !! key)
  /\ globalFile m' = globalFile m /\ projectFile m' = projectFile m.
Proof.
  unfold storePaneWidths. cbv zeta. cbn [fst projectSettings setGlobal].
  destruct (decide (is_Some (projectSettings m !! "minPaneWidth"))) as [Hmin|Hmin];
    [rewrite (bool_decide_eq_true_2 _ Hmin) | rewrite (bool_decide_eq_false_2 _ Hmin)];
    cbn [projectSettings setProject setGlobal].
  - destruct (decide (is_Some (delete "minPaneWidth" (projectSettings m) !! "maxPaneWidth")))
      as [Hmax|Hmax];
      [rewrite (bool_decide_eq_true_2 _ Hmax) | rewrite (bool_decide_eq_false_2 _ Hmax)];
      cbn [globalSettings projectSettings globalFile projectFile setProject setGlobal];
      repeat split;
      try (intros; split);
      try (by simplify_map_eq).
    + apply eq_None_not_Some in Hmax. by simplify_map_eq.
  - apply eq_None_not_Some in Hmin.
    destruct (decide (is_Some (projectSettings m !! "maxPaneWidth"))) as [Hmax|Hmax];
      [rewrite (bool_decide_eq_true_2 _ Hmax) | rewrite (bool_decide_eq_false_2 _ Hmax)];
      cbn [globalSettings projectSettings globalFile projectFile setProject setGlobal];
      repeat split;
      try (intros; split);
      try (by simplify_map_eq).
    + by apply eq_None_not_Some in Hmax.
Qed.

Lemma orElse_None (a b : option string) : orElse a b = None -> a = None /\ b = None.
Proof. destruct a; [discriminate | done]. Qed.

Lemma storePaneWidths_stored minOverride maxOverride m m1 changed :
  storePaneWidths K minOverride maxOverride m = (m1, changed) ->
  let resolved := resolveGlobalPaneWidths K m minOverride maxOverride in
  storedPaneWidths m1 = (Some (fst resolved), Some (snd resolved))
  /\ projectHasNoPaneWidth m1.
Proof.
  intros Hstore.
  pose proof (storePaneWidths_spec minOverride maxOverride m) as Hspec.
  rewrite Hstore in Hspec. cbv zeta in Hspec. cbn [fst] in Hspec.
  destruct Hspec as (Hmin & Hmax & Hpmin & Hpmax & _).
  unfold storedPaneWidths, effectiveMin, effectiveMax, projectHasNoPaneWidth.
  cbv zeta. by rewrite Hmin, Hmax.
Qed.

Lemma updateSetting_width_stored key value scope m m' minOverride maxOverride :
  (key = "minPaneWidth"%string /\ minOverride = intOf value /\ maxOverride = None)
  \/ (key = "maxPaneWidth"%string /\ minOverride = None /\ maxOverride = intOf value) ->
  updateSetting K isValidBranchName isAgentName key value scope m = Updated m' ->
  let resolved := resolveGlobalPaneWidths K m minOverride maxOverride in
  storedPaneWidths m' = (Some (fst resolved), Some (snd resolved))
  /\ projectHasNoPaneWidth m'
  /\ globalFile m' = Parsed (globalSettings m').
Proof.
  intros Hkey Hupd. unfold updateSetting in Hupd.
  destruct (validateSetting _ _ _ _ _) as [msg|]; [discriminate|].
  assert (storePaneWidths K minOverride maxOverride m
          = (if String.eqb key "minPaneWidth"
             then storePaneWidths K (intOf value) None m
             else storePaneWidths K None (intOf value) m)) as Hsame.
  { destruct Hkey as [(-> & -> & ->) | (-> & -> & ->)]; reflexivity. }
  assert (String.eqb key "minPaneWidth" || String.eqb key "maxPaneWidth" = true) as Hwidth.
  { destruct Hkey as [(-> & _) | (-> & _)]; reflexivity. }
  rewrite Hwidth, <- Hsame in Hupd.
  destruct (storePaneWidths K minOverride maxOverride m) as [m1 changed] eqn:Hstore.
  apply storePaneWidths_stored in Hstore as (Hstored & Hfree).
  injection Hupd as <-.
  destruct changed; done.
Qed.

End SettingsFacts.

(** C10, as the claim states it, fails: with the bounds at their defaults 50
    and 80, lowering the maximum to 40 does not pull the minimum, which is
    not being updated, down to 40; the maximum, which is, is raised to 50. *)
Lemma updateSetting_max_below_min :
  exists m',
    SettingsManager.updateSetting SettingsManager.limits_of_tests (fun _ => true)
      (fun _ => true) "maxPaneWidth" (SettingsManager.VInt 40) Types.global
      (SettingsManager.construct SettingsManager.Missing SettingsManager.Missing)
    = SettingsManager.Updated m'
    /\ SettingsManager.effectiveMin
         (SettingsManager.getSettings SettingsManager.limits_of_tests [] m') = Some 50
    /\ SettingsManager.effectiveMax
         (SettingsManager.getSettings SettingsManager.limits_of_tests [] m') = Some 50
    /\ ~ (SettingsManager.effectiveMin
            (SettingsManager.getSettings SettingsManager.limits_of_tests [] m') = Some 40
          /\ SettingsManager.effectiveMax
               (SettingsManager.getSettings SettingsManager.limits_of_tests [] m') = Some 40).
Proof.
  eexists. split; [vm_compute; reflexivity|].
  split; [vm_compute; reflexivity|]. split; [vm_compute; reflexivity|].
  intros [H _]. vm_compute in H. discriminate H.
Qed.

(** C10, amended. In every state of a SettingsManager (hence after
    construction and after every updateSetting or updateSettings) the
    effective merged settings have minPaneWidth <= maxPaneWidth. When an
    update would violate this, the bound being updated is clamped to the
    bound that is not: a minimum set above the maximum becomes the maximum, a
    maximum set below the minimum becomes the minimum, and when both are given
    at once the maximum is raised to the minimum. An update of a pane-width
    bound stores the resolved bounds at global scope, writes the global file,
    and deletes any project-scope minPaneWidth or maxPaneWidth, also when the
    caller asked for project scope. *)
Theorem pane_width_bounds_global_and_ordered
    (K : SettingsManager.Limits) (isValidBranchName isAgentName : string -> bool)
    (defaultEnabledAgents : list string) :
  (forall m, exists lo hi,
      SettingsManager.effectiveMin (SettingsManager.getSettings K defaultEnabledAgents m)
      = Some lo
      /\ SettingsManager.effectiveMax (SettingsManager.getSettings K defaultEnabledAgents m)
         = Some hi
      /\ lo <= hi)
  /\ (forall m value scope m',
        SettingsManager.updateSetting K isValidBranchName isAgentName
          "minPaneWidth" value scope m = SettingsManager.Updated m' ->
        exists v, value = SettingsManager.VInt v
          /\ storedPaneWidths m'
             = (Some (Z.min v (SettingsManager.getValidGlobalMaxPaneWidth K m)),
                Some (SettingsManager.getValidGlobalMaxPaneWidth K m))
          /\ projectHasNoPaneWidth m'
          /\ SettingsManager.globalFile m'
             = SettingsManager.Parsed (SettingsManager.globalSettings m'))
  /\ (forall m value scope m',
        SettingsManager.updateSetting K isValidBranchName isAgentName
          "maxPaneWidth" value scope m = SettingsManager.Updated m' ->
        exists v, value = SettingsManager.VInt v
          /\ storedPaneWidths m'
             = (Some (SettingsManager.getValidGlobalMinPaneWidth K m),
                Some (Z.max v (SettingsManager.getValidGlobalMinPaneWidth K m)))
          /\ projectHasNoPaneWidth m'
          /\ SettingsManager.globalFile m'
             = SettingsManager.Parsed (SettingsManager.globalSettings m'))
  /\ (forall m settings scope m',
        SettingsManager.updateSettings K isValidBranchName isAgentName settings scope m
        = SettingsManager.Updated m' ->
        is_Some (settings !! "minPaneWidth") \/ is_Some (settings !! "maxPaneWidth") ->
        exists lo hi,
          storedPaneWidths m' = (Some lo, Some hi)
          /\ lo <= hi
          /\ (lo, hi) = SettingsManager.resolveGlobalPaneWidths K m
                          (settings !! "minPaneWidth" ≫= SettingsManager.intOf)
                          (settings !! "maxPaneWidth" ≫= SettingsManager.intOf)
          /\ (forall a b, settings !! "minPaneWidth" = Some (SettingsManager.VInt a) ->
                          settings !! "maxPaneWidth" = Some (SettingsManager.VInt b) ->
                          (lo, hi) = (a, Z.max b a))
          /\ projectHasNoPaneWidth m'
          /\ SettingsManager.globalFile m'
             = SettingsManager.Parsed (SettingsManager.globalSettings m')).
Proof.
  split; [|split; [|split]].
  - intros m. destruct (getSettings_effective K defaultEnabledAgents m) as [Hmin Hmax].
    eexists _, _. split; [exact Hmin|]. split; [exact Hmax|].
    apply resolveGlobalPaneWidths_ordered.
  - intros m value scope m' Hupd.
    assert (exists v, value = SettingsManager.VInt v) as [v ->].
    { unfold SettingsManager.updateSetting in Hupd.
      destruct (SettingsManager.validateSetting _ _ _ _ _) as [msg|] eqn:Hval;
        [discriminate|].
      unfold SettingsManager.validateSetting in Hval.
      apply orElse_None in Hval as [Hval _].
      apply orElse_None in Hval as [_ Hval].
      simpl in Hval. destruct value; try discriminate Hval. eauto. }
    exists v. split; [reflexivity|].
    pose proof (updateSetting_width_stored K isValidBranchName isAgentName
                  "minPaneWidth" (SettingsManager.VInt v) scope m m' (Some v) None
                  ltac:(left; done) Hupd) as H.
    cbv zeta in H. by rewrite resolve_min_only in H.
  - intros m value scope m' Hupd.
    assert (exists v, value = SettingsManager.VInt v) as [v ->].
    { unfold SettingsManager.updateSetting in Hupd.
      destruct (SettingsManager.validateSetting _ _ _ _ _) as [msg|] eqn:Hval;
        [discriminate|].
      unfold SettingsManager.validateSetting in Hval.
      apply orElse_None in Hval as [_ Hval].
      simpl in Hval. destruct value; try discriminate Hval. eauto. }
    exists v. split; [reflexivity|].
    pose proof (updateSetting_width_stored K isValidBranchName isAgentName
                  "maxPaneWidth" (SettingsManager.VInt v) scope m m' None (Some v)
                  ltac:(right; done) Hupd) as H.
    cbv zeta in H. by rewrite resolve_max_only in H.
  - intros m settings scope m' Hupd Hwidth.
    unfold SettingsManager.updateSettings in Hupd.
    destruct (SettingsManager.validateSettings _ _ _ _) as [msg|]; [discriminate|].
    assert (bool_decide (is_Some (settings !! "minPaneWidth"))
            || bool_decide (is_Some (settings !! "maxPaneWidth")) = true) as Hhas.
    { apply orb_true_iff. destruct Hwidth; [left | right]; by apply bool_decide_eq_true_2. }
    rewrite Hhas in Hupd.
    destruct (SettingsManager.storePaneWidths K _ _ m) as [m1 changed] eqn:Hstore.
    apply storePaneWidths_stored in Hstore as (Hstored & Hfree1 & Hfree2).
    set (resolved := SettingsManager.resolveGlobalPaneWidths K m
                       (settings !! "minPaneWidth" ≫= SettingsManager.intOf)
                       (settings !! "maxPaneWidth" ≫= SettingsManager.intOf)) in *.
    exists (fst resolved), (snd resolved).
    assert (storedPaneWidths m' = (Some (fst resolved), Some (snd resolved))
            /\ projectHasNoPaneWidth m'
            /\ SettingsManager.globalFile m'
               = SettingsManager.Parsed (SettingsManager.globalSettings m')) as (H1 & H2 & H3).
    { unfold storedPaneWidths, SettingsManager.effectiveMin, SettingsManager.effectiveMax,
        projectHasNoPaneWidth in *.
      set (rest := delete "maxPaneWidth" (delete "minPaneWidth" settings)) in *.
      assert (rest !! "minPaneWidth" = None) as Hr1 by (subst rest; by simplify_map_eq).
      assert (rest !! "maxPaneWidth" = None) as Hr2 by (subst rest; by simplify_map_eq).
      destruct scope; injection Hupd as <-;
        destruct (negb (bool_decide (rest = ∅))), changed; simpl;
        rewrite ?lookup_union_r by done; done. }
    split; [exact H1|]. split; [apply resolveGlobalPaneWidths_ordered|].
    split; [by destruct resolved|]. split; [|done].
    intros a b Ha Hb. subst resolved. rewrite Ha, Hb. simpl.
    by rewrite resolve_both.
Qed.

(** ** Close fencing *)

Section FencingFacts.
Import Types PaneLifecycleManager DmuxApp.
Variable LOCK_TIMEOUT : Z.

Lemma beginClose_held paneId closeReason now (locks : LockTable) :
  is_Some (beginClose paneId closeReason now locks !! paneId).
Proof.
  unfold beginClose. destruct (locks !! paneId) eqn:Hheld.
  - by rewrite Hheld.
  - rewrite lookup_insert_eq. done.
Qed.

Lemma beginClose_mono paneId other closeReason now (locks : LockTable) :
  is_Some (locks !! paneId) ->
  is_Some (beginClose other closeReason now locks !! paneId).
Proof.
  intros Hheld. unfold beginClose. destruct (locks !! other) eqn:Hother; [exact Hheld|].
  rewrite lookup_insert_ne; [exact Hheld|]. intros ->. destruct Hheld. congruence.
Qed.

Lemma applyOp_keeps paneId (locks : LockTable) op :
  keepsLock LOCK_TIMEOUT paneId locks op ->
  is_Some (locks !! paneId) ->
  applyOp LOCK_TIMEOUT locks op !! paneId = locks !! paneId.
Proof.
  intros Hkeep [lock Hlock]. destruct op as [other closeReason now | other | now]; simpl.
  - unfold beginClose. destruct (locks !! other) eqn:Hother; [reflexivity|].
    apply lookup_insert_ne. intros ->. congruence.
  - unfold completeClose. apply lookup_delete_ne. exact Hkeep.
  - unfold sweep. rewrite Hlock. apply map_lookup_filter_Some.
    split; [exact Hlock|]. simpl. by apply Hkeep.
Qed.

Lemma applyOps_keep paneId ops (locks : LockTable) :
  keepLock LOCK_TIMEOUT paneId locks ops ->
  is_Some (locks !! paneId) ->
  applyOps LOCK_TIMEOUT ops locks !! paneId = locks !! paneId.
Proof.
  revert locks. induction ops as [|op ops IH]; intros locks Hkeep Hheld;
    [reflexivity|].
  destruct Hkeep as [Hop Hrest]. unfold applyOps in *. simpl.
  pose proof (applyOp_keeps paneId locks op Hop Hheld) as Hstep.
  rewrite IH; [exact Hstep | exact Hrest | by rewrite Hstep].
Qed.

End FencingFacts.

(** C5. Once beginClose(id) has been called, and as long as completeClose(id)
    has not run and no sweep has found the lock of id timed out, isClosing(id)
    and isLocked(id) hold, and the pane-removed handler returns at once: the
    pane list, the state file and the count of state-file writes are what
    they were. More generally the handler does nothing whenever isClosing(id)
    or isLocked(id) holds; and between the two beginClose calls that open the
    close action and its completeClose calls, this is so for the pane's
    logical id and for its tmux pane id. *)
Theorem onPaneRemoved_fenced_by_close
    (LOCK_TIMEOUT : Z) (isDevMode : bool) (cwd : string)
    (savedForm : list Types.DmuxPane -> list Types.DmuxPane)
    (locks : PaneLifecycleManager.LockTable) (paneId closeReason : string) (now : Z)
    (ops : list PaneLifecycleManager.LifecycleOp) (st : DmuxApp.AppState) :
  let held := PaneLifecycleManager.beginClose paneId closeReason now locks in
  PaneLifecycleManager.keepLock LOCK_TIMEOUT paneId held ops ->
  let later := PaneLifecycleManager.applyOps LOCK_TIMEOUT ops held in
  PaneLifecycleManager.isClosing paneId later = true
  /\ PaneLifecycleManager.isLocked paneId later = true
  /\ DmuxApp.onPaneRemoved isDevMode cwd savedForm later paneId st = st
  /\ (forall anyLocks anyId,
        PaneLifecycleManager.isClosing anyId anyLocks = true
        \/ PaneLifecycleManager.isLocked anyId anyLocks = true ->
        DmuxApp.onPaneRemoved isDevMode cwd savedForm anyLocks anyId st = st)
  /\ (forall pane option,
        let closing :=
          PaneLifecycleManager.applyOps LOCK_TIMEOUT
            (DmuxApp.closeActionBegins pane option now) locks in
        DmuxApp.onPaneRemoved isDevMode cwd savedForm closing (Types.id pane) st = st
        /\ DmuxApp.onPaneRemoved isDevMode cwd savedForm closing (Types.paneId pane) st = st).
Proof.
  intros held Hkeep later.
  assert (forall anyLocks anyId,
            PaneLifecycleManager.isClosing anyId anyLocks = true
            \/ PaneLifecycleManager.isLocked anyId anyLocks = true ->
            DmuxApp.onPaneRemoved isDevMode cwd savedForm anyLocks anyId st = st) as Hskip.
  { intros anyLocks anyId Hany. unfold DmuxApp.onPaneRemoved.
    replace (PaneLifecycleManager.isClosing anyId anyLocks
             || PaneLifecycleManager.isLocked anyId anyLocks) with true; [reflexivity|].
    symmetry. apply orb_true_iff. exact Hany. }
  assert (is_Some (later !! paneId)) as Hheld.
  { subst later. rewrite (applyOps_keep LOCK_TIMEOUT paneId ops held Hkeep);
      apply beginClose_held. }
  assert (PaneLifecycleManager.isLocked paneId later = true) as Hlocked
    by (by apply bool_decide_eq_true_2).
  split; [exact Hlocked|]. split; [exact Hlocked|].
  split; [apply Hskip; by right|]. split; [exact Hskip|].
  intros pane option closing. subst closing.
  unfold DmuxApp.closeActionBegins, PaneLifecycleManager.applyOps. simpl.
  split; apply Hskip; right; apply bool_decide_eq_true_2.
  - apply beginClose_mono, beginClose_held.
  - apply beginClose_held.
Qed.

(** A case of C5: the close of pane "%3" begins at time 100; another close
    begins and ends and a sweep runs at time 5000, within the timeout of
    30000; the handler then leaves the two records alone. *)
Lemma onPaneRemoved_fenced_by_close_witness :
  let record3 := {| Types.id := "dmux-3"; Types.slug := "fix-auth"; Types.paneId := "%3";
                    Types.type := Some Types.worktree;
                    Types.worktreePath := Some "/repo/.dmux/worktrees/fix-auth"%string |} in
  let record4 := {| Types.id := "dmux-4"; Types.slug := "docs"; Types.paneId := "%4";
                    Types.type := Some Types.worktree;
                    Types.worktreePath := Some "/repo/.dmux/worktrees/docs"%string |} in
  let st := {| DmuxApp.panes := [record3; record4];
               DmuxApp.stateFile := [record3; record4];
               DmuxApp.stateFileWrites := 0; DmuxApp.devSessionRestarts := 0 |} in
  let ops := [PaneLifecycleManager.BeginClose "%4" "user requested" 200;
              PaneLifecycleManager.CompleteClose "%4";
              PaneLifecycleManager.Sweep 5000] in
  let held := PaneLifecycleManager.beginClose "dmux-3" "user requested" 100 ∅ in
  let later := PaneLifecycleManager.applyOps 30000 ops held in
  PaneLifecycleManager.isClosing "dmux-3" later = true
  /\ PaneLifecycleManager.isLocked "dmux-3" later = true
  /\ DmuxApp.onPaneRemoved false "/repo" (fun ps => ps) later "dmux-3" st = st
  /\ (forall anyLocks anyId,
        PaneLifecycleManager.isClosing anyId anyLocks = true
        \/ PaneLifecycleManager.isLocked anyId anyLocks = true ->
        DmuxApp.onPaneRemoved false "/repo" (fun ps => ps) anyLocks anyId st = st)
  /\ (forall pane option,
        let closing :=
          PaneLifecycleManager.applyOps 30000
            (DmuxApp.closeActionBegins pane option 100) ∅ in
        DmuxApp.onPaneRemoved false "/repo" (fun ps => ps) closing (Types.id pane) st = st
        /\ DmuxApp.onPaneRemoved false "/repo" (fun ps => ps) closing (Types.paneId pane) st = st).
Proof.
  cbv zeta.
  apply (onPaneRemoved_fenced_by_close 30000 false "/repo" (fun ps => ps) ∅
           "dmux-3" "user requested" 100
           [PaneLifecycleManager.BeginClose "%4" "user requested" 200;
            PaneLifecycleManager.CompleteClose "%4";
            PaneLifecycleManager.Sweep 5000]).
  simpl. split; [exact I|]. split; [discriminate|]. split; [|exact I].
  intros lock Hlock. vm_compute in Hlock. injection Hlock as <-. reflexivity.
Defined.

(** Without the lock the handler does act: the record is removed and the
    state file written once. *)
Example onPaneRemoved_unfenced :
  let record3 := {| Types.id := "dmux-3"; Types.slug := "fix-auth"; Types.paneId := "%3";
                    Types.type := Some Types.worktree;
                    Types.worktreePath := Some "/repo/.dmux/worktrees/fix-auth"%string |} in
  let st := {| DmuxApp.panes := [record3]; DmuxApp.stateFile := [record3];
               DmuxApp.stateFileWrites := 0; DmuxApp.devSessionRestarts := 0 |} in
  let released :=
    PaneLifecycleManager.applyOps 30000
      (DmuxApp.closeActionBegins record3 "kill_only" 100
       ++ DmuxApp.closeActionCompletes record3) ∅ in
  DmuxApp.onPaneRemoved false "/repo" (fun ps => ps) released "dmux-3" st
  = {| DmuxApp.panes := []; DmuxApp.stateFile := [];
       DmuxApp.stateFileWrites := 1; DmuxApp.devSessionRestarts := 0 |}.
Proof. vm_compute. reflexivity. Qed.

(** ** The reconciliation pass *)

Section LoadPanesFacts.
Import Types UsePanes.
Variable World : Type.
Variable loadAndProcessPanes :
  bool -> World -> World * option (list DmuxPane * list string * gmap string string).
Variable rebindAndFilterPanes :
  list DmuxPane -> gmap string string -> list string -> bool ->
  list DmuxPane * bool * list DmuxPane.
Variable recreateKilledWorktreePanes :
  list DmuxPane -> list string -> World -> World * option (list DmuxPane).
Variable fetchTmuxPaneIds : World -> World * option (list string * gmap string string).
Variable rebindPaneByTitle : DmuxPane -> gmap string string -> list string -> DmuxPane.
Variable detectAndAddShellPanes :
  list DmuxPane -> list string -> World -> World * option (list DmuxPane * bool).
Variable destroyWelcomePaneIfNeeded : nat -> nat -> World -> World * option unit.
Variable enforcePaneTitles : list DmuxPane -> list string -> World -> World * option unit.
Variable saveUpdatedPaneConfig : list DmuxPane -> World -> World * option unit.
Variable handleLastPaneRemoval : World -> World * option unit.
Variable enforceControlPaneSize : World -> World * option unit.
Variable skipLoading : bool.
Variable controlPaneId : option string.

Abbreviation St := (UsePanes.St World).
Abbreviation M := (UsePanes.M World).

Lemma silent_ret {A} (a : A) : silent World (ret World a).
Proof. intros st. done. Qed.

Lemma silent_call {A} (h : World -> World * option A) : silent World (call World h).
Proof. intros st. unfold call. by destruct (h _). Qed.

Lemma silent_getHook : silent World (getHook World).
Proof. intros st. done. Qed.

Lemma silent_bind {A B} (m : M A) (k : A -> M B) :
  silent World m -> (forall a, silent World (k a)) -> silent World (bind World m k).
Proof.
  intros Hm Hk st. unfold bind. specialize (Hm st).
  destruct (m st) as [st1 [a|]]; simpl in *; [|exact Hm].
  destruct (Hk a st1) as [Ht Hh]. by rewrite Ht, Hh.
Qed.

Lemma silent_rebindStage loaded titleToId allPaneIds isInitialLoad :
  silent World (rebindStage World rebindAndFilterPanes recreateKilledWorktreePanes
            fetchTmuxPaneIds rebindPaneByTitle loaded titleToId allPaneIds isInitialLoad).
Proof.
  unfold rebindStage.
  destruct (rebindAndFilterPanes _ _ _ _) as [[active removed] toRecreate].
  destruct toRecreate; [apply silent_ret|].
  apply silent_bind; [apply silent_call|]. intros final.
  apply silent_bind; [apply silent_call|]. intros [ids t2i]. apply silent_ret.
Qed.

Lemma silent_reconcile loaded titleToId allPaneIds :
  silent World (reconcile World rebindAndFilterPanes recreateKilledWorktreePanes
            fetchTmuxPaneIds rebindPaneByTitle detectAndAddShellPanes
            destroyWelcomePaneIfNeeded enforcePaneTitles loaded titleToId allPaneIds).
Proof.
  unfold reconcile.
  apply silent_bind; [apply silent_getHook|]. intros h.
  apply silent_bind; [apply silent_rebindStage|]. intros [final removed].
  apply silent_bind.
  { destruct (initialLoadComplete h); [apply silent_call | apply silent_ret]. }
  intros [updated added].
  apply silent_bind; [apply silent_getHook|]. intros h'.
  apply silent_bind; [apply silent_call|]. intros _.
  apply silent_bind; [apply silent_call|]. intros _. apply silent_ret.
Qed.

Lemma silent_findingsOfPass :
  silent World (findingsOfPass World loadAndProcessPanes rebindAndFilterPanes
            recreateKilledWorktreePanes fetchTmuxPaneIds rebindPaneByTitle
            detectAndAddShellPanes destroyWelcomePaneIfNeeded enforcePaneTitles).
Proof.
  unfold findingsOfPass.
  apply silent_bind; [apply silent_getHook|]. intros h.
  apply silent_bind; [apply silent_call|]. intros [[loaded ids] t2i].
  apply silent_reconcile.
Qed.

Lemma saves_app t1 t2 : saves (t1 ++ t2) = saves t1 ++ saves t2.
Proof. unfold saves. apply omap_app. Qed.

(** The writes of [persist]: one, of the final panes, exactly when the two
    conditions of the code hold. *)
Lemma persist_saves f (st : St) :
  saves (trace World (fst (persist World saveUpdatedPaneConfig handleLastPaneRemoval
                             enforceControlPaneSize controlPaneId f st)))
  = saves (trace World st)
    ++ (if mustSave (panesRef (hook World st)) f then [finalPanes f] else []).
Proof.
  unfold persist, mustSave, bind, getHook, modifyHook, emit, call, tryCatch, ret.
  simpl.
  destruct (negb (String.eqb (paneIdsKey (panesRef (hook World st)))
                             (paneIdsKey (finalPanes f)))
            || shellPanesAdded f || shellPanesRemoved f); simpl;
    [|by rewrite app_nil_r].
  destruct (idsChanged f || shellPanesAdded f || shellPanesRemoved f); simpl;
    [|by rewrite app_nil_r].
  destruct (saveUpdatedPaneConfig (finalPanes f) (world World st)) as [w [[]|]];
    simpl; [|by rewrite saves_app].
  destruct (shellPanesRemoved f); simpl; [|by rewrite saves_app].
  destruct (Nat.eqb (length (finalPanes f)) 0); simpl.
  - destruct (handleLastPaneRemoval w) as [w' [[]|]]; simpl; by rewrite saves_app.
  - destruct controlPaneId as [[|c rest]|]; simpl; try (by rewrite saves_app).
    destruct (enforceControlPaneSize w) as [w' [[]|]]; simpl;
      rewrite ?saves_app; simpl; by rewrite ?app_nil_r.
Qed.

Abbreviation theLoadPanes :=
  (loadPanes World loadAndProcessPanes rebindAndFilterPanes
     recreateKilledWorktreePanes fetchTmuxPaneIds rebindPaneByTitle
     detectAndAddShellPanes destroyWelcomePaneIfNeeded enforcePaneTitles
     saveUpdatedPaneConfig handleLastPaneRemoval enforceControlPaneSize
     skipLoading controlPaneId).

Abbreviation theIteration :=
  (iteration World loadAndProcessPanes rebindAndFilterPanes
     recreateKilledWorktreePanes fetchTmuxPaneIds rebindPaneByTitle
     detectAndAddShellPanes destroyWelcomePaneIfNeeded enforcePaneTitles
     saveUpdatedPaneConfig handleLastPaneRemoval enforceControlPaneSize
     controlPaneId).

Abbreviation theFindings :=
  (findingsOfPass World loadAndProcessPanes rebindAndFilterPanes
     recreateKilledWorktreePanes fetchTmuxPaneIds rebindPaneByTitle
     detectAndAddShellPanes destroyWelcomePaneIfNeeded enforcePaneTitles).

Abbreviation thePersist :=
  (persist World saveUpdatedPaneConfig handleLastPaneRemoval
     enforceControlPaneSize controlPaneId).

(** A single call, when no other call is under way, is the loop body followed
    by the [catch] and the [finally]; neither of the two writes. *)
Lemma loadPanes_single (st : St) :
  skipLoading = false -> isLoadingPanes (hook World st) = false ->
  saves (trace World (theLoadPanes [] st))
  = saves (trace World (fst (theIteration (started World st)))).
Proof.
  intros -> Hfree. unfold loadPanes. rewrite Hfree.
  cbn [passes]. unfold bind at 1 2. cbn [modifyHook fst]. fold (started World st).
  unfold tryCatch.
  destruct (theIteration (started World st)) as [st1 [[]|]]; reflexivity || (simpl; by rewrite saves_app, app_nil_r).
Qed.

(** The first call only loads. *)
Lemma iteration_initial (st : St) :
  initialLoadComplete (hook World st) = false ->
  trace World (fst (theIteration (started World st))) = trace World st.
Proof.
  intros Hinit. unfold iteration, bind, modifyHook, getHook, call. simpl.
  rewrite Hinit. simpl.
  by destruct (loadAndProcessPanes true (world World st)) as [w [[[loaded ids] t2i]|]].
Qed.

(** A later call is the pass followed by [persist]. *)
Lemma iteration_later (st : St) :
  initialLoadComplete (hook World st) = true ->
  theIteration (started World st) = bind World theFindings thePersist (entering World st).
Proof.
  intros Hinit. unfold iteration, findingsOfPass, entering, started.
  unfold bind at 1 2 3. unfold bind at 3 4 5.
  unfold modifyHook, getHook, call. simpl. rewrite Hinit. simpl.
  by destruct (loadAndProcessPanes false (world World st)) as [w [[[loaded ids] t2i]|]].
Qed.

End LoadPanesFacts.




(** The state that the two calls of the scenario lead to is the one of that
    case. *)
Example loadPanes_two_calls :
  Reconciler.loadPanes []
    (Reconciler.loadPanes []
       {| UsePanes.world :=
            {| Reconciler.stateFile := [];
               Reconciler.livePanes :=
                 [{| Reconciler.pane_id := "%0"; Reconciler.pane_title := "dmux";
                     Reconciler.pane_cwd := None |};
                  {| Reconciler.pane_id := "%5"; Reconciler.pane_title := "zsh";
                     Reconciler.pane_cwd := None |}];
               Reconciler.nextPaneNumber := 6;
               Reconciler.sidebarPaneId := "%0" |};
          UsePanes.hook := Reconciler.freshHook;
          UsePanes.trace := [] |})
  = let adopted := {| Types.id := "dmux-%5"; Types.slug := "zsh"; Types.paneId := "%5";
                      Types.type := Some Types.shell; Types.worktreePath := None |} in
    {| UsePanes.world :=
         {| Reconciler.stateFile := [adopted];
            Reconciler.livePanes :=
              [{| Reconciler.pane_id := "%0"; Reconciler.pane_title := "dmux";
                  Reconciler.pane_cwd := None |};
               {| Reconciler.pane_id := "%5"; Reconciler.pane_title := "zsh";
                  Reconciler.pane_cwd := None |}];
            Reconciler.nextPaneNumber := 6;
            Reconciler.sidebarPaneId := "%0" |};
       UsePanes.hook :=
         {| UsePanes.panes := [adopted]; UsePanes.panesRef := [adopted];
            UsePanes.initialLoadComplete := true; UsePanes.isLoadingPanes := false;
            UsePanes.pendingLoad := false; UsePanes.isLoading := false |};
       UsePanes.trace := [UsePanes.SavedPaneConfig [adopted]] |}.
Proof. vm_compute. reflexivity. Qed.

(** ** Rebinding and recreation *)

Section ReconcilerFacts.
Import Types Reconciler.

Lemma titleMap_fold_Some (panes : list TmuxPane) (m0 : gmap string string) s liveId :
  fold_left (fun m t => <[pane_title t := pane_id t]> m) panes m0 !! s = Some liveId ->
  (exists t, t ∈ panes /\ pane_title t = s /\ pane_id t = liveId)
  \/ m0 !! s = Some liveId.
Proof.
  revert m0. induction panes as [|t panes IH]; intros m0 Hfold; [by right|].
  simpl in Hfold. destruct (IH _ Hfold) as [(t' & Hin & Ht' & Hid) | Hm0].
  - left. exists t'. split; [by right | done].
  - destruct (decide (pane_title t = s)) as [Heq|Hne].
    + left. exists t. rewrite Heq, lookup_insert_eq in Hm0. injection Hm0 as <-.
      split; [by left | done].
    + right. by rewrite lookup_insert_ne in Hm0.
Qed.

Lemma titleMap_fold_keeps (panes : list TmuxPane) (m0 : gmap string string) s :
  is_Some (m0 !! s) ->
  is_Some (fold_left (fun m t => <[pane_title t := pane_id t]> m) panes m0 !! s).
Proof.
  revert m0. induction panes as [|t panes IH]; intros m0 Hm0; [exact Hm0|].
  simpl. apply IH. apply lookup_insert_is_Some.
  destruct (decide (pane_title t = s)); [by left | by right].
Qed.

Lemma titleMap_fold_None (panes : list TmuxPane) (m0 : gmap string string) s :
  fold_left (fun m t => <[pane_title t := pane_id t]> m) panes m0 !! s = None ->
  forall t, t ∈ panes -> pane_title t <> s.
Proof.
  revert m0. induction panes as [|t panes IH]; intros m0 Hfold t' Hin;
    [by apply elem_of_nil in Hin|].
  simpl in Hfold. apply elem_of_cons in Hin as [->|Hin]; [|by eapply IH].
  intros Heq.
  destruct (titleMap_fold_keeps panes (<[pane_title t := pane_id t]> m0) s) as [x Hx].
  - rewrite Heq, lookup_insert_eq. done.
  - congruence.
Qed.

(** The title map sends a title to the id of a live pane that bears it, and
    knows every title that a live pane bears. *)
Lemma titleToIdOf_Some w s liveId :
  titleToIdOf w !! s = Some liveId ->
  exists t, t ∈ livePanes w /\ pane_title t = s /\ pane_id t = liveId.
Proof.
  intros Hfold. destruct (titleMap_fold_Some _ _ _ _ Hfold) as [Hex | Hempty];
    [exact Hex | by rewrite lookup_empty in Hempty].
Qed.

Lemma titleToIdOf_None w s t :
  titleToIdOf w !! s = None -> t ∈ livePanes w -> pane_title t <> s.
Proof. intros Hfold. by apply (titleMap_fold_None _ _ _ Hfold). Qed.

Lemma isLive_true ids p : isLive ids p = true <-> paneId p ∈ ids.
Proof. unfold isLive. apply bool_decide_eq_true. Qed.

Lemma isLive_false ids p : isLive ids p = false <-> paneId p ∉ ids.
Proof. unfold isLive. apply bool_decide_eq_false. Qed.

Lemma allPaneIdsOf_elem w t : t ∈ livePanes w -> pane_id t ∈ allPaneIdsOf w.
Proof. intros Hin. unfold allPaneIdsOf. apply list_elem_of_fmap. eauto. Qed.

(** What the recreation of the panes of [ps] that are not live does. *)
Lemma recreateAll_spec ps ids w w' ps' :
  recreateAll ps ids w = (w', ps') ->
  (exists created,
      livePanes w' = livePanes w ++ created
      /\ Forall (fun t => exists p, p ∈ ps /\ isLive ids p = false
                                    /\ pane_title t = slug p) created)
  /\ nextPaneNumber w <= nextPaneNumber w'
  /\ (forall p, p ∈ ps ->
        (isLive ids p = true -> p ∈ ps')
        /\ (isLive ids p = false ->
            exists n, nextPaneNumber w <= n
              /\ withPaneId p (paneName n) ∈ ps'
              /\ {| pane_id := paneName n; pane_title := slug p;
                    pane_cwd := worktreePath p |} ∈ livePanes w'))
  /\ (forall p', p' ∈ ps' -> paneId p' ∈ ids \/ paneId p' ∈ allPaneIdsOf w').
Proof.
  revert w w' ps'. induction ps as [|p ps IH]; intros w w' ps' Hrun.
  - injection Hrun as <- <-. split; [exists []; by rewrite app_nil_r|].
    split; [lia|]. split; intros x Hx; by apply elem_of_nil in Hx.
  - simpl in Hrun. destruct (isLive ids p) eqn:Hlive.
    + destruct (recreateAll ps ids w) as [w1 rest'] eqn:Hrest.
      injection Hrun as <- <-.
      destruct (IH _ _ _ Hrest) as ((created & Hlive' & Hcreated) & Hnext & Hps & Hids).
      split; [|split; [exact Hnext|split]].
      * exists created. split; [exact Hlive'|].
        eapply Forall_impl; [exact Hcreated|]. intros t (q & Hq & Hql & Hqt).
        exists q. split; [by right | done].
      * intros q Hq. apply elem_of_cons in Hq as [->|Hq].
        -- split; [intros _; by left | congruence].
        -- destruct (Hps q Hq) as [Ha Hb]. split.
           ++ intros Hql. right. by apply Ha.
           ++ intros Hql. destruct (Hb Hql) as (n & Hn & Hin & Hpane).
              exists n. split; [exact Hn|]. split; [by right | exact Hpane].
      * intros q' Hq'. apply elem_of_cons in Hq' as [->|Hq'].
        -- left. by apply isLive_true.
        -- by apply Hids.
    + unfold splitFor in Hrun.
      match type of Hrun with
      | context [recreateAll ps ids ?w1] =>
          destruct (recreateAll ps ids w1) as [w2 rest'] eqn:Hrest
      end.
      injection Hrun as <- <-.
      destruct (IH _ _ _ Hrest) as ((created & Hlive' & Hcreated) & Hnext & Hps & Hids).
      simpl in Hlive', Hnext.
      split; [|split; [lia|split]].
      * exists ({| pane_id := paneName (nextPaneNumber w); pane_title := slug p;
                   pane_cwd := worktreePath p |} :: created).
        split; [by rewrite Hlive', <- app_assoc|].
        apply Forall_cons. split.
        -- exists p. split; [by left | done].
        -- eapply Forall_impl; [exact Hcreated|]. intros t (q & Hq & Hql & Hqt).
           exists q. split; [by right | done].
      * intros q Hq. apply elem_of_cons in Hq as [->|Hq].
        -- split; [congruence|]. intros _. exists (nextPaneNumber w).
           split; [lia|]. split; [by left|].
           rewrite Hlive'. apply elem_of_app. left. apply elem_of_app. right. by left.
        -- destruct (Hps q Hq) as [Ha Hb]. split.
           ++ intros Hql. right. by apply Ha.
           ++ intros Hql. destruct (Hb Hql) as (n & Hn & Hin & Hpane).
              simpl in Hn. exists n. split; [lia|]. split; [by right | exact Hpane].
      * intros q' Hq'. apply elem_of_cons in Hq' as [->|Hq'].
        -- right. simpl. unfold allPaneIdsOf. rewrite Hlive'.
           apply list_elem_of_fmap.
           exists {| pane_id := paneName (nextPaneNumber w); pane_title := slug p;
                     pane_cwd := worktreePath p |}.
           split; [reflexivity|]. apply elem_of_app. left. apply elem_of_app. right. by left.
        -- by apply Hids.
Qed.

Lemma str_inj a b : JS.str a = JS.str b -> a = b.
Proof.
  unfold JS.str. intros Heq.
  assert (forall z, DecimalString.NilZero.int_of_string
                      (DecimalString.NilZero.string_of_int (Z.to_int z))
                    = Some (Z.to_int z)) as Hparse.
  { intros z. apply DecimalString.NilZero.isi; destruct z; simpl; try discriminate;
      intros [= H]; by apply DecimalPos.Unsigned.to_uint_nonnil in H. }
  apply (f_equal DecimalString.NilZero.int_of_string) in Heq.
  rewrite !Hparse in Heq. injection Heq as Heq. by apply DecimalZ.to_int_inj.
Qed.

Lemma paneName_inj a b : paneName a = paneName b -> a = b.
Proof. unfold paneName. intros [= Heq]. by apply str_inj. Qed.

Lemma map_fixed {A} (f : A -> A) (l : list A) :
  (forall x, x ∈ l -> f x = x) -> map f l = l.
Proof.
  induction l as [|a l IH]; intros Hfix; [reflexivity|].
  simpl. rewrite Hfix by (by left). rewrite IH; [reflexivity|].
  intros x Hx. apply Hfix. by right.
Qed.

End ReconcilerFacts.

Section RebindStageFacts.
Import Types Reconciler.

Lemma rebindPaneByTitle_cases w p :
  let p' := rebindPaneByTitle p (titleToIdOf w) (allPaneIdsOf w) in
  slug p' = slug p /\ isShell p' = isShell p
  /\ (isLive (allPaneIdsOf w) p = true -> p' = p)
  /\ (isLive (allPaneIdsOf w) p = false ->
      match titleToIdOf w !! slug p with
      | Some liveId => p' = withPaneId p liveId /\ isLive (allPaneIdsOf w) p' = true
      | None => p' = p
      end).
Proof.
  unfold rebindPaneByTitle. cbv zeta.
  destruct (isLive (allPaneIdsOf w) p) eqn:Hlive; [done|].
  destruct (titleToIdOf w !! slug p) as [liveId|] eqn:Htitle; [|done].
  split; [reflexivity|]. split; [reflexivity|]. split; [discriminate|].
  intros _. split; [reflexivity|].
  apply titleToIdOf_Some in Htitle as (t & Hin & _ & <-).
  apply isLive_true. simpl. by apply allPaneIdsOf_elem.
Qed.

(** The stage, spelled out over the helpers of the reconciler. *)
Lemma rebindStage_unfold loaded w :
  rebindStage loaded w
  = let '(active, removed, toRecreate) :=
      rebindAndFilterPanes loaded (titleToIdOf w) (allPaneIdsOf w) false in
    match toRecreate with
    | [] => (w, Some (active, removed))
    | _ =>
        let (w', ps') := recreateAll active (allPaneIdsOf w) w in
        (w', Some (map (fun p => rebindPaneByTitle p (titleToIdOf w') (allPaneIdsOf w')) ps',
                   removed))
    end.
Proof.
  unfold rebindStage, UsePanes.rebindStage.
  destruct (rebindAndFilterPanes _ _ _ _) as [[active removed] toRecreate].
  destruct toRecreate as [|q qs]; [reflexivity|].
  unfold UsePanes.bind, UsePanes.call, recreateKilledWorktreePanes. simpl.
  by destruct (recreateAll active (allPaneIdsOf w) w) as [w' ps'].
Qed.

End RebindStageFacts.

(** C4. For every tracked worktree-kind record whose recorded pane id is not
    in the live pane list, the rebinding stage of the pass returns normally
    and: if some live pane is titled with the record's slug, the record comes
    out bound to such a pane (same logical id, slug and worktree path, new
    pane id) and no pane created by the pass bears that title, so nothing was
    recreated for it; otherwise a fresh pane, whose id was not live before, is
    created with the record's worktreePath as its directory, and the record
    comes out with the same logical id and that pane's id. *)
Theorem rebindStage_rebinds_or_recreates
    (w : Reconciler.World) (loaded : list Types.DmuxPane) (r : Types.DmuxPane) :
  Reconciler.numbersFresh w ->
  r ∈ loaded ->
  Reconciler.isShell r = false ->
  Types.paneId r ∉ Reconciler.allPaneIdsOf w ->
  exists w' final removed,
    Reconciler.rebindStage loaded w = (w', Some (final, removed))
    /\ ((exists t, t ∈ Reconciler.livePanes w /\ Reconciler.pane_title t = Types.slug r) ->
        exists t, t ∈ Reconciler.livePanes w
          /\ Reconciler.pane_title t = Types.slug r
          /\ Types.withPaneId r (Reconciler.pane_id t) ∈ final
          /\ (forall t', t' ∈ Reconciler.livePanes w' ->
                t' ∈ Reconciler.livePanes w \/ Reconciler.pane_title t' <> Types.slug r))
    /\ ((forall t, t ∈ Reconciler.livePanes w -> Reconciler.pane_title t <> Types.slug r) ->
        exists newId,
          (newId ∉ Reconciler.allPaneIdsOf w)
          /\ ({| Reconciler.pane_id := newId; Reconciler.pane_title := Types.slug r;
                 Reconciler.pane_cwd := Types.worktreePath r |}
              ∈ Reconciler.livePanes w')
          /\ Types.withPaneId r newId ∈ final
          /\ Types.id (Types.withPaneId r newId) = Types.id r).
Proof.
  intros Hfresh Hr Hkind Hdead.
  apply isLive_false in Hdead.
  rewrite rebindStage_unfold. unfold Reconciler.rebindAndFilterPanes.
  set (ids := Reconciler.allPaneIdsOf w) in *.
  set (t2i := Reconciler.titleToIdOf w) in *.
  set (rebind := fun p => Reconciler.rebindPaneByTitle p t2i ids).
  fold rebind.
  set (active := List.filter (fun p => Reconciler.isLive ids p
                                       || negb (Reconciler.isShell p))
                             (map rebind loaded)).
  set (toRecreate := List.filter (fun p => negb (Reconciler.isLive ids p)
                                           && negb (Reconciler.isShell p))
                                 (map rebind loaded)).
  assert (forall q, q ∈ loaded -> Reconciler.isShell q = false -> rebind q ∈ active) as Hactive.
  { intros q Hq Hqkind. subst active. apply list_elem_of_In, filter_In. split.
    - apply list_elem_of_In, list_elem_of_fmap. eauto.
    - destruct (rebindPaneByTitle_cases w q) as (_ & Hshell & _).
      fold ids t2i in Hshell. change (Reconciler.rebindPaneByTitle q t2i ids) with (rebind q) in Hshell.
      rewrite Hshell, Hqkind. apply orb_true_r. }
  assert (forall p, p ∈ active -> Reconciler.isLive ids p = false ->
            t2i !! Types.slug p = None) as Hunbound.
  { intros p Hp Hplive. subst active.
    apply list_elem_of_In, filter_In in Hp as [Hp _].
    apply list_elem_of_In, list_elem_of_fmap in Hp as (q & -> & Hq).
    destruct (rebindPaneByTitle_cases w q) as (Hslug & _ & Hl & Hd).
    fold ids t2i in Hslug, Hl, Hd.
    change (Reconciler.rebindPaneByTitle q t2i ids) with (rebind q) in *.
    rewrite Hslug.
    destruct (Reconciler.isLive ids q) eqn:Hqlive.
    - rewrite (Hl eq_refl) in Hplive. congruence.
    - specialize (Hd eq_refl). destruct (t2i !! Types.slug q); [|reflexivity].
      destruct Hd as [_ Hd]. congruence. }
  destruct (rebindPaneByTitle_cases w r) as (_ & _ & _ & Hcase).
  fold ids t2i in Hcase.
  change (Reconciler.rebindPaneByTitle r t2i ids) with (rebind r) in Hcase.
  specialize (Hcase Hdead).
  pose proof (Hactive r Hr Hkind) as Hr_active.
  destruct toRecreate as [|q0 qs] eqn:HtoRecreate.
  - (* nothing to recreate: the record was rebound *)
    exists w, active, (existsb (fun p => negb (Reconciler.isLive ids p) && Reconciler.isShell p)
                         (map rebind loaded)).
    split; [reflexivity|].
    destruct (t2i !! Types.slug r) as [liveId|] eqn:Htitle.
    + destruct Hcase as [Hrebound _]. split.
      * intros _. apply titleToIdOf_Some in Htitle as (t & Hin & Ht & <-).
        exists t. split; [exact Hin|]. split; [exact Ht|].
        split; [by rewrite <- Hrebound | auto].
      * intros Hnone. apply titleToIdOf_Some in Htitle as (t & Hin & Ht & _).
        by destruct (Hnone t Hin).
    + exfalso.
      assert (rebind r ∈ toRecreate) as Hin.
      { subst toRecreate. apply list_elem_of_In, filter_In. split.
        - apply list_elem_of_In, list_elem_of_fmap. eauto.
        - rewrite Hcase, Hdead, Hkind. reflexivity. }
      rewrite HtoRecreate in Hin. by apply elem_of_nil in Hin.
  - destruct (Reconciler.recreateAll active ids w) as [w' ps'] eqn:Hrun.
    destruct (recreateAll_spec _ _ _ _ _ Hrun)
      as ((created & Hlive' & Hcreated) & Hnext & Hps & Hids).
    assert (map (fun p => Reconciler.rebindPaneByTitle p (Reconciler.titleToIdOf w')
                            (Reconciler.allPaneIdsOf w')) ps' = ps') as Hfinal.
    { apply map_fixed. intros p' Hp'.
      destruct (rebindPaneByTitle_cases w' p') as (_ & _ & Hl & _). apply Hl.
      apply isLive_true. destruct (Hids p' Hp') as [Hold|Hnew]; [|exact Hnew].
      subst ids. unfold Reconciler.allPaneIdsOf in *. rewrite Hlive', map_app.
      apply elem_of_app. by left. }
    rewrite Hfinal.
    exists w', ps', (existsb (fun p => negb (Reconciler.isLive ids p) && Reconciler.isShell p)
                       (map rebind loaded)).
    split; [reflexivity|].
    destruct (t2i !! Types.slug r) as [liveId|] eqn:Htitle.
    + destruct Hcase as [Hrebound Hnowlive]. split.
      * intros _. pose proof Htitle as Htitle'.
        apply titleToIdOf_Some in Htitle as (t & Hin & Ht & <-).
        exists t. split; [exact Hin|]. split; [exact Ht|]. split.
        -- rewrite <- Hrebound. by apply (Hps (rebind r) Hr_active).
        -- intros t' Ht'. rewrite Hlive' in Ht'. apply elem_of_app in Ht' as [Hold|Hnew];
             [by left | right].
           rewrite Forall_forall in Hcreated.
           destruct (Hcreated t' Hnew) as (p & Hp & Hplive & Hpt).
           rewrite Hpt. intros Heq. pose proof (Hunbound p Hp Hplive) as Hnone.
           rewrite Heq in Hnone. congruence.
      * intros Hnone. apply titleToIdOf_Some in Htitle as (t & Hin & Ht & _).
        by destruct (Hnone t Hin).
    + split.
      * intros (t & Hin & Ht).
        by destruct (titleToIdOf_None w (Types.slug r) t Htitle Hin).
      * intros _. rewrite Hcase in Hr_active.
        destruct (Hps r Hr_active) as [_ Hnew].
        destruct (Hnew Hdead) as (n & Hn & Hin & Hpane).
        exists (Reconciler.paneName n). split; [by apply Hfresh|]. done.
Qed.

(** A case of C4: two worktree records whose panes %3 and %4 are gone; a live
    pane is titled "docs", none is titled "fix-auth". *)
Lemma rebindStage_rebinds_or_recreates_witness :
  let fixAuth := {| Types.id := "dmux-1"; Types.slug := "fix-auth"; Types.paneId := "%3";
                    Types.type := Some Types.worktree;
                    Types.worktreePath := Some "/repo/.dmux/worktrees/fix-auth"%string |} in
  let docs := {| Types.id := "dmux-2"; Types.slug := "docs"; Types.paneId := "%4";
                 Types.type := None;
                 Types.worktreePath := Some "/repo/.dmux/worktrees/docs"%string |} in
  let w := {| Reconciler.stateFile := [fixAuth; docs];
              Reconciler.livePanes :=
                [{| Reconciler.pane_id := "%0"; Reconciler.pane_title := "dmux";
                    Reconciler.pane_cwd := None |};
                 {| Reconciler.pane_id := "%5"; Reconciler.pane_title := "docs";
                    Reconciler.pane_cwd := None |}];
              Reconciler.nextPaneNumber := 6;
              Reconciler.sidebarPaneId := "%0" |} in
  exists w' final removed,
    Reconciler.rebindStage [fixAuth; docs] w = (w', Some (final, removed))
    /\ ((exists t, t ∈ Reconciler.livePanes w
                   /\ Reconciler.pane_title t = Types.slug fixAuth) ->
        exists t, t ∈ Reconciler.livePanes w
          /\ Reconciler.pane_title t = Types.slug fixAuth
          /\ Types.withPaneId fixAuth (Reconciler.pane_id t) ∈ final
          /\ (forall t', t' ∈ Reconciler.livePanes w' ->
                t' ∈ Reconciler.livePanes w
                \/ Reconciler.pane_title t' <> Types.slug fixAuth))
    /\ ((forall t, t ∈ Reconciler.livePanes w ->
           Reconciler.pane_title t <> Types.slug fixAuth) ->
        exists newId,
          (newId ∉ Reconciler.allPaneIdsOf w)
          /\ ({| Reconciler.pane_id := newId;
                 Reconciler.pane_title := Types.slug fixAuth;
                 Reconciler.pane_cwd := Types.worktreePath fixAuth |}
              ∈ Reconciler.livePanes w')
          /\ Types.withPaneId fixAuth newId ∈ final
          /\ Types.id (Types.withPaneId fixAuth newId) = Types.id fixAuth).
Proof.
  cbv zeta. apply rebindStage_rebinds_or_recreates.
  - intros n Hn. unfold Reconciler.allPaneIdsOf. simpl in *.
    change "%0"%string with (Reconciler.paneName 0).
    change "%5"%string with (Reconciler.paneName 5).
    rewrite !elem_of_cons, elem_of_nil.
    intros [Heq | [Heq | []]]; apply paneName_inj in Heq; lia.
  - by left.
  - reflexivity.
  - unfold Reconciler.allPaneIdsOf. simpl. rewrite !elem_of_cons, elem_of_nil.
    intros [Heq | [Heq | []]]; discriminate Heq.
Defined.

(** What the stage returns in that case: "docs" is rebound to the live pane
    %5, and a pane %6 is created in the worktree of "fix-auth". *)
Example rebindStage_two_records :
  let fixAuth := {| Types.id := "dmux-1"; Types.slug := "fix-auth"; Types.paneId := "%3";
                    Types.type := Some Types.worktree;
                    Types.worktreePath := Some "/repo/.dmux/worktrees/fix-auth"%string |} in
  let docs := {| Types.id := "dmux-2"; Types.slug := "docs"; Types.paneId := "%4";
                 Types.type := None;
                 Types.worktreePath := Some "/repo/.dmux/worktrees/docs"%string |} in
  let live := [{| Reconciler.pane_id := "%0"; Reconciler.pane_title := "dmux";
                  Reconciler.pane_cwd := None |};
               {| Reconciler.pane_id := "%5"; Reconciler.pane_title := "docs";
                  Reconciler.pane_cwd := None |}] in
  Reconciler.rebindStage [fixAuth; docs]
    {| Reconciler.stateFile := [fixAuth; docs]; Reconciler.livePanes := live;
       Reconciler.nextPaneNumber := 6; Reconciler.sidebarPaneId := "%0" |}
  = ({| Reconciler.stateFile := [fixAuth; docs];
        Reconciler.livePanes :=
          live ++ [{| Reconciler.pane_id := "%6"; Reconciler.pane_title := "fix-auth";
                      Reconciler.pane_cwd :=
                        Some "/repo/.dmux/worktrees/fix-auth"%string |}];
        Reconciler.nextPaneNumber := 7;
        Reconciler.sidebarPaneId := "%0" |},
     Some ([Types.withPaneId fixAuth "%6"; Types.withPaneId docs "%5"], false)).
Proof. vm_compute. reflexivity. Qed.

(** * Further properties of the embedded code *)

(** ** The layout calculator: what every returned layout satisfies *)

Section ChosenLayoutFacts.
Import LayoutCalculator.
Variable config : LayoutConfig.
Variables numContentPanes terminalWidth terminalHeight : Z.

Lemma step_chosenBest st c :
  1 <= c <= numContentPanes ->
  chosenBest config numContentPanes terminalWidth terminalHeight (fst st) ->
  chosenBest config numContentPanes terminalWidth terminalHeight
    (fst (step config numContentPanes terminalWidth terminalHeight st c)).
Proof.
  intros Hc Hst. destruct st as [best score]. unfold step.
  destruct (fits config numContentPanes terminalWidth terminalHeight c) eqn:Hfit;
    [|exact Hst].
  destruct (candidate config numContentPanes terminalWidth terminalHeight c)
    as [layout sc] eqn:Hcand.
  match goal with |- context [if ?b then _ else _] => destruct b end;
    [|exact Hst].
  assert (Hcols : cols layout = c).
  { unfold candidate in Hcand. injection Hcand as <- _. reflexivity. }
  unfold chosenBest. cbn [fst]. rewrite Hcols, Hcand. cbn [fst]. auto.
Qed.

Lemma loop_chosenBest (cs : list Z) st :
  (forall c, c ∈ cs -> 1 <= c <= numContentPanes) ->
  chosenBest config numContentPanes terminalWidth terminalHeight (fst st) ->
  chosenBest config numContentPanes terminalWidth terminalHeight
    (fst (fold_left (step config numContentPanes terminalWidth terminalHeight) cs st)).
Proof.
  revert st. induction cs as [|c cs IH]; intros st Hcs Hst; [exact Hst|].
  simpl. apply IH.
  - intros c' Hc'. apply Hcs. by right.
  - apply step_chosenBest; [apply Hcs; by left | exact Hst].
Qed.

(** The result is the fallback, the empty layout, or the layout computed for
    a column count that passed the feasibility test. *)
Lemma calculateOptimalLayout_cases :
  let layout :=
    calculateOptimalLayout config numContentPanes terminalWidth terminalHeight in
  (numContentPanes = 0
   /\ layout = {| cols := 0; rows := 0; windowWidth := terminalWidth;
                  paneDistribution := []; actualPaneWidth := 0%float |})
  \/ (numContentPanes <> 0 /\ layout = fallback config numContentPanes terminalWidth)
  \/ (exists c, 1 <= c <= numContentPanes
        /\ fits config numContentPanes terminalWidth terminalHeight c = true
        /\ layout = fst (candidate config numContentPanes terminalWidth terminalHeight c)).
Proof.
  intros layout. subst layout. unfold calculateOptimalLayout.
  destruct (Z.eqb_spec numContentPanes 0) as [Hz|Hnz]; [left; auto|].
  right.
  pose proof (loop_chosenBest (downfrom numContentPanes) (None, (-1)%float)
                (fun c Hc => proj1 (elem_of_downfrom c _) Hc) I) as Hgood.
  destruct (fold_left _ _ _) as [[b|] score]; simpl in *.
  - right. exists (cols b). tauto.
  - left. auto.
Qed.

End ChosenLayoutFacts.

Lemma ceil_div_bounds n c :
  1 <= c -> c * (JS.ceil_div n c - 1) < n <= c * JS.ceil_div n c.
Proof.
  intros Hc. unfold JS.ceil_div.
  pose proof (Z.div_mod (- n) c ltac:(lia)) as Hdm.
  pose proof (Z.mod_pos_bound (- n) c ltac:(lia)) as Hb.
  nia.
Qed.

(** X1. For at least one pane, calculateOptimalLayout returns either the
    single-column fallback or a layout that passes the feasibility test it
    was selected by: its column count is between 1 and the pane count, its
    row count is ceil(panes / cols), the sidebar, the columns at the
    feasibility width and the column borders fit in the terminal width, and
    the rows at the minimum height and the row borders fit in the terminal
    height. *)
Theorem calculateOptimalLayout_feasible_or_fallback
    (config : LayoutCalculator.LayoutConfig)
    (numContentPanes terminalWidth terminalHeight : Z) :
  1 <= numContentPanes ->
  let layout :=
    LayoutCalculator.calculateOptimalLayout config numContentPanes
      terminalWidth terminalHeight in
  layout = LayoutCalculator.fallback config numContentPanes terminalWidth
  \/ (1 <= LayoutCalculator.cols layout <= numContentPanes
      /\ LayoutCalculator.rows layout
         = JS.ceil_div numContentPanes (LayoutCalculator.cols layout)
      /\ LayoutCalculator.SIDEBAR_WIDTH config
         + LayoutCalculator.cols layout * LayoutCalculator.minFeasiblePaneWidth config
         + (LayoutCalculator.cols layout - 1) <= terminalWidth
      /\ LayoutCalculator.rows layout * LayoutCalculator.MIN_COMFORTABLE_HEIGHT config
         + (LayoutCalculator.rows layout - 1) <= terminalHeight).
Proof.
  intros Hn layout.
  destruct (calculateOptimalLayout_cases config numContentPanes terminalWidth
              terminalHeight) as [[Hz _] | [[_ Hfb] | (c & Hc & Hfit & Hl)]];
    [lia | left; exact Hfb |].
  right. subst layout. rewrite Hl. unfold LayoutCalculator.candidate. simpl.
  unfold LayoutCalculator.fits in Hfit.
  apply andb_true_iff in Hfit as [Hw Hh].
  apply Z.leb_le in Hw, Hh. auto.
Qed.

(** A case of X1: five panes in a 300 x 50 terminal with the 60/100 bounds. *)
Lemma calculateOptimalLayout_feasible_or_fallback_witness :
  let config := LayoutCalculator.config_60_100 in
  let layout := LayoutCalculator.calculateOptimalLayout config 5 300 50 in
  layout = LayoutCalculator.fallback config 5 300
  \/ (1 <= LayoutCalculator.cols layout <= 5
      /\ LayoutCalculator.rows layout = JS.ceil_div 5 (LayoutCalculator.cols layout)
      /\ LayoutCalculator.SIDEBAR_WIDTH config
         + LayoutCalculator.cols layout * LayoutCalculator.minFeasiblePaneWidth config
         + (LayoutCalculator.cols layout - 1) <= 300
      /\ LayoutCalculator.rows layout * LayoutCalculator.MIN_COMFORTABLE_HEIGHT config
         + (LayoutCalculator.rows layout - 1) <= 50).
Proof.
  apply (calculateOptimalLayout_feasible_or_fallback
           LayoutCalculator.config_60_100 5 300 50); lia.
Defined.

(** X2. For any pane count n >= 0, the layout that calculateOptimalLayout
    returns is a consistent grid: paneDistribution has one entry per column,
    its entries add up to n, no entry exceeds the row count, the grid has
    room for every pane (n <= cols * rows), and for n >= 1 no row and no
    column is empty (cols * (rows - 1) < n, every entry is at least 1). *)
Theorem calculateOptimalLayout_grid
    (config : LayoutCalculator.LayoutConfig)
    (numContentPanes terminalWidth terminalHeight : Z) :
  0 <= numContentPanes ->
  let layout :=
    LayoutCalculator.calculateOptimalLayout config numContentPanes
      terminalWidth terminalHeight in
  length (LayoutCalculator.paneDistribution layout)
  = Z.to_nat (LayoutCalculator.cols layout)
  /\ sumZ (LayoutCalculator.paneDistribution layout) = numContentPanes
  /\ Forall (fun k => k <= LayoutCalculator.rows layout)
       (LayoutCalculator.paneDistribution layout)
  /\ numContentPanes <= LayoutCalculator.cols layout * LayoutCalculator.rows layout
  /\ (1 <= numContentPanes ->
      LayoutCalculator.cols layout * (LayoutCalculator.rows layout - 1) < numContentPanes
      /\ Forall (fun k => 1 <= k) (LayoutCalculator.paneDistribution layout)).
Proof.
  intros Hn layout.
  destruct (calculateOptimalLayout_cases config numContentPanes terminalWidth
              terminalHeight) as [[Hz Hl] | [[Hnz Hl] | (c & Hc & _ & Hl)]];
    subst layout; rewrite Hl.
  - simpl. repeat split; try lia; constructor.
  - simpl. repeat split; try lia; repeat constructor; lia.
  - unfold LayoutCalculator.candidate. simpl.
    unfold LayoutCalculator.distributePanes.
    assert (Hrem : Z.rem numContentPanes c = numContentPanes mod c)
      by (apply Z.rem_mod_nonneg; lia).
    pose proof (Z.mod_pos_bound numContentPanes c ltac:(lia)) as Hb.
    pose proof (Z.div_mod numContentPanes c ltac:(lia)) as Hdm.
    pose proof (ceil_div_bounds numContentPanes c ltac:(lia)) as Hceil.
    rewrite Hrem.
    assert (Hq : 1 <= numContentPanes / c)
      by (apply Z.div_le_lower_bound; lia).
    unfold JS.ceil_div in *.
    set (q := numContentPanes / c) in *. set (r := numContentPanes mod c) in *.
    set (up := (- numContentPanes) / c) in *.
    split; [by rewrite length_map, upto_length|].
    split.
    { pose proof (sum_shares q r (Z.to_nat c) ltac:(lia)) as Hs.
      rewrite Z2Nat.id in Hs by lia. rewrite Hs, Z.min_r by lia. lia. }
    split.
    { apply Forall_forall. intros k Hk.
      apply list_elem_of_fmap in Hk as (i & -> & Hi).
      apply elem_of_upto in Hi.
      destruct (Z.ltb_spec i r); nia. }
    split; [lia|].
    intros _. split; [lia|].
    apply Forall_forall. intros k Hk.
    apply list_elem_of_fmap in Hk as (i & -> & _).
    destruct (i <? r); lia.
Qed.

(** A case of X2: seven panes in a 400 x 60 terminal with the 60/100
    bounds. *)
Lemma calculateOptimalLayout_grid_witness :
  let layout :=
    LayoutCalculator.calculateOptimalLayout LayoutCalculator.config_60_100 7 400 60 in
  length (LayoutCalculator.paneDistribution layout)
  = Z.to_nat (LayoutCalculator.cols layout)
  /\ sumZ (LayoutCalculator.paneDistribution layout) = 7
  /\ Forall (fun k => k <= LayoutCalculator.rows layout)
       (LayoutCalculator.paneDistribution layout)
  /\ 7 <= LayoutCalculator.cols layout * LayoutCalculator.rows layout
  /\ (1 <= 7 ->
      LayoutCalculator.cols layout * (LayoutCalculator.rows layout - 1) < 7
      /\ Forall (fun k => 1 <= k) (LayoutCalculator.paneDistribution layout)).
Proof.
  apply (calculateOptimalLayout_grid LayoutCalculator.config_60_100 7 400 60); lia.
Defined.

(** X3. Whatever the arguments, the window width that calculateOptimalLayout
    asks for never exceeds the terminal width: it is the terminal width
    itself for zero panes and in the fallback, and otherwise the smaller of
    the terminal width and sidebar + cols * MAX_COMFORTABLE_WIDTH + column
    borders, so that the panes are capped at the maximum comfortable
    width. *)
Theorem calculateOptimalLayout_window_within_terminal
    (config : LayoutCalculator.LayoutConfig)
    (numContentPanes terminalWidth terminalHeight : Z) :
  let layout :=
    LayoutCalculator.calculateOptimalLayout config numContentPanes
      terminalWidth terminalHeight in
  LayoutCalculator.windowWidth layout <= terminalWidth
  /\ (LayoutCalculator.windowWidth layout = terminalWidth
      \/ (1 <= LayoutCalculator.cols layout
          /\ LayoutCalculator.windowWidth layout
             = LayoutCalculator.SIDEBAR_WIDTH config
               + LayoutCalculator.cols layout * LayoutCalculator.MAX_COMFORTABLE_WIDTH config
               + (LayoutCalculator.cols layout - 1)
          /\ LayoutCalculator.windowWidth layout
             - LayoutCalculator.SIDEBAR_WIDTH config - (LayoutCalculator.cols layout - 1)
             <= LayoutCalculator.cols layout * LayoutCalculator.MAX_COMFORTABLE_WIDTH config)).
Proof.
  intros layout.
  destruct (calculateOptimalLayout_cases config numContentPanes terminalWidth
              terminalHeight) as [[Hz Hl] | [[Hnz Hl] | (c & Hc & _ & Hl)]];
    subst layout; rewrite Hl.
  - simpl. split; [lia | left; reflexivity].
  - simpl. split; [lia | left; reflexivity].
  - unfold LayoutCalculator.candidate. simpl. split; [lia|].
    destruct (Z.min_spec
                (LayoutCalculator.SIDEBAR_WIDTH config
                 + c * LayoutCalculator.MAX_COMFORTABLE_WIDTH config + (c - 1))
                terminalWidth) as [[Hlt ->] | [Hge ->]].
    + right. lia.
    + left. reflexivity.
Qed.

(** ** utils/tmux.ts: the column count, the empty grid, the content panes *)

Section CalculateOptimalColumnsFacts.
Import Tmux.
Variables numPanes contentWidth contentHeight : Z.

Lemma columnsScore_beats_none s :
  isColumnsScore s -> PrimFloat.ltb (-1)%float s = true /\ PrimFloat.eqb s (-1)%float = false.
Proof. intros ([|] & [|] & ->); split; reflexivity. Qed.

Lemma columnsStep_cases st c :
  (~ comfortable numPanes contentWidth contentHeight c
   /\ columnsStep numPanes contentWidth contentHeight st c = st)
  \/ (comfortable numPanes contentWidth contentHeight c
      /\ exists s, isColumnsScore s
         /\ columnsStep numPanes contentWidth contentHeight st c
            = if PrimFloat.ltb (snd st) s then (c, s) else st).
Proof.
  destruct st as [bestCols bestScore]. unfold columnsStep, comfortable.
  fold (paneWidthFor contentWidth c). fold (paneHeightFor numPanes contentHeight c).
  destruct (Z.ltb_spec (paneWidthFor contentWidth c) MIN_COMFORTABLE_WIDTH) as [Hw|Hw].
  { left. split; [lia | reflexivity]. }
  destruct (Z.ltb_spec (paneHeightFor numPanes contentHeight c) MIN_COMFORTABLE_HEIGHT)
    as [Hh|Hh].
  { left. split; [lia | reflexivity]. }
  right. split; [split; assumption|]. cbn [orb snd].
  eexists. split; [|reflexivity].
  exists (paneWidthFor contentWidth c <=? MAX_COMFORTABLE_WIDTH),
         (PrimFloat.leb (PrimFloat.mul (JS.float_of_Z MIN_COMFORTABLE_HEIGHT) 1.5%float)
            (JS.float_of_Z (paneHeightFor numPanes contentHeight c))).
  reflexivity.
Qed.

Lemma columnsStep_inv seen st c :
  columnsInv numPanes contentWidth contentHeight seen st ->
  columnsInv numPanes contentWidth contentHeight (seen ++ [c])
    (columnsStep numPanes contentWidth contentHeight st c).
Proof.
  intros Hinv.
  destruct (columnsStep_cases st c) as [[Hno ->] | [Hyes (s & Hs & ->)]].
  - destruct Hinv as [[-> Hnone] | (Hin & Hc & Hsc)].
    + left. split; [reflexivity|]. intros c' Hc'.
      apply elem_of_app in Hc' as [Hc'|Hc']; [by apply Hnone|].
      apply list_elem_of_singleton in Hc' as ->. exact Hno.
    + right. split; [apply elem_of_app; by left | by split].
  - destruct Hinv as [[-> Hnone] | (Hin & Hc & Hsc)].
    + cbn [snd]. rewrite (proj1 (columnsScore_beats_none s Hs)).
      right. cbn [fst snd]. split; [apply elem_of_app; right; by left | by split].
    + destruct (PrimFloat.ltb (snd st) s).
      * right. cbn [fst snd]. split; [apply elem_of_app; right; by left | by split].
      * right. split; [apply elem_of_app; by left | by split].
Qed.

Lemma columnsLoop_inv cs seen st :
  columnsInv numPanes contentWidth contentHeight seen st ->
  columnsInv numPanes contentWidth contentHeight (seen ++ cs)
    (fold_left (columnsStep numPanes contentWidth contentHeight) cs st).
Proof.
  revert seen st. induction cs as [|c cs IH]; intros seen st Hinv.
  - by rewrite app_nil_r.
  - simpl. replace (seen ++ c :: cs) with ((seen ++ [c]) ++ cs)
      by (by rewrite <- app_assoc).
    apply IH, columnsStep_inv, Hinv.
Qed.

Lemma elem_of_columns c : c ∈ map Z.of_nat (seq 1 (Z.to_nat numPanes)) <-> 1 <= c <= numPanes.
Proof.
  rewrite list_elem_of_fmap. split.
  - intros (k & -> & Hk). apply list_elem_of_In, in_seq in Hk. lia.
  - intros Hc. exists (Z.to_nat c). split; [lia|].
    apply list_elem_of_In, in_seq. lia.
Qed.

Lemma columnsFallback_range cs best :
  columnsFallback contentWidth cs best = best
  \/ columnsFallback contentWidth cs best ∈ cs.
Proof.
  induction cs as [|c cs IH]; [by left|].
  simpl. destruct (PrimFloat.leb _ _).
  - right. by left.
  - destruct IH as [->|Hin]; [by left | right; by right].
Qed.

End CalculateOptimalColumnsFacts.

(** X4. calculateOptimalColumns always answers with a usable column count:
    at least 1 and, when there is a pane at all, at most the number of
    panes; with no pane the answer is 1. *)
Theorem calculateOptimalColumns_range (numPanes contentWidth contentHeight : Z) :
  1 <= Tmux.calculateOptimalColumns numPanes contentWidth contentHeight <= Z.max 1 numPanes
  /\ (numPanes <= 0 ->
      Tmux.calculateOptimalColumns numPanes contentWidth contentHeight = 1).
Proof.
  unfold Tmux.calculateOptimalColumns.
  pose proof (columnsLoop_inv numPanes contentWidth contentHeight
                (map Z.of_nat (seq 1 (Z.to_nat numPanes))) [] (1, (-1)%float)) as Hinv.
  simpl in Hinv.
  destruct (fold_left _ _ _) as [bestCols bestScore].
  assert (Hbest : 1 <= bestCols <= Z.max 1 numPanes
                  /\ (numPanes <= 0 -> bestCols = 1
                      /\ PrimFloat.eqb bestScore (-1)%float = true)).
  { destruct Hinv as [[Heq _] | (Hin & _ & _)].
    - left. split; [reflexivity|]. intros c Hc. by apply not_elem_of_nil in Hc.
    - injection Heq as -> ->. split; [lia|]. intros _. split; reflexivity.
    - cbn [fst] in Hin. apply elem_of_columns in Hin. split; [lia|lia]. }
  destruct Hbest as [Hrange Hnone].
  split.
  - destruct (PrimFloat.eqb bestScore (-1)%float); [|exact Hrange].
    destruct (columnsFallback_range contentWidth
                (LayoutCalculator.downfrom numPanes) bestCols) as [-> | Hin];
      [exact Hrange|].
    apply elem_of_downfrom in Hin. lia.
  - intros Hn. destruct (Hnone Hn) as [-> ->].
    replace (LayoutCalculator.downfrom numPanes) with (@nil Z); [reflexivity|].
    unfold LayoutCalculator.downfrom.
    replace (Z.to_nat numPanes) with 0%nat by lia. reflexivity.
Qed.

(** X5. If some column count between 1 and the number of panes gives panes
    at least MIN_COMFORTABLE_WIDTH wide and MIN_COMFORTABLE_HEIGHT high, the
    column count that calculateOptimalColumns returns is such a count: the
    narrower fallback is used only when no count is comfortable. *)
Theorem calculateOptimalColumns_comfortable
    (numPanes contentWidth contentHeight c : Z) :
  1 <= c <= numPanes ->
  comfortable numPanes contentWidth contentHeight c ->
  let best := Tmux.calculateOptimalColumns numPanes contentWidth contentHeight in
  1 <= best <= numPanes
  /\ Tmux.MIN_COMFORTABLE_WIDTH <= paneWidthFor contentWidth best
  /\ Tmux.MIN_COMFORTABLE_HEIGHT <= paneHeightFor numPanes contentHeight best.
Proof.
  intros Hc Hcomf best. subst best. unfold Tmux.calculateOptimalColumns.
  pose proof (columnsLoop_inv numPanes contentWidth contentHeight
                (map Z.of_nat (seq 1 (Z.to_nat numPanes))) [] (1, (-1)%float)) as Hinv.
  simpl in Hinv.
  destruct (fold_left _ _ _) as [bestCols bestScore].
  destruct Hinv as [[_ Hnone] | (Hin & Hbest & Hscore)].
  - left. split; [reflexivity|]. intros c' Hc'. by apply not_elem_of_nil in Hc'.
  - exfalso. apply (Hnone c); [|exact Hcomf]. by apply elem_of_columns.
  - cbn [fst snd] in *.
    rewrite (proj2 (columnsScore_beats_none bestScore Hscore)).
    apply elem_of_columns in Hin. destruct Hbest. auto.
Qed.

(** A case of X5: three panes in a content area of 190 x 40, where two
    columns are comfortable. *)
Lemma calculateOptimalColumns_comfortable_witness :
  let best := Tmux.calculateOptimalColumns 3 190 40 in
  1 <= best <= 3
  /\ Tmux.MIN_COMFORTABLE_WIDTH <= paneWidthFor 190 best
  /\ Tmux.MIN_COMFORTABLE_HEIGHT <= paneHeightFor 3 40 best.
Proof.
  apply (calculateOptimalColumns_comfortable 3 190 40 2); [lia|].
  split; vm_compute; discriminate.
Defined.

(** X6. With no content pane generateSidebarGridLayout returns the empty
    string, whatever the column count (zero and negative counts included);
    and with a column count of at least 1 that is the only case in which it
    does: for a non-empty pane list the result is never empty. *)
Theorem generateSidebarGridLayout_empty
    (getPaneTitleSync : string -> option string) (controlPaneId : string)
    (contentPanes : list string)
    (sidebarWidth windowWidth windowHeight columns maxComfortableWidth : Z) :
  Tmux.generateSidebarGridLayout getPaneTitleSync controlPaneId []
    sidebarWidth windowWidth windowHeight columns maxComfortableWidth
  = Some EmptyString
  /\ (1 <= columns ->
      (Tmux.generateSidebarGridLayout getPaneTitleSync controlPaneId contentPanes
         sidebarWidth windowWidth windowHeight columns maxComfortableWidth
       = Some EmptyString
       <-> contentPanes = [])).
Proof.
  assert (Hempty : forall cols,
            Tmux.generateSidebarGridLayout getPaneTitleSync controlPaneId []
              sidebarWidth windowWidth windowHeight cols maxComfortableWidth
            = Some EmptyString).
  { intros cols. unfold Tmux.generateSidebarGridLayout, Tmux.layoutWithoutChecksum.
    cbn [length Nat.eqb negb andb]. rewrite andb_false_r. cbv zeta.
    replace (if cols <=? 0 then 0 else JS.ceil_div (Z.of_nat 0) cols) with 0.
    - reflexivity.
    - destruct (Z.leb_spec cols 0); [reflexivity|].
      unfold JS.ceil_div. simpl. rewrite Z.div_0_l by lia. reflexivity. }
  split; [apply Hempty|].
  intros Hcols. split.
  - intros Hres. destruct contentPanes as [|p ps]; [reflexivity|]. exfalso.
    unfold Tmux.generateSidebarGridLayout in Hres.
    destruct (Z.eqb_spec columns 0) as [|_]; [lia|]. cbn [andb] in Hres.
    destruct (layoutWithoutChecksum_some getPaneTitleSync controlPaneId (p :: ps)
                sidebarWidth windowWidth windowHeight columns maxComfortableWidth
                ltac:(discriminate) Hcols) as [layout Hlayout].
    rewrite Hlayout in Hres. injection Hres as Hres.
    destruct (Tmux.calculateLayoutChecksum layout); discriminate Hres.
  - intros ->. apply Hempty.
Qed.

(** X7. getContentPaneIds returns, in the order tmux lists them, exactly the
    panes that are neither the control pane nor titled dmux-spacer; a pane
    whose title cannot be read is kept. *)
Theorem getContentPaneIds_spec
    (getPaneTitleSync : string -> option string)
    (allPanes : list string) (controlPaneId : string) :
  let content := Tmux.getContentPaneIds getPaneTitleSync allPanes controlPaneId in
  (forall id, id ∈ content <->
     id ∈ allPanes /\ id <> controlPaneId
     /\ getPaneTitleSync id <> Some "dmux-spacer")
  /\ sublist content allPanes
  /\ (forall id, id ∈ allPanes -> id <> controlPaneId ->
        getPaneTitleSync id = None -> id ∈ content).
Proof.
  intros content. subst content. unfold Tmux.getContentPaneIds.
  assert (Hspec : forall id, id ∈ List.filter
            (fun id => if String.eqb id controlPaneId then false
                       else match getPaneTitleSync id with
                            | Some title => negb (String.eqb title "dmux-spacer")
                            | None => true
                            end) allPanes <->
            id ∈ allPanes /\ id <> controlPaneId
            /\ getPaneTitleSync id <> Some "dmux-spacer").
  { intros id. rewrite list_elem_of_In, filter_In, <- list_elem_of_In.
    destruct (String.eqb_spec id controlPaneId) as [->|Hne].
    - split; [intros [_ H]; discriminate | intros (_ & H & _); done].
    - destruct (getPaneTitleSync id) as [title|].
      + destruct (String.eqb_spec title "dmux-spacer") as [->|Hne'].
        * split; [intros [_ H]; discriminate | intros (_ & _ & H); done].
        * split; [intros [H _] | intros [H _]]; repeat split; auto; congruence.
      + split; [intros [H _] | intros [H _]]; repeat split; auto; discriminate. }
  split; [exact Hspec|]. split.
  - clear Hspec. induction allPanes as [|p ps IH]; [constructor|].
    simpl. destruct (if String.eqb p controlPaneId then _ else _).
    + apply sublist_skip, IH.
    + apply sublist_cons, IH.
  - intros id Hin Hne Hnone. apply Hspec. rewrite Hnone. auto.
Qed.

(** ** utils/attachAgent.ts: the generated slug is new *)

Section DecimalFacts.

Lemma parse_uint_acc (d : Decimal.uint) (acc : positive) :
  fold_left digitStep (list_ascii_of_string (DecimalString.NilEmpty.string_of_uint d))
    (Z.pos acc)
  = Z.pos (Pos.of_uint_acc d acc).
Proof.
  revert acc. induction d as [|d IH|d IH|d IH|d IH|d IH|d IH|d IH|d IH|d IH|d IH];
    intros acc; [reflexivity|..]; cbn [DecimalString.NilEmpty.string_of_uint
      list_ascii_of_string fold_left Pos.of_uint_acc]; rewrite <- IH; f_equal;
    unfold digitStep; simpl (Z.of_N (N_of_ascii _)); lia.
Qed.

Lemma parse_uint (d : Decimal.uint) :
  fold_left digitStep (list_ascii_of_string (DecimalString.NilEmpty.string_of_uint d)) 0
  = Z.of_N (Pos.of_uint d).
Proof.
  induction d as [|d IH|d IH|d IH|d IH|d IH|d IH|d IH|d IH|d IH|d IH];
    [reflexivity | exact IH |..];
    cbn [DecimalString.NilEmpty.string_of_uint list_ascii_of_string fold_left
         Pos.of_uint Z.of_N];
    rewrite <- parse_uint_acc; f_equal.
Qed.

Lemma digits_uint (d : Decimal.uint) :
  forallb JS.isDigit
    (list_ascii_of_string (DecimalString.NilEmpty.string_of_uint d)) = true.
Proof.
  induction d as [|d IH|d IH|d IH|d IH|d IH|d IH|d IH|d IH|d IH|d IH];
    [reflexivity|..]; cbn [DecimalString.NilEmpty.string_of_uint
      list_ascii_of_string forallb]; rewrite IH; reflexivity.
Qed.

(** [Number.parseInt] reads back what [`${n}`] writes. *)
Lemma parseDigits_str (n : Z) : 0 <= n -> JS.parseDigits (JS.str n) = n.
Proof.
  intros Hn. unfold JS.parseDigits, JS.str.
  fold digitStep.
  destruct n as [|p|p]; [reflexivity| |lia].
  cbn [Z.to_int DecimalString.NilZero.string_of_int].
  unfold DecimalString.NilZero.string_of_uint.
  destruct (Pos.to_uint p) eqn:Hp;
    try (rewrite <- Hp, parse_uint, DecimalPos.Unsigned.of_to; reflexivity).
  pose proof (DecimalPos.Unsigned.of_to p) as Hof. rewrite Hp in Hof. discriminate Hof.
Qed.

Lemma allDigits_str (n : Z) : 0 <= n -> JS.allDigits (JS.str n) = true.
Proof.
  intros Hn. unfold JS.allDigits, JS.str.
  destruct n as [|p|p]; [reflexivity| |lia].
  cbn [Z.to_int DecimalString.NilZero.string_of_int].
  unfold DecimalString.NilZero.string_of_uint.
  destruct (Pos.to_uint p) eqn:Hp; [reflexivity|..];
    rewrite <- Hp, digits_uint; rewrite Hp; reflexivity.
Qed.

End DecimalFacts.

Section FreshSlugFacts.
Import AttachAgent.

Lemma stripPrefix_app p s : JS.stripPrefix p (p +:+ s) = Some s.
Proof.
  induction p as [|a p IH]; [by destruct s|].
  simpl. by rewrite Ascii.eqb_refl.
Qed.

Lemma string_app_assoc (a b c : string) : (a +:+ b) +:+ c = a +:+ (b +:+ c).
Proof.
  induction a as [|x a IH]; [reflexivity|].
  change (String x ((a +:+ b) +:+ c) = String x (a +:+ (b +:+ c))).
  by rewrite IH.
Qed.

Lemma fold_max_ge (zs : list Z) (a : Z) :
  a <= fold_left Z.max zs a /\ forall z, z ∈ zs -> z <= fold_left Z.max zs a.
Proof.
  revert a. induction zs as [|y zs IH]; intros a.
  - split; [simpl; lia|]. intros z Hz. by apply not_elem_of_nil in Hz.
  - simpl. destruct (IH (Z.max a y)) as [Ha Hall]. split; [lia|].
    intros z Hz. apply elem_of_cons in Hz as [->|Hz]; [lia | by apply Hall].
Qed.

Lemma fold_max_app (zs : list Z) (a y : Z) :
  fold_left Z.max (zs ++ [y]) a = Z.max (fold_left Z.max zs a) y.
Proof. by rewrite fold_left_app. Qed.

(** The suffix that a slug of the form base-aN contributes. *)
Lemma suffix_of_numbered base (n : Z) :
  0 <= n ->
  match JS.stripPrefix (base +:+ "-a") (base +:+ "-a" +:+ JS.str n) with
  | Some suffix => if JS.allDigits suffix then Some (JS.parseDigits suffix) else None
  | None => None
  end = Some n.
Proof.
  intros Hn. rewrite <- string_app_assoc, stripPrefix_app.
  by rewrite allDigits_str, parseDigits_str.
Qed.

Lemma siblingSuffixes_numbered base (n : Z) (slugs : list string) :
  0 <= n ->
  siblingSuffixes base (slugs ++ [base +:+ "-a" +:+ JS.str n])
  = siblingSuffixes base slugs ++ [n].
Proof.
  intros Hn. unfold siblingSuffixes. rewrite omap_app. f_equal.
  pose proof (suffix_of_numbered base n Hn) as Hs.
  change (omap ?f [?x]) with (match f x with Some y => [y] | None => [] end).
  cbv beta. by rewrite Hs.
Qed.

Lemma siblingSuffixes_elem base (n : Z) (slugs : list string) :
  0 <= n ->
  base +:+ "-a" +:+ JS.str n ∈ slugs -> n ∈ siblingSuffixes base slugs.
Proof.
  intros Hn Hin. unfold siblingSuffixes. apply list_elem_of_omap.
  exists (base +:+ "-a" +:+ JS.str n). split; [exact Hin|].
  exact (suffix_of_numbered base n Hn).
Qed.

End FreshSlugFacts.



(** ** utils/layoutManager.ts: the resolved configuration and the gate *)

Section ResolveLayoutConfigFacts.
Import LayoutCalculator SettingsManager LayoutPipeline.
Variable K : Limits.
Variable defaultEnabledAgents : list string.
Variable roundedOther : option Z.

Lemma getSettings_widths m :
  getSettings K defaultEnabledAgents m !! "minPaneWidth"
  = Some (VInt (fst (resolveGlobalPaneWidths K m None None)))
  /\ getSettings K defaultEnabledAgents m !! "maxPaneWidth"
     = Some (VInt (snd (resolveGlobalPaneWidths K m None None))).
Proof.
  unfold getSettings. cbv zeta.
  rewrite lookup_insert_ne by done. rewrite !lookup_insert_eq. done.
Qed.

Lemma resolveLayoutConfig_fields m :
  let c := resolveLayoutConfig K defaultEnabledAgents roundedOther None (Some m) in
  let lo := clampMinPaneWidth K roundedOther
              (Some (VInt (fst (resolveGlobalPaneWidths K m None None)))) in
  let hi := clampMaxPaneWidth K roundedOther
              (Some (VInt (snd (resolveGlobalPaneWidths K m None None)))) in
  SIDEBAR_WIDTH c = 40 /\ MIN_COMFORTABLE_HEIGHT c = 15
  /\ MIN_COMFORTABLE_WIDTH c = lo
  /\ MAX_COMFORTABLE_WIDTH c = Z.max hi lo.
Proof.
  intros c lo hi. subst c. unfold resolveLayoutConfig. cbv zeta.
  destruct (getSettings_widths m) as [-> ->]. fold lo hi.
  destruct (Z.ltb_spec hi lo) as [Hlt|Hge].
  - destruct (Z.eqb_spec lo (MIN_COMFORTABLE_WIDTH (DEFAULT_LAYOUT_CONFIG K))) as [E1|N1];
      [destruct (Z.eqb_spec lo (MAX_COMFORTABLE_WIDTH (DEFAULT_LAYOUT_CONFIG K))) as [E2|N2]|];
      cbn [andb SIDEBAR_WIDTH MIN_COMFORTABLE_HEIGHT MIN_COMFORTABLE_WIDTH
           MAX_COMFORTABLE_WIDTH DEFAULT_LAYOUT_CONFIG] in *;
      repeat split; lia.
  - destruct (Z.eqb_spec lo (MIN_COMFORTABLE_WIDTH (DEFAULT_LAYOUT_CONFIG K))) as [E1|N1];
      [destruct (Z.eqb_spec hi (MAX_COMFORTABLE_WIDTH (DEFAULT_LAYOUT_CONFIG K))) as [E2|N2]|];
      cbn [andb SIDEBAR_WIDTH MIN_COMFORTABLE_HEIGHT MIN_COMFORTABLE_WIDTH
           MAX_COMFORTABLE_WIDTH DEFAULT_LAYOUT_CONFIG] in *;
      repeat split; lia.
Qed.

End ResolveLayoutConfigFacts.

(** X10. When no configuration is passed in and the settings can be read,
    the configuration that resolveLayoutConfig hands to the layout
    calculator is always ordered, MIN_COMFORTABLE_WIDTH <=
    MAX_COMFORTABLE_WIDTH, with the sidebar at 40 columns and the minimum
    pane height at 15 lines, whatever the settings files hold and whatever
    the limits of constants/layout.ts are; and a configuration that is
    passed in is used as it is. *)
Theorem resolveLayoutConfig_ordered
    (K : SettingsManager.Limits) (defaultEnabledAgents : list string)
    (roundedOther : option Z) (m : SettingsManager.Manager)
    (given : LayoutCalculator.LayoutConfig) (manager : option SettingsManager.Manager) :
  let c :=
    LayoutPipeline.resolveLayoutConfig K defaultEnabledAgents roundedOther None (Some m) in
  LayoutCalculator.MIN_COMFORTABLE_WIDTH c <= LayoutCalculator.MAX_COMFORTABLE_WIDTH c
  /\ LayoutCalculator.SIDEBAR_WIDTH c = 40
  /\ LayoutCalculator.MIN_COMFORTABLE_HEIGHT c = 15
  /\ LayoutPipeline.resolveLayoutConfig K defaultEnabledAgents roundedOther
       (Some given) manager = given.
Proof.
  intros c.
  destruct (resolveLayoutConfig_fields K defaultEnabledAgents roundedOther m)
    as (Hs & Hh & Hmin & Hmax).
  fold c in Hs, Hh, Hmin, Hmax.
  repeat split; [lia | exact Hs | exact Hh].
Qed.

(** X11. When the limits of constants/layout.ts are consistent (each default
    lies in its range, and the range of the minimum lies within that of the
    maximum), the configuration that resolveLayoutConfig builds from the
    settings carries exactly the effective pane-width bounds of
    getSettings: the clamping changes nothing. *)
Theorem resolveLayoutConfig_uses_settings
    (K : SettingsManager.Limits) (defaultEnabledAgents : list string)
    (roundedOther : option Z) (m : SettingsManager.Manager) :
  SettingsManager.MIN_MIN_PANE_WIDTH K <= SettingsManager.DEFAULT_MIN_PANE_WIDTH K
    <= SettingsManager.MAX_MIN_PANE_WIDTH K ->
  SettingsManager.MIN_MAX_PANE_WIDTH K <= SettingsManager.DEFAULT_MAX_PANE_WIDTH K
    <= SettingsManager.MAX_MAX_PANE_WIDTH K ->
  SettingsManager.MIN_MAX_PANE_WIDTH K <= SettingsManager.MIN_MIN_PANE_WIDTH K ->
  SettingsManager.MAX_MIN_PANE_WIDTH K <= SettingsManager.MAX_MAX_PANE_WIDTH K ->
  let c :=
    LayoutPipeline.resolveLayoutConfig K defaultEnabledAgents roundedOther None (Some m) in
  let settings := SettingsManager.getSettings K defaultEnabledAgents m in
  SettingsManager.effectiveMin settings = Some (LayoutCalculator.MIN_COMFORTABLE_WIDTH c)
  /\ SettingsManager.effectiveMax settings = Some (LayoutCalculator.MAX_COMFORTABLE_WIDTH c).
Proof.
  intros Hdmin Hdmax Hlow Hhigh c settings.
  destruct (resolveLayoutConfig_fields K defaultEnabledAgents roundedOther m)
    as (_ & _ & Hmin & Hmax).
  fold c in Hmin, Hmax.
  destruct (getSettings_effective K defaultEnabledAgents m) as [Hemin Hemax].
  fold settings in Hemin, Hemax.
  pose proof (resolveGlobalPaneWidths_ordered K m None None) as Hord.
  assert (Hlo : SettingsManager.MIN_MIN_PANE_WIDTH K
                <= SettingsManager.getValidGlobalMinPaneWidth K m
                <= SettingsManager.MAX_MIN_PANE_WIDTH K).
  { unfold SettingsManager.getValidGlobalMinPaneWidth.
    destruct (_ !! "minPaneWidth") as [[| |z| |]|]; try exact Hdmin.
    destruct (SettingsManager.isValidMinPaneWidth K (Some (SettingsManager.VInt z)))
      eqn:Hv; [|exact Hdmin].
    simpl in Hv. apply andb_true_iff in Hv as [H1 H2].
    apply Z.leb_le in H1, H2. lia. }
  assert (Hhi : SettingsManager.MIN_MAX_PANE_WIDTH K
                <= SettingsManager.getValidGlobalMaxPaneWidth K m
                <= SettingsManager.MAX_MAX_PANE_WIDTH K).
  { unfold SettingsManager.getValidGlobalMaxPaneWidth.
    destruct (_ !! "maxPaneWidth") as [[| |z| |]|]; try exact Hdmax.
    destruct (SettingsManager.isValidMaxPaneWidth K (Some (SettingsManager.VInt z)))
      eqn:Hv; [|exact Hdmax].
    simpl in Hv. apply andb_true_iff in Hv as [H1 H2].
    apply Z.leb_le in H1, H2. lia. }
  assert (Hres : fst (SettingsManager.resolveGlobalPaneWidths K m None None)
                 = SettingsManager.getValidGlobalMinPaneWidth K m
                 /\ (snd (SettingsManager.resolveGlobalPaneWidths K m None None)
                     = SettingsManager.getValidGlobalMaxPaneWidth K m
                     \/ snd (SettingsManager.resolveGlobalPaneWidths K m None None)
                        = SettingsManager.getValidGlobalMinPaneWidth K m)).
  { unfold SettingsManager.resolveGlobalPaneWidths. simpl.
    destruct (_ <? _); simpl; auto. }
  destruct Hres as [Hfst Hsnd].
  rewrite Hemin, Hemax, Hmin, Hmax.
  unfold LayoutPipeline.clampMinPaneWidth, LayoutPipeline.clampMaxPaneWidth.
  cbn [LayoutPipeline.rounded].
  split; f_equal; lia.
Qed.

(** A case of X11: the limits that the tests of the repository pin down, and
    a manager built with no settings file. *)
Lemma resolveLayoutConfig_uses_settings_witness :
  let K := SettingsManager.limits_of_tests in
  let m := SettingsManager.construct SettingsManager.Missing SettingsManager.Missing in
  let c := LayoutPipeline.resolveLayoutConfig K [] None None (Some m) in
  let settings := SettingsManager.getSettings K [] m in
  SettingsManager.effectiveMin settings = Some (LayoutCalculator.MIN_COMFORTABLE_WIDTH c)
  /\ SettingsManager.effectiveMax settings = Some (LayoutCalculator.MAX_COMFORTABLE_WIDTH c).
Proof.
  apply (resolveLayoutConfig_uses_settings SettingsManager.limits_of_tests [] None
           (SettingsManager.construct SettingsManager.Missing SettingsManager.Missing));
    simpl; lia.
Defined.

Section LayoutGateFacts.
Import LayoutPipeline.

Lemma filter_sublist {A} (f : A -> bool) (l : list A) : sublist (List.filter f l) l.
Proof.
  induction l as [|a l IH]; [apply sublist_nil|].
  simpl. destruct (f a); [apply sublist_skip, IH | apply sublist_cons, IH].
Qed.

Lemma dimensionsUnchanged_after w h (real real' : list string) cfg :
  length real' = length real ->
  dimensionsUnchanged
    (Some {| width := w; height := h; paneCount := Z.of_nat (length real);
             minPaneWidth := LayoutCalculator.MIN_COMFORTABLE_WIDTH cfg;
             maxPaneWidth := LayoutCalculator.MAX_COMFORTABLE_WIDTH cfg |})
    w h real' cfg = true.
Proof.
  intros Hlen. unfold dimensionsUnchanged. cbn [width height paneCount minPaneWidth maxPaneWidth].
  rewrite Hlen, !Z.eqb_refl. reflexivity.
Qed.

Lemma dimensionsUnchanged_length last w h (real real' : list string) cfg :
  length real' = length real ->
  dimensionsUnchanged last w h real' cfg = dimensionsUnchanged last w h real cfg.
Proof. intros Hlen. unfold dimensionsUnchanged. by rewrite Hlen. Qed.

End LayoutGateFacts.

(** X12. The gate of recalculateAndApplyLayout makes a repeated call a
    no-op: after any call, a further call with the same terminal size, the
    same configuration and the same number of real content panes, and
    without force, is skipped and leaves lastLayoutDimensions as it is. The
    test is on the number of panes only, not on which panes they are. *)
Theorem layoutGate_repeated_call_skipped
    (last : option LayoutPipeline.LastLayoutDimensions)
    (existingSpacerId existingSpacerId' : option string)
    (allTmuxPaneIds allTmuxPaneIds' : option (list string))
    (contentPaneIds contentPaneIds' : list string)
    (terminalWidth terminalHeight : Z)
    (effectiveConfig : LayoutCalculator.LayoutConfig)
    (options options' : option LayoutManager.Options) :
  LayoutManager.isTrue options' LayoutManager.force = false ->
  length (LayoutPipeline.validContentPaneIds existingSpacerId' allTmuxPaneIds'
            contentPaneIds')
  = length (LayoutPipeline.validContentPaneIds existingSpacerId allTmuxPaneIds
              contentPaneIds) ->
  let first :=
    LayoutPipeline.layoutGate last existingSpacerId allTmuxPaneIds contentPaneIds
      terminalWidth terminalHeight effectiveConfig options in
  LayoutPipeline.layoutGate (fst first) existingSpacerId' allTmuxPaneIds'
    contentPaneIds' terminalWidth terminalHeight effectiveConfig options'
  = (fst first, LayoutPipeline.Skip).
Proof.
  intros Hforce Hlen first. subst first. unfold LayoutPipeline.layoutGate. cbv zeta.
  rewrite Hforce. cbn [negb]. rewrite !andb_true_r.
  destruct (LayoutPipeline.dimensionsUnchanged last terminalWidth terminalHeight
              (LayoutPipeline.validContentPaneIds existingSpacerId allTmuxPaneIds
                 contentPaneIds) effectiveConfig
            && negb (LayoutManager.isTrue options LayoutManager.force)) eqn:Hfirst;
    cbn [fst].
  - apply andb_true_iff in Hfirst as [Hsame _].
    rewrite (dimensionsUnchanged_length _ _ _ _ _ _ Hlen), Hsame. reflexivity.
  - rewrite (dimensionsUnchanged_after _ _ _ _ _ Hlen). reflexivity.
Qed.

(** A case of X12: two panes in a 200 x 50 terminal, then the same call
    again. *)
Lemma layoutGate_repeated_call_skipped_witness :
  let first :=
    LayoutPipeline.layoutGate None None (Some ["%1"; "%2"]) ["%1"; "%2"] 200 50
      LayoutCalculator.config_60_100 None in
  LayoutPipeline.layoutGate (fst first) None (Some ["%1"; "%2"]) ["%1"; "%2"] 200 50
    LayoutCalculator.config_60_100 None
  = (fst first, LayoutPipeline.Skip).
Proof.
  apply (layoutGate_repeated_call_skipped None None None (Some ["%1"; "%2"])
           (Some ["%1"; "%2"]) ["%1"; "%2"] ["%1"; "%2"] 200 50
           LayoutCalculator.config_60_100 None None); reflexivity.
Defined.

(** X13. The panes that the gate of recalculateAndApplyLayout passes on to
    the layout are content panes it was given, in their order, without the
    spacer, and, when tmux could list its panes, without any pane that no
    longer exists; with force set the gate never skips, and the first call
    ever is never skipped. *)
Theorem layoutGate_real_panes
    (last : option LayoutPipeline.LastLayoutDimensions)
    (existingSpacerId : option string) (allTmuxPaneIds : option (list string))
    (contentPaneIds : list string) (terminalWidth terminalHeight : Z)
    (effectiveConfig : LayoutCalculator.LayoutConfig)
    (options : option LayoutManager.Options) :
  let real :=
    LayoutPipeline.validContentPaneIds existingSpacerId allTmuxPaneIds contentPaneIds in
  let gate :=
    snd (LayoutPipeline.layoutGate last existingSpacerId allTmuxPaneIds contentPaneIds
           terminalWidth terminalHeight effectiveConfig options) in
  (gate = LayoutPipeline.Skip \/ gate = LayoutPipeline.Proceed real)
  /\ (LayoutManager.isTrue options LayoutManager.force = true \/ last = None ->
      gate = LayoutPipeline.Proceed real)
  /\ sublist real contentPaneIds
  /\ (forall id, id ∈ real -> existingSpacerId <> Some id)
  /\ (forall ids id, allTmuxPaneIds = Some ids -> id ∈ real -> id ∈ ids).
Proof.
  intros real gate. subst gate. unfold LayoutPipeline.layoutGate. cbv zeta. fold real.
  split.
  { destruct (_ && _); [left | right]; reflexivity. }
  split.
  { intros [Hforce | ->].
    - rewrite Hforce. cbn [negb]. rewrite andb_false_r. reflexivity.
    - reflexivity. }
  subst real. unfold LayoutPipeline.validContentPaneIds. cbv zeta.
  split.
  { destruct allTmuxPaneIds as [ids|]; apply filter_sublist. }
  split.
  { intros id Hin ->.
    destruct allTmuxPaneIds as [ids|];
      apply list_elem_of_In, filter_In in Hin as [_ Hkeep];
      rewrite String.eqb_refl in Hkeep; discriminate Hkeep. }
  intros ids id -> Hin.
  apply list_elem_of_In, filter_In in Hin as [_ Hkeep].
  destruct (match existingSpacerId with Some s => String.eqb id s | None => false end);
    [discriminate|].
  by apply bool_decide_eq_true_1 in Hkeep.
Qed.

(** ** utils/settingsManager.ts: reading, updating, removing, persisting *)

Section SettingsReadFacts.
Import Types SettingsManager.
Variable K : Limits.
Variable isValidBranchName : string -> bool.
Variable isAgentName : string -> bool.
Variable defaultEnabledAgents : list string.

Lemma isPaneWidthKey_false key :
  isPaneWidthKey key = false <->
  key <> "minPaneWidth"%string /\ key <> "maxPaneWidth"%string.
Proof.
  unfold isPaneWidthKey. rewrite orb_false_iff.
  split.
  - intros [H1 H2]. split; intros ->; discriminate.
  - intros [H1 H2]. split; apply String.eqb_neq; assumption.
Qed.

(** The resolved bounds depend on the global object only, and there on the
    two bounds only. *)
Lemma resolveGlobalPaneWidths_ext m m' minOverride maxOverride :
  globalSettings m' !! "minPaneWidth" = globalSettings m !! "minPaneWidth" ->
  globalSettings m' !! "maxPaneWidth" = globalSettings m !! "maxPaneWidth" ->
  resolveGlobalPaneWidths K m' minOverride maxOverride
  = resolveGlobalPaneWidths K m minOverride maxOverride.
Proof.
  intros Hmin Hmax.
  unfold resolveGlobalPaneWidths, getValidGlobalMinPaneWidth, getValidGlobalMaxPaneWidth.
  by rewrite Hmin, Hmax.
Qed.

Lemma getSettings_lookup key m :
  getSettings K defaultEnabledAgents m !! key
  = if String.eqb key "minPaneWidth"
    then Some (VInt (fst (resolveGlobalPaneWidths K m None None)))
    else if String.eqb key "maxPaneWidth"
    then Some (VInt (snd (resolveGlobalPaneWidths K m None None)))
    else match projectSettings m !! key with
         | Some v => Some v
         | None =>
             match globalSettings m !! key with
             | Some v => Some v
             | None => DEFAULT_SETTINGS K defaultEnabledAgents !! key
             end
         end.
Proof.
  unfold getSettings. cbv zeta.
  destruct (String.eqb_spec key "minPaneWidth") as [->|Hmin].
  { rewrite lookup_insert_ne by done. by rewrite lookup_insert_eq. }
  destruct (String.eqb_spec key "maxPaneWidth") as [->|Hmax].
  { by rewrite lookup_insert_eq. }
  rewrite !lookup_insert_ne by done.
  rewrite !lookup_union.
  destruct (projectSettings m !! key), (globalSettings m !! key),
    (DEFAULT_SETTINGS K defaultEnabledAgents !! key); reflexivity.
Qed.

End SettingsReadFacts.

(** X14. For every setting other than the two pane-width bounds, getSetting
    returns the project value when the project object has the key, else the
    global value when the global object has it, else the built-in default,
    and undefined when there is none. *)
Theorem getSetting_precedence
    (K : SettingsManager.Limits) (defaultEnabledAgents : list string)
    (key : string) (m : SettingsManager.Manager) :
  isPaneWidthKey key = false ->
  SettingsManager.getSetting K defaultEnabledAgents key m
  = match SettingsManager.projectSettings m !! key with
    | Some v => Some v
    | None =>
        match SettingsManager.globalSettings m !! key with
        | Some v => Some v
        | None => SettingsManager.DEFAULT_SETTINGS K defaultEnabledAgents !! key
        end
    end.
Proof.
  intros Hkey. apply isPaneWidthKey_false in Hkey as [Hmin Hmax].
  unfold SettingsManager.getSetting. rewrite getSettings_lookup.
  apply String.eqb_neq in Hmin, Hmax. by rewrite Hmin, Hmax.
Qed.

(** A case of X14: the permission mode of a manager built with no settings
    file is the built-in default. *)
Lemma getSetting_precedence_witness :
  let m := SettingsManager.construct SettingsManager.Missing SettingsManager.Missing in
  SettingsManager.getSetting SettingsManager.limits_of_tests [] "permissionMode" m
  = match SettingsManager.projectSettings m !! "permissionMode" with
    | Some v => Some v
    | None =>
        match SettingsManager.globalSettings m !! "permissionMode" with
        | Some v => Some v
        | None =>
            SettingsManager.DEFAULT_SETTINGS SettingsManager.limits_of_tests []
              !! "permissionMode"
        end
    end.
Proof.
  apply (getSetting_precedence SettingsManager.limits_of_tests [] "permissionMode"
           (SettingsManager.construct SettingsManager.Missing SettingsManager.Missing)).
  reflexivity.
Defined.

(** X15. The pane-width bounds that getSettings reports do not depend on the
    project object at all: two managers with the same global object report
    the same minPaneWidth and maxPaneWidth, whatever their project objects
    hold (a bound written by hand into the project file is ignored). *)
Theorem getSetting_pane_width_ignores_project
    (K : SettingsManager.Limits) (defaultEnabledAgents : list string)
    (m m' : SettingsManager.Manager) :
  SettingsManager.globalSettings m' = SettingsManager.globalSettings m ->
  SettingsManager.getSetting K defaultEnabledAgents "minPaneWidth" m'
  = SettingsManager.getSetting K defaultEnabledAgents "minPaneWidth" m
  /\ SettingsManager.getSetting K defaultEnabledAgents "maxPaneWidth" m'
     = SettingsManager.getSetting K defaultEnabledAgents "maxPaneWidth" m.
Proof.
  intros Hglobal. unfold SettingsManager.getSetting.
  rewrite !getSettings_lookup. cbn [String.eqb Ascii.eqb Bool.eqb andb].
  rewrite (resolveGlobalPaneWidths_ext K m m' None None) by (by rewrite Hglobal).
  done.
Qed.

(** A case of X15: a project file that holds a minimum of 200 against a
    manager without any settings file. *)
Lemma getSetting_pane_width_ignores_project_witness :
  let K := SettingsManager.limits_of_tests in
  let m := SettingsManager.construct SettingsManager.Missing SettingsManager.Missing in
  let m' :=
    SettingsManager.construct SettingsManager.Missing
      (SettingsManager.Parsed {[ "minPaneWidth" := SettingsManager.VInt 200 ]}) in
  SettingsManager.getSetting K [] "minPaneWidth" m'
  = SettingsManager.getSetting K [] "minPaneWidth" m
  /\ SettingsManager.getSetting K [] "maxPaneWidth" m'
     = SettingsManager.getSetting K [] "maxPaneWidth" m.
Proof.
  apply (getSetting_pane_width_ignores_project SettingsManager.limits_of_tests []
           (SettingsManager.construct SettingsManager.Missing SettingsManager.Missing)
           (SettingsManager.construct SettingsManager.Missing
              (SettingsManager.Parsed {[ "minPaneWidth" := SettingsManager.VInt 200 ]}))).
  reflexivity.
Defined.

(** X16. A successful updateSetting of a setting other than the pane-width
    bounds is read back by getSetting: at project scope the new value is the
    effective one; at global scope it is the effective one unless the
    project object overrides the key, in which case the project value stays
    in force. Every other setting reads as before. *)
Theorem updateSetting_then_getSetting
    (K : SettingsManager.Limits) (isValidBranchName isAgentName : string -> bool)
    (defaultEnabledAgents : list string)
    (key : string) (value : SettingsManager.Value) (scope : Types.SettingsScope)
    (m m' : SettingsManager.Manager) :
  isPaneWidthKey key = false ->
  SettingsManager.updateSetting K isValidBranchName isAgentName key value scope m
  = SettingsManager.Updated m' ->
  SettingsManager.getSetting K defaultEnabledAgents key m'
  = match scope with
    | Types.project => Some value
    | Types.global =>
        match SettingsManager.projectSettings m !! key with
        | Some v => Some v
        | None => Some value
        end
    end
  /\ (forall other, other <> key ->
        SettingsManager.getSetting K defaultEnabledAgents other m'
        = SettingsManager.getSetting K defaultEnabledAgents other m).
Proof.
  intros Hkey Hupd. pose proof Hkey as Hwidth.
  apply isPaneWidthKey_false in Hkey as [Hmin Hmax].
  unfold SettingsManager.updateSetting in Hupd.
  destruct (SettingsManager.validateSetting _ _ _ _ _) as [msg|]; [discriminate|].
  unfold isPaneWidthKey in Hwidth. rewrite Hwidth in Hupd.
  assert (Hres : SettingsManager.resolveGlobalPaneWidths K m' None None
                 = SettingsManager.resolveGlobalPaneWidths K m None None).
  { apply resolveGlobalPaneWidths_ext;
      destruct scope; injection Hupd as <-;
      cbn [SettingsManager.globalSettings SettingsManager.saveGlobalSettings
           SettingsManager.saveProjectSettings SettingsManager.setGlobal
           SettingsManager.setProject];
      try reflexivity; by rewrite lookup_insert_ne. }
  unfold SettingsManager.getSetting. split.
  - rewrite getSettings_lookup.
    apply String.eqb_neq in Hmin, Hmax. rewrite Hmin, Hmax.
    destruct scope; injection Hupd as <-;
      cbn [SettingsManager.globalSettings SettingsManager.projectSettings
           SettingsManager.saveGlobalSettings SettingsManager.saveProjectSettings
           SettingsManager.setGlobal SettingsManager.setProject].
    + destruct (SettingsManager.projectSettings m !! key); [reflexivity|].
      by rewrite lookup_insert_eq.
    + by rewrite lookup_insert_eq.
  - intros other Hother. rewrite !getSettings_lookup, Hres.
    destruct (String.eqb other "minPaneWidth"); [reflexivity|].
    destruct (String.eqb other "maxPaneWidth"); [reflexivity|].
    destruct scope; injection Hupd as <-;
      cbn [SettingsManager.globalSettings SettingsManager.projectSettings
           SettingsManager.saveGlobalSettings SettingsManager.saveProjectSettings
           SettingsManager.setGlobal SettingsManager.setProject];
      by rewrite lookup_insert_ne.
Qed.

(** A case of X16, the repository's own test: acceptEdits stored as the
    project's permission mode. *)
Lemma updateSetting_then_getSetting_witness :
  let K := SettingsManager.limits_of_tests in
  let m := SettingsManager.construct SettingsManager.Missing SettingsManager.Missing in
  let m' :=
    SettingsManager.saveProjectSettings
      (SettingsManager.setProject
         {[ "permissionMode" := SettingsManager.VString "acceptEdits" ]} m) in
  SettingsManager.getSetting K [] "permissionMode" m'
  = Some (SettingsManager.VString "acceptEdits")
  /\ (forall other, other <> "permissionMode"%string ->
        SettingsManager.getSetting K [] other m'
        = SettingsManager.getSetting K [] other m).
Proof.
  apply (updateSetting_then_getSetting SettingsManager.limits_of_tests
           (fun _ => true) (fun _ => true) [] "permissionMode"
           (SettingsManager.VString "acceptEdits") Types.project
           (SettingsManager.construct SettingsManager.Missing SettingsManager.Missing));
    reflexivity.
Defined.

Section SettingsWriteFacts.
Import Types SettingsManager.
Variable K : Limits.
Variable isValidBranchName : string -> bool.
Variable isAgentName : string -> bool.

Lemma storePaneWidths_files minOverride maxOverride m :
  let r := storePaneWidths K minOverride maxOverride m in
  globalFile (fst r) = globalFile m
  /\ projectFile (fst r) = projectFile m
  /\ (snd r = false -> projectSettings (fst r) = projectSettings m).
Proof.
  unfold storePaneWidths. cbv zeta.
  cbn [projectSettings setGlobal].
  destruct (bool_decide (is_Some (projectSettings m !! "minPaneWidth")));
    cbn [projectSettings setProject setGlobal];
    match goal with |- context [bool_decide ?P] => destruct (bool_decide P) end;
    cbn [fst snd orb globalFile projectFile projectSettings setProject setGlobal];
    repeat split; try discriminate; reflexivity.
Qed.

Lemma updateSetting_inSync key value scope m m' :
  inSync m ->
  updateSetting K isValidBranchName isAgentName key value scope m = Updated m' ->
  inSync m'.
Proof.
  intros [Hg Hp] Hupd. unfold updateSetting in Hupd.
  destruct (validateSetting _ _ _ _ _) as [msg|]; [discriminate|].
  destruct (String.eqb key "minPaneWidth" || String.eqb key "maxPaneWidth").
  - set (r := if String.eqb key "minPaneWidth"
              then storePaneWidths K (intOf value) None m
              else storePaneWidths K None (intOf value) m) in Hupd.
    assert (Hr : globalFile (fst r) = globalFile m
                 /\ projectFile (fst r) = projectFile m
                 /\ (snd r = false -> projectSettings (fst r) = projectSettings m)).
    { subst r. destruct (String.eqb key "minPaneWidth"); apply storePaneWidths_files. }
    destruct r as [m1 changed]. cbn [fst snd] in Hr. destruct Hr as (_ & Hpf & Hps).
    injection Hupd as <-. destruct changed; split; cbn; try reflexivity.
    by rewrite Hpf, Hp, Hps.
  - destruct scope; injection Hupd as <-; split; cbn; done.
Qed.

Lemma updateSettings_inSync settings scope m m' :
  inSync m ->
  updateSettings K isValidBranchName isAgentName settings scope m = Updated m' ->
  inSync m'.
Proof.
  intros [Hg Hp] Hupd. unfold updateSettings in Hupd.
  destruct (validateSettings _ _ _ _) as [msg|]; [discriminate|].
  cbv zeta in Hupd.
  destruct (bool_decide (is_Some (settings !! "minPaneWidth"))
            || bool_decide (is_Some (settings !! "maxPaneWidth"))).
  - pose proof (storePaneWidths_files (settings !! "minPaneWidth" ≫= intOf)
                  (settings !! "maxPaneWidth" ≫= intOf) m) as Hr.
    cbv zeta in Hr.
    destruct (storePaneWidths K _ _ m) as [m1 changed].
    cbn [fst snd] in Hr. destruct Hr as (_ & Hpf & Hps).
    destruct (negb (bool_decide (_ = ∅))), scope, changed;
      injection Hupd as <-; split; cbn; try reflexivity;
      by rewrite Hpf, Hp, Hps.
  - destruct (negb (bool_decide (_ = ∅))), scope;
      injection Hupd as <-; split; cbn; done.
Qed.

End SettingsWriteFacts.




Section SingleSettingFacts.
Import Types SettingsManager.
Variable K : Limits.
Variable isValidBranchName : string -> bool.
Variable isAgentName : string -> bool.

Ltac settle_checks :=
  cbn [String.eqb Ascii.eqb Bool.eqb orb andb negb orElse];
  repeat match goal with
         | |- context [if ?b then _ else _] =>
             destruct b; cbn [orb andb negb orElse]
         | |- context [match filter ?f ?l with _ => _ end] =>
             destruct (filter f l); cbn [orElse]
         end;
  reflexivity.

Lemma validateSettings_singleton key value :
  validateSettings K isValidBranchName isAgentName {[ key := value ]}
  = validateSetting K isValidBranchName isAgentName key value.
Proof.
  unfold validateSettings, validateSetting.
  destruct (String.eqb_spec key "permissionMode") as [->|Hpm].
  { rewrite lookup_singleton_eq. rewrite !lookup_singleton_ne by done.
    destruct value; settle_checks. }
  destruct (String.eqb_spec key "enabledAgents") as [->|Hea].
  { rewrite lookup_singleton_eq. rewrite !lookup_singleton_ne by done.
    destruct value; settle_checks. }
  destruct (String.eqb_spec key "baseBranch") as [->|Hbb].
  { rewrite lookup_singleton_eq. rewrite !lookup_singleton_ne by done.
    destruct value; settle_checks. }
  destruct (String.eqb_spec key "branchPrefix") as [->|Hbp].
  { rewrite lookup_singleton_eq. rewrite !lookup_singleton_ne by done.
    destruct value; settle_checks. }
  destruct (String.eqb_spec key "minPaneWidth") as [->|Hmin].
  { rewrite lookup_singleton_eq. rewrite !lookup_singleton_ne by done.
    destruct value; settle_checks. }
  destruct (String.eqb_spec key "maxPaneWidth") as [->|Hmax].
  { rewrite lookup_singleton_eq. rewrite !lookup_singleton_ne by done.
    destruct value; settle_checks. }
  rewrite !lookup_singleton_ne by done.
  apply String.eqb_neq in Hpm, Hea, Hbb, Hbp, Hmin, Hmax.
  destruct value; rewrite ?Hpm, ?Hea, ?Hbb, ?Hbp, ?Hmin, ?Hmax; settle_checks.
Qed.
End SingleSettingFacts.


(** X19. What updateSetting rejects. A permissionMode that is a string is
    rejected, with the error Invalid permissionMode: "s", exactly when it is
    none of the four modes. A pane-width bound is rejected, with the error
    that names the allowed range, exactly when it is not an integer within
    the range of that bound; it is accepted otherwise, at either scope. *)
Theorem updateSetting_rejections
    (K : SettingsManager.Limits) (isValidBranchName isAgentName : string -> bool)
    (scope : Types.SettingsScope) (m : SettingsManager.Manager) :
  (forall s,
      SettingsManager.updateSetting K isValidBranchName isAgentName "permissionMode"
        (SettingsManager.VString s) scope m
      = SettingsManager.Throws ("Invalid permissionMode: " +:+ JS.quoted s)
      <-> s ∉ SettingsManager.PERMISSION_MODES)
  /\ (forall value,
        SettingsManager.updateSetting K isValidBranchName isAgentName "minPaneWidth"
          value scope m
        = SettingsManager.Throws
            (SettingsManager.rangeMessage "minPaneWidth"
               (SettingsManager.MIN_MIN_PANE_WIDTH K) (SettingsManager.MAX_MIN_PANE_WIDTH K))
        <-> ~ exists z, value = SettingsManager.VInt z
              /\ SettingsManager.MIN_MIN_PANE_WIDTH K <= z
                 <= SettingsManager.MAX_MIN_PANE_WIDTH K)
  /\ (forall value,
        SettingsManager.updateSetting K isValidBranchName isAgentName "maxPaneWidth"
          value scope m
        = SettingsManager.Throws
            (SettingsManager.rangeMessage "maxPaneWidth"
               (SettingsManager.MIN_MAX_PANE_WIDTH K) (SettingsManager.MAX_MAX_PANE_WIDTH K))
        <-> ~ exists z, value = SettingsManager.VInt z
              /\ SettingsManager.MIN_MAX_PANE_WIDTH K <= z
                 <= SettingsManager.MAX_MAX_PANE_WIDTH K).
Proof.
  split; [|split].
  - intros s. unfold SettingsManager.updateSetting, SettingsManager.validateSetting.
    cbn [String.eqb Ascii.eqb Bool.eqb orb andb negb].
    unfold SettingsManager.isPermissionMode.
    destruct (decide (s ∈ SettingsManager.PERMISSION_MODES)) as [Hin|Hout].
    + rewrite (bool_decide_eq_true_2 _ Hin).
      cbn [negb SettingsManager.orElse orb String.eqb Ascii.eqb Bool.eqb].
      split; [destruct scope; discriminate | done].
    + rewrite (bool_decide_eq_false_2 _ Hout).
      cbn [negb SettingsManager.orElse]. split; [done | reflexivity].
  - intros value. unfold SettingsManager.updateSetting, SettingsManager.validateSetting.
    destruct value as [s| |z| |agents];
      cbn [String.eqb Ascii.eqb Bool.eqb orb andb negb SettingsManager.orElse
           SettingsManager.isValidMinPaneWidth];
      try (split; [intros _ (z' & Hz & _); discriminate Hz | reflexivity]).
    destruct (Z.leb_spec (SettingsManager.MIN_MIN_PANE_WIDTH K) z);
      destruct (Z.leb_spec z (SettingsManager.MAX_MIN_PANE_WIDTH K));
      cbn [andb negb SettingsManager.orElse];
      try (split; [intros _ (z' & Hz & Hr); injection Hz as <-; lia | reflexivity]).
    destruct (SettingsManager.storePaneWidths K _ _ m) as [m1 changed].
    split; [discriminate|]. intros Hno. exfalso. apply Hno. eauto.
  - intros value. unfold SettingsManager.updateSetting, SettingsManager.validateSetting.
    destruct value as [s| |z| |agents];
      cbn [String.eqb Ascii.eqb Bool.eqb orb andb negb SettingsManager.orElse
           SettingsManager.isValidMaxPaneWidth];
      try (split; [intros _ (z' & Hz & _); discriminate Hz | reflexivity]).
    destruct (Z.leb_spec (SettingsManager.MIN_MAX_PANE_WIDTH K) z);
      destruct (Z.leb_spec z (SettingsManager.MAX_MAX_PANE_WIDTH K));
      cbn [andb negb SettingsManager.orElse];
      try (split; [intros _ (z' & Hz & Hr); injection Hz as <-; lia | reflexivity]).
    destruct (SettingsManager.storePaneWidths K _ _ m) as [m1 changed].
    split; [discriminate|]. intros Hno. exfalso. apply Hno. eauto.
Qed.

(** X20. getEffectiveScope names the object that getSetting reads a setting
    other than the pane-width bounds from: the project object when it has
    the key, else the global object when it has the key, else neither, and
    then the value is the built-in default; isProjectOverride holds exactly
    in the first case. For the two pane-width bounds the scope reported is
    never the project and isProjectOverride never holds. *)
Theorem getEffectiveScope_names_the_source
    (K : SettingsManager.Limits) (defaultEnabledAgents : list string)
    (key : string) (m : SettingsManager.Manager) :
  isPaneWidthKey key = false ->
  match SettingsManager.getEffectiveScope key m with
  | Some Types.project =>
      SettingsManager.getSetting K defaultEnabledAgents key m
      = SettingsManager.projectSettings m !! key
      /\ is_Some (SettingsManager.projectSettings m !! key)
      /\ SettingsManager.isProjectOverride key m = true
  | Some Types.global =>
      SettingsManager.getSetting K defaultEnabledAgents key m
      = SettingsManager.globalSettings m !! key
      /\ is_Some (SettingsManager.globalSettings m !! key)
      /\ SettingsManager.isProjectOverride key m = false
  | None =>
      SettingsManager.getSetting K defaultEnabledAgents key m
      = SettingsManager.DEFAULT_SETTINGS K defaultEnabledAgents !! key
      /\ SettingsManager.isProjectOverride key m = false
  end
  /\ (forall width, isPaneWidthKey width = true ->
        SettingsManager.getEffectiveScope width m <> Some Types.project
        /\ SettingsManager.isProjectOverride width m = false).
Proof.
  intros Hkey. pose proof Hkey as Hwidth.
  apply isPaneWidthKey_false in Hkey as [Hmin Hmax].
  apply String.eqb_neq in Hmin, Hmax.
  split.
  - unfold SettingsManager.getEffectiveScope, SettingsManager.isProjectOverride,
      SettingsManager.getSetting.
    rewrite getSettings_lookup, Hmin, Hmax. cbn [orb].
    destruct (SettingsManager.projectSettings m !! key) as [v|].
    { rewrite (bool_decide_eq_true_2 _ (mk_is_Some _ _ eq_refl)). eauto. }
    rewrite (bool_decide_eq_false_2 (is_Some None)) by (intros [? ?]; discriminate).
    destruct (SettingsManager.globalSettings m !! key) as [v|].
    { rewrite (bool_decide_eq_true_2 _ (mk_is_Some _ _ eq_refl)). eauto. }
    rewrite (bool_decide_eq_false_2 (is_Some None)) by (intros [? ?]; discriminate).
    done.
  - intros width Hw. unfold isPaneWidthKey in Hw.
    unfold SettingsManager.getEffectiveScope, SettingsManager.isProjectOverride.
    rewrite Hw. split; [|reflexivity].
    destruct (String.eqb width "minPaneWidth").
    + destruct (bool_decide _); discriminate.
    + cbn [orb] in Hw. rewrite Hw. destruct (bool_decide _); discriminate.
Qed.

(** A case of X20: the base branch of a manager whose project file pins
    it. *)
Lemma getEffectiveScope_names_the_source_witness :
  let K := SettingsManager.limits_of_tests in
  let m :=
    SettingsManager.construct SettingsManager.Missing
      (SettingsManager.Parsed {[ "baseBranch" := SettingsManager.VString "main" ]}) in
  match SettingsManager.getEffectiveScope "baseBranch" m with
  | Some Types.project =>
      SettingsManager.getSetting K [] "baseBranch" m
      = SettingsManager.projectSettings m !! "baseBranch"
      /\ is_Some (SettingsManager.projectSettings m !! "baseBranch")
      /\ SettingsManager.isProjectOverride "baseBranch" m = true
  | Some Types.global =>
      SettingsManager.getSetting K [] "baseBranch" m
      = SettingsManager.globalSettings m !! "baseBranch"
      /\ is_Some (SettingsManager.globalSettings m !! "baseBranch")
      /\ SettingsManager.isProjectOverride "baseBranch" m = false
  | None =>
      SettingsManager.getSetting K [] "baseBranch" m
      = SettingsManager.DEFAULT_SETTINGS K [] !! "baseBranch"
      /\ SettingsManager.isProjectOverride "baseBranch" m = false
  end
  /\ (forall width, isPaneWidthKey width = true ->
        SettingsManager.getEffectiveScope width m <> Some Types.project
        /\ SettingsManager.isProjectOverride width m = false).
Proof.
  apply (getEffectiveScope_names_the_source SettingsManager.limits_of_tests []
           "baseBranch"
           (SettingsManager.construct SettingsManager.Missing
              (SettingsManager.Parsed
                 {[ "baseBranch" := SettingsManager.VString "main" ]}))).
  reflexivity.
Defined.

(** X21. Setting and then removing a setting at the same scope undoes the
    update: when the object of that scope did not have the key, a successful
    updateSetting of a setting other than the pane-width bounds followed by
    removeSetting of the same key at the same scope leaves the global and
    the project object exactly as they were, so that every setting reads as
    before. *)
Theorem removeSetting_undoes_updateSetting
    (K : SettingsManager.Limits) (isValidBranchName isAgentName : string -> bool)
    (defaultEnabledAgents : list string)
    (key : string) (value : SettingsManager.Value) (scope : Types.SettingsScope)
    (m m' : SettingsManager.Manager) :
  isPaneWidthKey key = false ->
  match scope with
  | Types.global => SettingsManager.globalSettings m !! key = None
  | Types.project => SettingsManager.projectSettings m !! key = None
  end ->
  SettingsManager.updateSetting K isValidBranchName isAgentName key value scope m
  = SettingsManager.Updated m' ->
  let m'' := SettingsManager.removeSetting key scope m' in
  SettingsManager.globalSettings m'' = SettingsManager.globalSettings m
  /\ SettingsManager.projectSettings m'' = SettingsManager.projectSettings m
  /\ SettingsManager.getSettings K defaultEnabledAgents m''
     = SettingsManager.getSettings K defaultEnabledAgents m.
Proof.
  intros Hkey Habsent Hupd m''. subst m''.
  unfold SettingsManager.updateSetting in Hupd.
  destruct (SettingsManager.validateSetting _ _ _ _ _) as [msg|]; [discriminate|].
  unfold isPaneWidthKey in Hkey. rewrite Hkey in Hupd.
  assert (Hobjs : SettingsManager.globalSettings (SettingsManager.removeSetting key scope m')
                  = SettingsManager.globalSettings m
                  /\ SettingsManager.projectSettings
                       (SettingsManager.removeSetting key scope m')
                     = SettingsManager.projectSettings m).
  { destruct scope; injection Hupd as <-;
      cbn [SettingsManager.removeSetting SettingsManager.globalSettings
           SettingsManager.projectSettings SettingsManager.saveGlobalSettings
           SettingsManager.saveProjectSettings SettingsManager.setGlobal
           SettingsManager.setProject];
      rewrite delete_insert_eq, delete_id by done; done. }
  destruct Hobjs as [Hg Hp]. split; [exact Hg|]. split; [exact Hp|].
  unfold SettingsManager.getSettings. cbv zeta.
  rewrite (resolveGlobalPaneWidths_ext K m _ None None) by (by rewrite Hg).
  by rewrite Hg, Hp.
Qed.

(** A case of X21: a default agent set and removed at global scope. *)
Lemma removeSetting_undoes_updateSetting_witness :
  let K := SettingsManager.limits_of_tests in
  let m := SettingsManager.construct SettingsManager.Missing SettingsManager.Missing in
  let m' :=
    SettingsManager.saveGlobalSettings
      (SettingsManager.setGlobal
         {[ "defaultAgent" := SettingsManager.VString "claude" ]} m) in
  let m'' := SettingsManager.removeSetting "defaultAgent" Types.global m' in
  SettingsManager.globalSettings m'' = SettingsManager.globalSettings m
  /\ SettingsManager.projectSettings m'' = SettingsManager.projectSettings m
  /\ SettingsManager.getSettings K [] m'' = SettingsManager.getSettings K [] m.
Proof.
  apply (removeSetting_undoes_updateSetting SettingsManager.limits_of_tests
           (fun _ => true) (fun _ => true) [] "defaultAgent"
           (SettingsManager.VString "claude") Types.global
           (SettingsManager.construct SettingsManager.Missing SettingsManager.Missing));
    reflexivity.
Defined.

(** ** hooks/usePanes.ts: the guard, the initial load, the comparison of ids *)

Section SortFacts.
Import UsePanes.

Lemma string_leb_trans s1 s2 s3 :
  String.leb s1 s2 = true -> String.leb s2 s3 = true -> String.leb s1 s3 = true.
Proof.
  unfold String.leb. revert s2 s3.
  induction s1 as [|c1 s1 IH]; intros [|c2 s2] [|c3 s3]; simpl; try done.
  unfold Ascii.compare.
  destruct (N.compare_spec (N_of_ascii c1) (N_of_ascii c2)) as [E12|L12|G12];
    destruct (N.compare_spec (N_of_ascii c2) (N_of_ascii c3)) as [E23|L23|G23];
    destruct (N.compare_spec (N_of_ascii c1) (N_of_ascii c3)) as [E13|L13|G13];
    try done; try lia.
  apply IH.
Qed.

Lemma insertSorted_perm s l : insertSorted s l ≡ₚ s :: l.
Proof.
  induction l as [|t l IH]; [reflexivity|].
  simpl. destruct (String.leb s t); [reflexivity|].
  rewrite IH. apply perm_swap.
Qed.

Lemma sortStrings_perm l : sortStrings l ≡ₚ l.
Proof.
  induction l as [|s l IH]; [reflexivity|].
  simpl. fold (sortStrings l). by rewrite insertSorted_perm, IH.
Qed.

Lemma insertSorted_sorted s l :
  StronglySorted stringLe l -> StronglySorted stringLe (insertSorted s l).
Proof.
  induction l as [|t l IH]; intros Hl.
  - simpl. repeat constructor.
  - simpl. apply StronglySorted_inv in Hl as [Hl Ht].
    destruct (String.leb s t) eqn:Hst.
    + constructor; [by constructor|].
      constructor; [exact Hst|].
      eapply Forall_impl; [exact Ht|]. intros u Hu.
      exact (string_leb_trans _ _ _ Hst Hu).
    + constructor; [by apply IH|].
      rewrite insertSorted_perm. constructor; [|exact Ht].
      destruct (String.leb_total s t) as [H|H]; [congruence | exact H].
Qed.

Lemma sortStrings_sorted l : StronglySorted stringLe (sortStrings l).
Proof.
  induction l as [|s l IH]; [constructor|].
  simpl. fold (sortStrings l). by apply insertSorted_sorted.
Qed.

Lemma sortStrings_permutation l1 l2 : l1 ≡ₚ l2 -> sortStrings l1 = sortStrings l2.
Proof.
  intros Hperm.
  apply (StronglySorted_unique_strong stringLe).
  - intros x1 x2 _ _ H1 H2. by apply String.leb_antisym.
  - apply sortStrings_sorted.
  - apply sortStrings_sorted.
  - by rewrite !sortStrings_perm.
Qed.

Lemma paneIdsKey_permutation (ps qs : list Types.DmuxPane) :
  ps ≡ₚ qs -> paneIdsKey ps = paneIdsKey qs.
Proof.
  intros Hperm. unfold paneIdsKey. f_equal.
  apply sortStrings_permutation. by apply Permutation_map.
Qed.

End SortFacts.

Section LoadPanesGuardFacts.
Import Types UsePanes.
Variable World : Type.
Variable loadAndProcessPanes :
  bool -> World -> World * option (list DmuxPane * list string * gmap string string).
Variable rebindAndFilterPanes :
  list DmuxPane -> gmap string string -> list string -> bool ->
  list DmuxPane * bool * list DmuxPane.
Variable recreateKilledWorktreePanes :
  list DmuxPane -> list string -> World -> World * option (list DmuxPane).
Variable fetchTmuxPaneIds : World -> World * option (list string * gmap string string).
Variable rebindPaneByTitle : DmuxPane -> gmap string string -> list string -> DmuxPane.
Variable detectAndAddShellPanes :
  list DmuxPane -> list string -> World -> World * option (list DmuxPane * bool).
Variable destroyWelcomePaneIfNeeded : nat -> nat -> World -> World * option unit.
Variable enforcePaneTitles : list DmuxPane -> list string -> World -> World * option unit.
Variable saveUpdatedPaneConfig : list DmuxPane -> World -> World * option unit.
Variable handleLastPaneRemoval : World -> World * option unit.
Variable enforceControlPaneSize : World -> World * option unit.
Variable controlPaneId : option string.

Abbreviation run :=
  (loadPanes World loadAndProcessPanes rebindAndFilterPanes
     recreateKilledWorktreePanes fetchTmuxPaneIds rebindPaneByTitle
     detectAndAddShellPanes destroyWelcomePaneIfNeeded enforcePaneTitles
     saveUpdatedPaneConfig handleLastPaneRemoval enforceControlPaneSize).

(** X22. The guard of loadPanes against concurrent calls. A call that finds
    another call under way calls no helper and writes nothing: it only sets
    pendingLoad. A call that finds none under way always ends with the guard
    released, isLoadingPanes false, and with isLoading false, whatever the
    helpers do and also when one of them throws, so that no failure can
    block later calls; and with skipLoading set a call does nothing at
    all. *)
Theorem loadPanes_guard (skipLoading : bool) (arrivals : list bool) (st : St World) :
  let st' := run skipLoading controlPaneId arrivals st in
  (skipLoading = true -> st' = st)
  /\ (skipLoading = false -> isLoadingPanes (hook World st) = true ->
      world World st' = world World st
      /\ trace World st' = trace World st
      /\ hook World st' = setPendingLoad true (hook World st))
  /\ (skipLoading = false -> isLoadingPanes (hook World st) = false ->
      isLoadingPanes (hook World st') = false
      /\ isLoading (hook World st') = false).
Proof.
  intros st'. subst st'. unfold loadPanes. split; [|split].
  - intros ->. reflexivity.
  - intros -> ->. done.
  - intros -> ->. unfold bind at 1. cbn [modifyHook fst]. done.
Qed.

(** X23. The initial load. The first call of loadPanes (no other call under
    way, initialLoadComplete not yet set) reads the records through
    loadAndProcessPanes and, when that succeeds, takes them as the pane list
    as they are, marks the initial load complete and writes nothing; when
    the read throws, the error is logged at debug level and swallowed, the
    pane list is left alone and the initial load stays incomplete, so that
    the next call tries it again. *)
Theorem loadPanes_initial_load (st : St World) :
  isLoadingPanes (hook World st) = false ->
  initialLoadComplete (hook World st) = false ->
  let st' := run false controlPaneId [] st in
  match loadAndProcessPanes true (world World st) with
  | (w, Some (loadedPanes, _, _)) =>
      world World st' = w
      /\ panes (hook World st') = loadedPanes
      /\ panesRef (hook World st') = loadedPanes
      /\ initialLoadComplete (hook World st') = true
      /\ trace World st' = trace World st
  | (w, None) =>
      world World st' = w
      /\ panes (hook World st') = panes (hook World st)
      /\ panesRef (hook World st') = panesRef (hook World st)
      /\ initialLoadComplete (hook World st') = false
      /\ trace World st' = trace World st ++ [DebugLogged "usePanes"]
  end.
Proof.
  intros Hfree Hinit st'. subst st'. unfold loadPanes. rewrite Hfree.
  cbn [passes]. unfold iteration, tryCatch, bind, modifyHook, getHook, call, emit.
  cbn [fst snd hook world trace setIsLoadingPanes setPendingLoad initialLoadComplete].
  rewrite Hinit. cbn [negb].
  destruct (loadAndProcessPanes true (world World st)) as [w [[[loaded ids] t2i]|]];
    cbn; rewrite ?Hinit; done.
Qed.

(** X24. Reordering is not a change. When the records a pass ends with are
    those held in memory in another order, and no shell pane was added or
    removed, the pass neither replaces the pane list in memory nor writes
    the state file: the comparison is made on the sorted id:paneId pairs. *)
Theorem persist_ignores_reordering (f : Findings) (st : St World) :
  finalPanes f ≡ₚ panesRef (hook World st) ->
  shellPanesAdded f = false ->
  shellPanesRemoved f = false ->
  persist World saveUpdatedPaneConfig handleLastPaneRemoval enforceControlPaneSize
    controlPaneId f st
  = (st, Some tt).
Proof.
  intros Hperm Hadded Hremoved. unfold persist, bind, getHook.
  rewrite (paneIdsKey_permutation _ _ Hperm), String.eqb_refl, Hadded, Hremoved.
  reflexivity.
Qed.

End LoadPanesGuardFacts.

(** A case of X23: the application starts with two records in the state
    file. *)
Lemma loadPanes_initial_load_witness :
  let a := {| Types.id := "dmux-1"; Types.slug := "fix-auth"; Types.paneId := "%1";
              Types.type := Some Types.worktree;
              Types.worktreePath := Some "/repo/.dmux/worktrees/fix-auth" |} in
  let b := {| Types.id := "dmux-2"; Types.slug := "zsh"; Types.paneId := "%2";
              Types.type := Some Types.shell; Types.worktreePath := None |} in
  let w :=
    {| Reconciler.stateFile := [a; b]; Reconciler.livePanes := [];
       Reconciler.nextPaneNumber := 3; Reconciler.sidebarPaneId := "%0" |} in
  let st := {| UsePanes.world := w; UsePanes.hook := Reconciler.freshHook;
               UsePanes.trace := [] |} in
  let st' :=
    UsePanes.loadPanes Reconciler.World Reconciler.loadAndProcessPanes
      Reconciler.rebindAndFilterPanes Reconciler.recreateKilledWorktreePanes
      Reconciler.fetchTmuxPaneIds Reconciler.rebindPaneByTitle
      Reconciler.detectAndAddShellPanes (fun _ _ => Reconciler.noRecordEffect)
      Reconciler.enforcePaneTitles Reconciler.saveUpdatedPaneConfig
      Reconciler.noRecordEffect Reconciler.noRecordEffect false (Some "%0") [] st in
  UsePanes.world _ st' = w
  /\ UsePanes.panes (UsePanes.hook _ st') = [a; b]
  /\ UsePanes.panesRef (UsePanes.hook _ st') = [a; b]
  /\ UsePanes.initialLoadComplete (UsePanes.hook _ st') = true
  /\ UsePanes.trace _ st' = [].
Proof.
  intros a b w st.
  exact (loadPanes_initial_load Reconciler.World Reconciler.loadAndProcessPanes
           Reconciler.rebindAndFilterPanes Reconciler.recreateKilledWorktreePanes
           Reconciler.fetchTmuxPaneIds Reconciler.rebindPaneByTitle
           Reconciler.detectAndAddShellPanes (fun _ _ => Reconciler.noRecordEffect)
           Reconciler.enforcePaneTitles Reconciler.saveUpdatedPaneConfig
           Reconciler.noRecordEffect Reconciler.noRecordEffect (Some "%0") st
           eq_refl eq_refl).
Defined.

(** A case of X24: two records held in memory, found again in the other
    order. *)
Lemma persist_ignores_reordering_witness :
  let a := {| Types.id := "dmux-1"; Types.slug := "fix-auth"; Types.paneId := "%1";
              Types.type := Some Types.worktree;
              Types.worktreePath := Some "/repo/.dmux/worktrees/fix-auth" |} in
  let b := {| Types.id := "dmux-2"; Types.slug := "zsh"; Types.paneId := "%2";
              Types.type := Some Types.shell; Types.worktreePath := None |} in
  let w :=
    {| Reconciler.stateFile := [a; b]; Reconciler.livePanes := [];
       Reconciler.nextPaneNumber := 3; Reconciler.sidebarPaneId := "%0" |} in
  let st :=
    {| UsePanes.world := w;
       UsePanes.hook :=
         {| UsePanes.panes := [a; b]; UsePanes.panesRef := [a; b];
            UsePanes.initialLoadComplete := true; UsePanes.isLoadingPanes := true;
            UsePanes.pendingLoad := false; UsePanes.isLoading := false |};
       UsePanes.trace := [] |} in
  let f := {| UsePanes.loadedPanes := [a; b]; UsePanes.finalPanes := [b; a];
              UsePanes.shellPanesRemoved := false; UsePanes.shellPanesAdded := false |} in
  UsePanes.persist Reconciler.World Reconciler.saveUpdatedPaneConfig
    Reconciler.noRecordEffect Reconciler.noRecordEffect (Some "%0") f st
  = (st, Some tt).
Proof.
  intros a b w st f.
  apply (persist_ignores_reordering Reconciler.World Reconciler.saveUpdatedPaneConfig
           Reconciler.noRecordEffect Reconciler.noRecordEffect (Some "%0") f st);
    [apply perm_swap | reflexivity | reflexivity].
Defined.

(** ** DmuxApp.tsx and actions/implementations/closeAction.ts: removal and
    close *)

(** X25. What the pane-removed handler does when the pane is neither closing
    nor locked: it writes the state file exactly once, with the records whose
    logical id is not the one reported, in their order; the pane list in
    memory follows what was written. The write happens even when no record
    has that id: then every record is kept. Unless dmux runs in dev mode,
    the dev session is not restarted. *)
Theorem onPaneRemoved_removes_the_record
    (isDevMode : bool) (cwd : string)
    (savedForm : list Types.DmuxPane -> list Types.DmuxPane)
    (locks : PaneLifecycleManager.LockTable) (paneId : string)
    (st : DmuxApp.AppState) :
  PaneLifecycleManager.isClosing paneId locks = false ->
  PaneLifecycleManager.isLocked paneId locks = false ->
  let st' := DmuxApp.onPaneRemoved isDevMode cwd savedForm locks paneId st in
  DmuxApp.stateFile st'
  = savedForm (filter (fun p => negb (String.eqb (Types.id p) paneId))
                      (DmuxApp.panes st))
  /\ DmuxApp.panes st' = DmuxApp.stateFile st'
  /\ DmuxApp.stateFileWrites st' = S (DmuxApp.stateFileWrites st)
  /\ ((forall p, p ∈ DmuxApp.panes st -> Types.id p <> paneId) ->
      DmuxApp.stateFile st' = savedForm (DmuxApp.panes st)
      /\ DmuxApp.devSessionRestarts st' = DmuxApp.devSessionRestarts st)
  /\ (isDevMode = false ->
      DmuxApp.devSessionRestarts st' = DmuxApp.devSessionRestarts st).
Proof.
  intros Hclosing Hlocked st'. subst st'. unfold DmuxApp.onPaneRemoved.
  rewrite Hclosing, Hlocked. cbn [orb].
  set (kept := filter _ (DmuxApp.panes st)).
  assert (Hfields :
    forall s, s = DmuxApp.savePanes savedForm kept st
              \/ s = DmuxApp.restartDevSessionAtSource
                       (DmuxApp.savePanes savedForm kept st) ->
    DmuxApp.stateFile s = savedForm kept
    /\ DmuxApp.panes s = DmuxApp.stateFile s
    /\ DmuxApp.stateFileWrites s = S (DmuxApp.stateFileWrites st)).
  { intros s [-> | ->]; done. }
  match goal with |- context [find ?f ?l] => destruct (find f l) as [p|] eqn:Hfind end.
  - assert (Hcase :
      match Types.worktreePath p with
      | Some (String c rest) =>
          if isDevMode && String.eqb (String c rest) cwd
          then DmuxApp.restartDevSessionAtSource (DmuxApp.savePanes savedForm kept st)
          else DmuxApp.savePanes savedForm kept st
      | _ => DmuxApp.savePanes savedForm kept st
      end = DmuxApp.savePanes savedForm kept st
      \/ (isDevMode = true
          /\ match Types.worktreePath p with
             | Some (String c rest) =>
                 if isDevMode && String.eqb (String c rest) cwd
                 then DmuxApp.restartDevSessionAtSource
                        (DmuxApp.savePanes savedForm kept st)
                 else DmuxApp.savePanes savedForm kept st
             | _ => DmuxApp.savePanes savedForm kept st
             end = DmuxApp.restartDevSessionAtSource
                     (DmuxApp.savePanes savedForm kept st))).
    { destruct (Types.worktreePath p) as [[|c rest]|]; auto.
      destruct isDevMode; cbn [andb]; auto.
      destruct (String.eqb _ _); auto. }
    apply find_some in Hfind as [Hin Hid]. apply String.eqb_eq in Hid.
    destruct Hcase as [-> | [Hdev ->]].
    + destruct (Hfields _ (or_introl eq_refl)) as (H1 & H2 & H3).
      split; [exact H1|]. split; [exact H2|]. split; [exact H3|]. split.
      * intros Hnone. exfalso. apply (Hnone p); [by apply list_elem_of_In | exact Hid].
      * intros _. reflexivity.
    + destruct (Hfields _ (or_intror eq_refl)) as (H1 & H2 & H3).
      split; [exact H1|]. split; [exact H2|]. split; [exact H3|]. split.
      * intros Hnone. exfalso. apply (Hnone p); [by apply list_elem_of_In | exact Hid].
      * intros Hno. congruence.
  - destruct (Hfields _ (or_introl eq_refl)) as (H1 & H2 & H3).
    split; [exact H1|]. split; [exact H2|]. split; [exact H3|]. split.
    + intros Hnone. split; [|reflexivity]. rewrite H1. f_equal. subst kept.
      clear -Hnone. induction (DmuxApp.panes st) as [|p ps IH]; [reflexivity|].
      rewrite filter_cons_True.
      * f_equal. apply IH. intros q Hq. apply Hnone. by right.
      * apply Is_true_true, negb_true_iff, String.eqb_neq, Hnone. by left.
    + intros _. reflexivity.
Qed.

(** A case of X25: with no lock held, the handler is told that pane dmux-2
    is gone. *)
Lemma onPaneRemoved_removes_the_record_witness :
  let a := {| Types.id := "dmux-1"; Types.slug := "fix-auth"; Types.paneId := "%1";
              Types.type := Some Types.worktree;
              Types.worktreePath := Some "/repo/.dmux/worktrees/fix-auth" |} in
  let b := {| Types.id := "dmux-2"; Types.slug := "zsh"; Types.paneId := "%2";
              Types.type := Some Types.shell; Types.worktreePath := None |} in
  let st := {| DmuxApp.panes := [a; b]; DmuxApp.stateFile := [a; b];
               DmuxApp.stateFileWrites := 0; DmuxApp.devSessionRestarts := 0 |} in
  let st' := DmuxApp.onPaneRemoved false "/repo" (fun ps => ps) ∅ "dmux-2" st in
  DmuxApp.stateFile st'
  = filter (fun p => negb (String.eqb (Types.id p) "dmux-2")) (DmuxApp.panes st)
  /\ DmuxApp.panes st' = DmuxApp.stateFile st'
  /\ DmuxApp.stateFileWrites st' = S (DmuxApp.stateFileWrites st)
  /\ ((forall p, p ∈ DmuxApp.panes st -> Types.id p <> "dmux-2"%string) ->
      DmuxApp.stateFile st' = DmuxApp.panes st
      /\ DmuxApp.devSessionRestarts st' = DmuxApp.devSessionRestarts st)
  /\ (false = false ->
      DmuxApp.devSessionRestarts st' = DmuxApp.devSessionRestarts st).
Proof.
  intros a b st.
  apply (onPaneRemoved_removes_the_record false "/repo" (fun ps => ps) ∅ "dmux-2" st);
    reflexivity.
Defined.

(** X26. What closePane offers. A shell pane, or a pane without a worktree
    path, is closed at once with kill_only and no dialog. Otherwise a
    dismissable dialog is shown, and while another pane of the session is
    active on the pane's worktree the only option offered is kill_only: the
    two options that remove the worktree are offered only when no other pane
    uses it. In every dialog kill_only is the default and the only option
    not flagged as dangerous. *)
Theorem closePane_offers
    (isActiveDevSourcePath : option string -> option string -> bool)
    (pane : Types.DmuxPane) (contextPanes : list Types.DmuxPane) :
  match CloseAction.closePane isActiveDevSourcePath pane contextPanes with
  | CloseAction.Executes option =>
      option = "kill_only"%string
      /\ (Types.type pane = Some Types.shell \/ CloseAction.hasWorktreePath pane = false)
  | CloseAction.Choice title message options dismissable =>
      Types.type pane <> Some Types.shell
      /\ CloseAction.hasWorktreePath pane = true
      /\ dismissable = true
      /\ ((exists c, c ∈ contextPanes /\ Types.id c <> Types.id pane
             /\ isActiveDevSourcePath (Types.worktreePath c) (Types.worktreePath pane)
                = true)
          -> map CloseAction.optionId options = ["kill_only"%string])
      /\ ((forall c, c ∈ contextPanes -> Types.id c <> Types.id pane ->
             isActiveDevSourcePath (Types.worktreePath c) (Types.worktreePath pane)
             = false)
          -> map CloseAction.optionId options
             = ["kill_only"; "kill_and_clean"; "kill_clean_branch"]%string)
      /\ Forall (fun o =>
                   (CloseAction.default o = true <-> CloseAction.optionId o = "kill_only"%string)
                   /\ (CloseAction.danger o = false
                       <-> CloseAction.optionId o = "kill_only"%string))
                options
  end.
Proof.
  unfold CloseAction.closePane.
  destruct (CloseAction.isShell pane) eqn:Hshell.
  { cbn [orb]. split; [reflexivity|]. left. unfold CloseAction.isShell in Hshell.
    destruct (Types.type pane) as [[|]|]; done. }
  destruct (CloseAction.hasWorktreePath pane) eqn:Hwt; cbn [orb negb];
    [|split; [reflexivity | by right]].
  assert (Hnot : Types.type pane <> Some Types.shell).
  { intros Heq. unfold CloseAction.isShell in Hshell. by rewrite Heq in Hshell. }
  assert (Hsib : forall c,
            c ∈ CloseAction.siblingPanesOnWorktree isActiveDevSourcePath pane contextPanes
            <-> c ∈ contextPanes /\ Types.id c <> Types.id pane
                /\ isActiveDevSourcePath (Types.worktreePath c) (Types.worktreePath pane)
                   = true).
  { intros c. unfold CloseAction.siblingPanesOnWorktree.
    rewrite list_elem_of_In, filter_In, <- list_elem_of_In, andb_true_iff, negb_true_iff.
    rewrite String.eqb_neq. tauto. }
  destruct (CloseAction.siblingPanesOnWorktree isActiveDevSourcePath pane contextPanes)
    as [|s ss] eqn:Hlist; cbn [length Nat.ltb Nat.leb].
  - repeat split; try assumption.
    + intros (c & Hc). apply Hsib in Hc. by apply not_elem_of_nil in Hc.
    + repeat constructor; cbn; try done; intros; discriminate.
  - repeat split; try assumption.
    + intros Hnone. exfalso.
      assert (Hs : s ∈ s :: ss) by (by left).
      apply Hsib in Hs as (Hin & Hid & Hact).
      rewrite (Hnone s Hin Hid) in Hact. discriminate.
    + repeat constructor; cbn; try done; intros; discriminate.
Qed.

(** X27. The worktree cleanup of executeCloseOption is asked for only when
    the pane has a worktree path, the option chosen is kill_and_clean or
    kill_clean_branch, and no other record of the session has the same
    worktree path; the branch is deleted only for kill_clean_branch. In
    particular kill_only never removes a worktree, and a worktree shared
    with a sibling pane is never removed. *)
Theorem worktreeCleanup_guard
    (pane : Types.DmuxPane) (contextPanes : list Types.DmuxPane)
    (option : string) (deleteBranch : bool) :
  CloseAction.worktreeCleanup pane contextPanes option = Some deleteBranch ->
  CloseAction.hasWorktreePath pane = true
  /\ ((option = "kill_and_clean"%string /\ deleteBranch = false)
      \/ (option = "kill_clean_branch"%string /\ deleteBranch = true))
  /\ (forall p, p ∈ contextPanes -> Types.id p <> Types.id pane ->
        Types.worktreePath p <> Types.worktreePath pane)
  /\ CloseAction.worktreeCleanup pane contextPanes "kill_only" = None.
Proof.
  unfold CloseAction.worktreeCleanup. intros Hclean.
  destruct (CloseAction.hasWorktreePath pane) eqn:Hwt; [|discriminate].
  cbn [andb] in *.
  destruct (String.eqb option "kill_and_clean" || String.eqb option "kill_clean_branch")
    eqn:Hopt; [|discriminate].
  match type of Hclean with context [List.filter ?f ?l] =>
    destruct (List.filter f l) as [|s ss] eqn:Hsib end; [|discriminate].
  cbn in Hclean. injection Hclean as <-.
  split; [reflexivity|]. split; [|split; [|reflexivity]].
  - apply orb_true_iff in Hopt as [Ho|Ho]; apply String.eqb_eq in Ho; subst option;
      [left | right]; split; reflexivity.
  - intros p Hin Hid Hsame.
    assert (Hp : p ∈ List.filter
              (fun p => CloseAction.sameWorktreePath (Types.worktreePath p)
                          (Types.worktreePath pane))
              (CloseAction.updatedPanes pane contextPanes)).
    { apply list_elem_of_In, filter_In. split.
      - unfold CloseAction.updatedPanes. apply filter_In. split; [by apply list_elem_of_In|].
        apply negb_true_iff, String.eqb_neq, Hid.
      - rewrite Hsame. unfold CloseAction.sameWorktreePath.
        destruct (Types.worktreePath pane); [apply String.eqb_refl | reflexivity]. }
    rewrite Hsib in Hp. by apply not_elem_of_nil in Hp.
Qed.

(** A case of X27: the only pane of its worktree, closed with
    kill_clean_branch. *)
Lemma worktreeCleanup_guard_witness :
  let a := {| Types.id := "dmux-1"; Types.slug := "fix-auth"; Types.paneId := "%1";
              Types.type := Some Types.worktree;
              Types.worktreePath := Some "/repo/.dmux/worktrees/fix-auth" |} in
  let b := {| Types.id := "dmux-2"; Types.slug := "zsh"; Types.paneId := "%2";
              Types.type := Some Types.shell; Types.worktreePath := None |} in
  CloseAction.hasWorktreePath a = true
  /\ (("kill_clean_branch"%string = "kill_and_clean"%string /\ true = false)
      \/ ("kill_clean_branch"%string = "kill_clean_branch"%string /\ true = true))
  /\ (forall p, p ∈ [a; b] -> Types.id p <> Types.id a ->
        Types.worktreePath p <> Types.worktreePath a)
  /\ CloseAction.worktreeCleanup a [a; b] "kill_only" = None.
Proof.
  intros a b.
  apply (worktreeCleanup_guard a [a; b] "kill_clean_branch" true).
  reflexivity.
Defined.

(** ** The checksum of any string, and what a pass holds in memory *)

(** X28. calculateLayoutChecksum renders the checksum of every string, not
    only of the descriptors the encoder builds, as exactly four lowercase
    hexadecimal digits, and reading these digits back gives the 16-bit value
    of the rotate-add-mask accumulator over the bytes of the string; the
    empty string has checksum 0000. *)
Theorem calculateLayoutChecksum_reads_back (layout : string) :
  String.length (Tmux.calculateLayoutChecksum layout) = 4%nat
  /\ forallb isLowerHexDigit (list_ascii_of_string (Tmux.calculateLayoutChecksum layout))
     = true
  /\ hexValue (Tmux.calculateLayoutChecksum layout) = Tmux.checksumValue layout
  /\ 0 <= Tmux.checksumValue layout < 65536
  /\ Tmux.calculateLayoutChecksum EmptyString = "0000"%string.
Proof.
  pose proof (calculateLayoutChecksum_field layout) as Hfield.
  unfold isChecksumField in Hfield.
  apply andb_true_iff in Hfield as [Hfield Hvalue].
  apply andb_true_iff in Hfield as [Hlen Hhex].
  apply Nat.eqb_eq in Hlen. apply Z.eqb_eq in Hvalue.
  rewrite <- checksumValue_rotateAddMask in Hvalue.
  split; [exact Hlen|]. split; [exact Hhex|]. split; [exact Hvalue|].
  split; [apply checksumValue_range | reflexivity].
Qed.

Section PersistFacts.
Import Types UsePanes.
Variable World : Type.
Variable saveUpdatedPaneConfig : list DmuxPane -> World -> World * option unit.
Variable handleLastPaneRemoval : World -> World * option unit.
Variable enforceControlPaneSize : World -> World * option unit.
Variable controlPaneId : option string.

(** X29. Memory follows what is written. Whenever a pass of loadPanes writes
    the state file, the list it writes is the list of records it ends with,
    it is written once, and the pane list in memory has been set to that
    same list before the write, so that it holds it also when the write or
    a step after it throws. *)
Theorem persist_memory_follows_write (f : Findings) (st : St World) :
  mustSave (panesRef (hook World st)) f = true ->
  let st' :=
    fst (persist World saveUpdatedPaneConfig handleLastPaneRemoval
           enforceControlPaneSize controlPaneId f st) in
  saves (trace World st') = saves (trace World st) ++ [finalPanes f]
  /\ panes (hook World st') = finalPanes f
  /\ panesRef (hook World st') = finalPanes f.
Proof.
  intros Hsave st'. subst st'. split.
  { rewrite (persist_saves World saveUpdatedPaneConfig handleLastPaneRemoval
               enforceControlPaneSize controlPaneId f st).
    by rewrite Hsave. }
  unfold mustSave in Hsave. apply andb_true_iff in Hsave as [Houter Hinner].
  unfold persist, bind, getHook, modifyHook, emit, call, tryCatch, ret.
  cbn [fst snd hook]. rewrite Houter. cbn [fst snd hook]. rewrite Hinner.
  cbn [fst snd hook world trace].
  destruct (saveUpdatedPaneConfig (finalPanes f) (world World st)) as [w [[]|]];
    cbn [fst snd hook world trace]; [|done].
  destruct (shellPanesRemoved f); cbn [fst snd hook]; [|done].
  destruct (Nat.eqb (length (finalPanes f)) 0); cbn [fst snd hook world trace].
  - destruct (handleLastPaneRemoval w) as [w' [[]|]]; done.
  - destruct controlPaneId as [[|c rest]|]; cbn [fst snd hook world trace]; try done.
    destruct (enforceControlPaneSize w) as [w' [[]|]]; done.
Qed.

End PersistFacts.

(** A case of X29: a pass that adopted an untracked pane. *)
Lemma persist_memory_follows_write_witness :
  let b := {| Types.id := "dmux-%5"; Types.slug := "zsh"; Types.paneId := "%5";
              Types.type := Some Types.shell; Types.worktreePath := None |} in
  let w :=
    {| Reconciler.stateFile := []; Reconciler.livePanes := [];
       Reconciler.nextPaneNumber := 6; Reconciler.sidebarPaneId := "%0" |} in
  let st :=
    {| UsePanes.world := w;
       UsePanes.hook :=
         {| UsePanes.panes := []; UsePanes.panesRef := [];
            UsePanes.initialLoadComplete := true; UsePanes.isLoadingPanes := true;
            UsePanes.pendingLoad := false; UsePanes.isLoading := false |};
       UsePanes.trace := [] |} in
  let f := {| UsePanes.loadedPanes := []; UsePanes.finalPanes := [b];
              UsePanes.shellPanesRemoved := false; UsePanes.shellPanesAdded := true |} in
  let st' :=
    fst (UsePanes.persist Reconciler.World Reconciler.saveUpdatedPaneConfig
           Reconciler.noRecordEffect Reconciler.noRecordEffect (Some "%0") f st) in
  UsePanes.saves (UsePanes.trace _ st') = UsePanes.saves (UsePanes.trace _ st) ++ [[b]]
  /\ UsePanes.panes (UsePanes.hook _ st') = [b]
  /\ UsePanes.panesRef (UsePanes.hook _ st') = [b].
Proof.
  intros b w st f.
  apply (persist_memory_follows_write Reconciler.World Reconciler.saveUpdatedPaneConfig
           Reconciler.noRecordEffect Reconciler.noRecordEffect (Some "%0") f st).
  reflexivity.
Defined.

(** ** utils/tmux.ts: the row loop of the encoder places every pane *)

Section RowLoopFacts.
Import Tmux.
Variables (contentPanes : list string).
Variables (windowHeight cols rows contentWidth contentStartX paneHeight
           maxComfortableWidth : Z).
Variable spacerLast : bool.

Abbreviation body :=
  (rowStep contentPanes windowHeight cols rows contentWidth contentStartX paneHeight
     maxComfortableWidth spacerLast).

Lemma buildRowPanes_length panes widths spacer sw rh cy ax :
  length (buildRowPanes panes widths spacer sw rh cy ax) = length panes.
Proof.
  revert widths ax. induction panes as [|p ps IH]; intros widths ax; [reflexivity|].
  simpl. by rewrite IH.
Qed.

Lemma rowStep_paneIndex st row :
  paneIndex (body st row)
  = (paneIndex st
     + length (take (Z.to_nat cols) (drop (paneIndex st) contentPanes)))%nat.
Proof.
  unfold rowStep. cbv zeta.
  destruct (if _ : bool then _ else _) as [widths spacerWidth]. reflexivity.
Qed.

Lemma rowStep_gridRows_length st row :
  take (Z.to_nat cols) (drop (paneIndex st) contentPanes) <> [] ->
  length (gridRows (body st row)) = S (length (gridRows st)).
Proof.
  intros Hne. unfold rowStep. cbv zeta.
  destruct (take (Z.to_nat cols) (drop (paneIndex st) contentPanes)) as [|p ps];
    [done|].
  destruct (if _ : bool then _ else _) as [widths spacerWidth].
  cbn [gridRows].
  match goal with |- context [match ?b with [] => _ | _ => _ end] =>
    destruct b as [|a [|b' l]] eqn:Hb end.
  - apply (f_equal (@length string)) in Hb. simpl in Hb. discriminate Hb.
  - rewrite length_app. simpl. lia.
  - rewrite length_app. simpl. lia.
Qed.

Lemma row_loop_invariant (k : nat) :
  (0 < Z.to_nat cols)%nat ->
  (k <= Z.to_nat rows)%nat ->
  ((Z.to_nat rows - 1) * Z.to_nat cols < length contentPanes)%nat ->
  let st := fold_left body (LayoutCalculator.upto (Z.of_nat k))
              {| paneIndex := 0; currentY := 0; gridRows := [] |} in
  paneIndex st = Nat.min (k * Z.to_nat cols) (length contentPanes)
  /\ length (gridRows st) = k.
Proof.
  intros Hc Hk Hlast. induction k as [|k IH].
  - simpl. split; reflexivity.
  - rewrite upto_succ. cbv zeta. rewrite fold_left_app. cbn [fold_left].
    destruct IH as [Hidx Hlen]; [lia|].
    set (st := fold_left body (LayoutCalculator.upto (Z.of_nat k)) _) in *.
    assert (Hbelow : (k * Z.to_nat cols < length contentPanes)%nat) by nia.
    assert (Htake : length (take (Z.to_nat cols) (drop (paneIndex st) contentPanes))
                    = Nat.min (Z.to_nat cols) (length contentPanes - k * Z.to_nat cols)).
    { rewrite length_take, length_drop, Hidx. lia. }
    split.
    + rewrite rowStep_paneIndex, Htake, Hidx. lia.
    + rewrite rowStep_gridRows_length, Hlen; [reflexivity|].
      intros Hnil. rewrite Hnil in Htake. simpl in Htake. lia.
Qed.

End RowLoopFacts.

(** X30. The row loop of generateSidebarGridLayout places every pane exactly
    once: for a column count of at least 1 and ceil(panes / columns) rows,
    when the loop ends paneIndex is the number of content panes, and the
    grid has exactly one entry per row, none of them skipped as empty. *)
Theorem row_loop_places_every_pane
    (contentPanes : list string)
    (windowHeight cols contentWidth contentStartX paneHeight maxComfortableWidth : Z)
    (spacerLast : bool) :
  1 <= cols ->
  let rows := JS.ceil_div (Z.of_nat (length contentPanes)) cols in
  let final :=
    fold_left
      (Tmux.rowStep contentPanes windowHeight cols rows contentWidth contentStartX
         paneHeight maxComfortableWidth spacerLast)
      (LayoutCalculator.upto rows)
      {| Tmux.paneIndex := 0; Tmux.currentY := 0; Tmux.gridRows := [] |} in
  Tmux.paneIndex final = length contentPanes
  /\ length (Tmux.gridRows final) = Z.to_nat rows.
Proof.
  intros Hcols rows final.
  pose proof (ceil_div_bounds (Z.of_nat (length contentPanes)) cols Hcols) as Hceil.
  fold rows in Hceil. subst final. clearbody rows.
  destruct (Nat.eq_dec (length contentPanes) 0%nat) as [Hempty|Hsome].
  { assert (rows = 0) as -> by (rewrite Hempty in Hceil; simpl in Hceil; nia).
    simpl. split; [by rewrite Hempty | reflexivity]. }
  assert (Hone : 1 <= rows) by nia.
  assert (Hlast : ((Z.to_nat rows - 1) * Z.to_nat cols < length contentPanes)%nat).
  { apply Nat2Z.inj_lt. rewrite Nat2Z.inj_mul, Nat2Z.inj_sub by lia.
    rewrite !Z2Nat.id by lia. simpl (Z.of_nat 1). nia. }
  destruct (row_loop_invariant contentPanes windowHeight cols rows contentWidth
              contentStartX paneHeight maxComfortableWidth spacerLast
              (Z.to_nat rows)) as [Hidx Hlen]; [lia | lia | exact Hlast |].
  rewrite Z2Nat.id in Hidx, Hlen by lia.
  split; [|exact Hlen]. rewrite Hidx. apply Nat.min_r.
  apply Nat2Z.inj_le. rewrite Nat2Z.inj_mul, !Z2Nat.id by lia. nia.
Qed.

(** A case of X30: five panes in two columns. *)
Lemma row_loop_places_every_pane_witness :
  let contentPanes := ["%1"; "%2"; "%3"; "%4"; "%5"]%string in
  let rows := JS.ceil_div (Z.of_nat (length contentPanes)) 2 in
  let final :=
    fold_left (Tmux.rowStep contentPanes 60 2 rows 159 41 19 100 false)
      (LayoutCalculator.upto rows)
      {| Tmux.paneIndex := 0; Tmux.currentY := 0; Tmux.gridRows := [] |} in
  Tmux.paneIndex final = length contentPanes
  /\ length (Tmux.gridRows final) = Z.to_nat rows.
Proof.
  apply (row_loop_places_every_pane ["%1"; "%2"; "%3"; "%4"; "%5"]%string
           60 2 159 41 19 100 false).
  lia.
Defined.
